(** * everything-mcp: the es.exe backend and its configuration

    A shallow embedding of [everything_mcp/backend.py] and
    [everything_mcp/config.py], and the properties of discovery, query
    execution and result materialization proved about it.

    Conventions.
    - A Python [str] is a list of Unicode code points ([str := list N]);
      [lit] turns an ASCII literal into one.  [bytes] is a list of octets.
    - A Python [int] is a [Z].
    - Code that can raise returns a [result]; code that talks to the
      operating system runs in the state-and-exception monad [M] over an
      abstract world, whose answers are given by the oracles of [OS].
    - The parts of CPython the code relies on are modelled next to their
      use: [str.strip], [str.splitlines], [int()], the UTF-8 codec,
      [pathlib] (both flavours, CPython 3.11), [float] formatting.  The
      Unicode character database (alphabetic, digit, lower-casing) is a
      parameter, [Unicode]. *)

From Stdlib Require Import ZArith NArith List String Ascii Bool Lia.
Import ListNotations.

Set Implicit Arguments.

(* ================================================================== *)
(** * Python values *)
(* ================================================================== *)

Definition char := N.
Definition str := list char.
Definition bytes := list N.

(** An ASCII literal of the source, as a [str]. *)
Definition lit (s : string) : str := map N_of_ascii (list_ascii_of_string s).

Definition str_eqb (a b : str) : bool :=
  if list_eq_dec N.eq_dec a b then true else false.

(** Truthiness of a string: [bool(s)], i.e. [s] is not empty. *)
Definition truthy (s : str) : bool :=
  match s with [] => false | _ :: _ => true end.

(** [a or b] on strings. *)
Definition str_or (a b : str) : str := if truthy a then a else b.

(** [s.startswith(p)] *)
Fixpoint startswith (p s : str) : bool :=
  match p, s with
  | [], _ => true
  | _ :: _, [] => false
  | a :: p', b :: s' => N.eqb a b && startswith p' s'
  end.

(** [s.endswith(p)], as a proposition: used in statements only. *)
Definition ends_with (s suffix : str) : Prop := exists pre, s = pre ++ suffix.

(** [p in s] for strings. *)
Fixpoint str_contains (p s : str) : bool :=
  startswith p s ||
  match s with
  | [] => false
  | _ :: s' => str_contains p s'
  end.

(** [sep.join(parts)] *)
Fixpoint join (sep : str) (parts : list str) : str :=
  match parts with
  | [] => []
  | [p] => p
  | p :: rest => p ++ sep ++ join sep rest
  end.

(** ** Decimal rendering of integers: [str(n)] *)

Fixpoint str_of_uint (u : Decimal.uint) : str :=
  match u with
  | Decimal.Nil => []
  | Decimal.D0 u => 48%N :: str_of_uint u
  | Decimal.D1 u => 49%N :: str_of_uint u
  | Decimal.D2 u => 50%N :: str_of_uint u
  | Decimal.D3 u => 51%N :: str_of_uint u
  | Decimal.D4 u => 52%N :: str_of_uint u
  | Decimal.D5 u => 53%N :: str_of_uint u
  | Decimal.D6 u => 54%N :: str_of_uint u
  | Decimal.D7 u => 55%N :: str_of_uint u
  | Decimal.D8 u => 56%N :: str_of_uint u
  | Decimal.D9 u => 57%N :: str_of_uint u
  end.

Definition str_of_N (n : N) : str := str_of_uint (N.to_uint n).

Definition str_of_int (z : Z) : str :=
  if (z <? 0)%Z then lit "-" ++ str_of_N (Z.to_N (- z))
  else str_of_N (Z.to_N z).

(* ================================================================== *)
(** * Exceptions *)
(* ================================================================== *)

(** The exception classes the code names or can meet.  All of them derive
    from [Exception]: what an [except Exception] clause lets through
    ([asyncio.CancelledError], [KeyboardInterrupt] and the other direct
    children of [BaseException]) is not part of the model. *)
Inductive exn_class : Type :=
| Exception
| RuntimeError
| ValueError
| UnicodeDecodeError
| LookupError
| OverflowError
| OSError
| FileNotFoundError
| PermissionError
| SubprocessError
| TimeoutExpired
| AsyncioTimeoutError
| ImportError
| AttributeError.

Definition exn_class_eqb (a b : exn_class) : bool :=
  match a, b with
  | Exception, Exception | RuntimeError, RuntimeError
  | ValueError, ValueError | UnicodeDecodeError, UnicodeDecodeError
  | LookupError, LookupError | OverflowError, OverflowError
  | OSError, OSError | FileNotFoundError, FileNotFoundError
  | PermissionError, PermissionError | SubprocessError, SubprocessError
  | TimeoutExpired, TimeoutExpired
  | AsyncioTimeoutError, AsyncioTimeoutError
  | ImportError, ImportError | AttributeError, AttributeError => true
  | _, _ => false
  end.

(** The direct base class.  [asyncio.TimeoutError] is the built-in
    [TimeoutError] (CPython 3.11), a subclass of [OSError]. *)
Definition base_class (c : exn_class) : exn_class :=
  match c with
  | UnicodeDecodeError => ValueError
  | FileNotFoundError | PermissionError | AsyncioTimeoutError => OSError
  | TimeoutExpired => SubprocessError
  | _ => Exception
  end.

(** [issubclass(c, target)]: the hierarchy above is at most two deep. *)
Definition issubclass (c target : exn_class) : bool :=
  exn_class_eqb c target
  || exn_class_eqb (base_class c) target
  || exn_class_eqb (base_class (base_class c)) target.

Record exn : Type := Exn { exn_type : exn_class; exn_message : str }.

(** [except (c1, c2, ...)]: does the clause catch [e]? *)
Definition caught_by (classes : list exn_class) (e : exn) : bool :=
  existsb (issubclass (exn_type e)) classes.

Inductive result (A : Type) : Type :=
| Return (a : A)
| Raise (e : exn).
Arguments Return {A} a.
Arguments Raise {A} e.

(* ================================================================== *)
(** * backend.py: size formatting *)
(* ================================================================== *)

Local Open Scope Z_scope.

(** [float(n)] for [n >= 0]: the nearest IEEE-754 double, ties to even, as
    the integer it denotes; [None] is [OverflowError].  A double has 53
    significant bits and the largest finite one is below [2^1024]. *)
Definition float_of_int (n : Z) : option Z :=
  let bits := if n =? 0 then 0 else Z.log2 n + 1 in
  if bits <=? 53 then Some n
  else
    let shift := bits - 53 in
    let q := Z.shiftr n shift in
    let r := Z.land n (Z.ones shift) in
    let half := Z.shiftl 1 (shift - 1) in
    let q' := if (half <? r) || ((r =? half) && Z.odd q) then q + 1 else q in
    let v := Z.shiftl q' shift in
    if v <? 2 ^ 1024 then Some v else None.

(** [f"{value:.1f}"] for the double [v / 2^e], [v >= 0]: the exact value
    rounded to one decimal place, ties to even. *)
Definition format_1f (v e : Z) : str :=
  let d := 2 ^ e in
  let t := 10 * v in
  let q := t / d in
  let r := t mod d in
  let q' := if (d <? 2 * r) || ((2 * r =? d) && Z.odd q) then q + 1 else q in
  str_of_int (q' / 10) ++ lit "." ++ str_of_int (q' mod 10).

(** The [for unit in (...)] loop of [human_size]; the running [value] is
    the double [v / 2^e], and [value /= 1024.0] adds 10 to [e]. *)
Fixpoint human_size_loop (units : list string) (v e : Z) : str :=
  match units with
  | [] => format_1f v e ++ lit " PB"
  | unit :: rest =>
      if v <? 1024 * 2 ^ e then
        if String.eqb unit "B"
        then str_of_int (v / 2 ^ e) ++ lit " " ++ lit unit
        else format_1f v e ++ lit " " ++ lit unit
      else human_size_loop rest v (e + 10)
  end.

Definition human_size (size : Z) : result str :=
  if size <? 0 then Return (lit "unknown")
  else
    match float_of_int size with
    | None => Raise (Exn OverflowError (lit "int too large to convert to float"))
    | Some v =>
        Return (human_size_loop ["B"; "KB"; "MB"; "GB"; "TB"]%string v 0)
    end.

(* ================================================================== *)
(** * backend.py: SearchResult *)
(* ================================================================== *)

Record SearchResult : Type := mkSearchResult {
  path : str;
  name : str;
  is_dir : bool;
  size : Z;
  date_modified : str;
  date_created : str;
  extension : str
}.

(** [SearchResult(path=p, name=n)]: the dataclass defaults. *)
Definition SearchResult_default (p n : str) : SearchResult :=
  mkSearchResult p n false (-1) [] [] [].

(** Values stored in the serialized dictionary. *)
Inductive value : Type :=
| VStr (s : str)
| VInt (z : Z).

(** A [dict] in insertion order. *)
Definition dict := list (string * value).

Definition dict_set (d : dict) (k : string) (v : value) : dict :=
  if existsb (fun kv => String.eqb (fst kv) k) d
  then map (fun kv => if String.eqb (fst kv) k then (k, v) else kv) d
  else d ++ [(k, v)].

Definition dict_get (d : dict) (k : string) : option value :=
  match find (fun kv => String.eqb (fst kv) k) d with
  | Some kv => Some (snd kv)
  | None => None
  end.

Definition dict_has (d : dict) (k : string) : bool :=
  existsb (fun kv => String.eqb (fst kv) k) d.

Definition to_dict (self : SearchResult) : result dict :=
  let d : dict :=
    [ ("path", VStr (path self));
      ("name", VStr (name self));
      ("type", VStr (if is_dir self then lit "folder" else lit "file")) ]%string in
  let after_size : result dict :=
    if negb (is_dir self) && (0 <=? size self) then
      let d1 := dict_set d "size" (VInt (size self)) in
      match human_size (size self) with
      | Return h => Return (dict_set d1 "size_human" (VStr h))
      | Raise e => Raise e
      end
    else Return d in
  match after_size with
  | Raise e => Raise e
  | Return d =>
      let d := if truthy (extension self)
               then dict_set d "extension" (VStr (extension self)) else d in
      let d := if truthy (date_modified self)
               then dict_set d "date_modified" (VStr (date_modified self)) else d in
      let d := if truthy (date_created self)
               then dict_set d "date_created" (VStr (date_created self)) else d in
      Return d
  end.

(* ================================================================== *)
(** * CPython built-ins used by the code *)
(* ================================================================== *)

(** ** Whitespace and line boundaries *)

Definition char_in (cs : list char) (c : char) : bool := existsb (N.eqb c) cs.

(** [c.isspace()]: the code points CPython treats as whitespace. *)
Definition isspace (c : char) : bool :=
  char_in [9; 10; 11; 12; 13; 28; 29; 30; 31; 32; 133; 160; 5760;
           8192; 8193; 8194; 8195; 8196; 8197; 8198; 8199; 8200; 8201; 8202;
           8232; 8233; 8239; 8287; 12288]%N c.

(** The line boundaries of [str.splitlines]. *)
Definition islinebreak (c : char) : bool :=
  char_in [10; 11; 12; 13; 28; 29; 30; 133; 8232; 8233]%N c.

Fixpoint lstrip_by (f : char -> bool) (s : str) : str :=
  match s with
  | [] => []
  | c :: s' => if f c then lstrip_by f s' else s
  end.

Fixpoint rstrip_by (f : char -> bool) (s : str) : str :=
  match s with
  | [] => []
  | c :: s' =>
      match rstrip_by f s' with
      | [] => if f c then [] else [c]
      | t => c :: t
      end
  end.

(** [s.strip()] *)
Definition strip (s : str) : str := rstrip_by isspace (lstrip_by isspace s).

(** [s.rstrip(chars)] and [s.lstrip(chars)] *)
Definition rstrip_chars (chars : str) (s : str) : str := rstrip_by (char_in chars) s.
Definition lstrip_chars (chars : str) (s : str) : str := lstrip_by (char_in chars) s.

(** [s.splitlines()]: [cur] is the line being read, last character first.
    A carriage return directly followed by a line feed is one boundary; a
    final line without a boundary is kept unless it is empty. *)
Fixpoint splitlines_from (cur : str) (s : str) : list str :=
  match s with
  | [] => match cur with [] => [] | _ :: _ => [rev cur] end
  | c :: rest =>
      if islinebreak c then
        rev cur ::
        (if N.eqb c 13 then
           match rest with
           | c' :: rest' =>
               if N.eqb c' 10 then splitlines_from [] rest'
               else splitlines_from [] rest
           | [] => splitlines_from [] rest
           end
         else splitlines_from [] rest)
      else splitlines_from (c :: cur) rest
  end.

Definition splitlines (s : str) : list str := splitlines_from [] s.

(** [s.split(sep)] for a one-character separator. *)
Fixpoint split_from (sep : char) (cur : str) (s : str) : list str :=
  match s with
  | [] => [rev cur]
  | c :: rest =>
      if N.eqb c sep then rev cur :: split_from sep [] rest
      else split_from sep (c :: cur) rest
  end.

Definition split (sep : char) (s : str) : list str := split_from sep [] s.

(** [s.replace(a, b)] for single characters. *)
Definition replace_char (a b : char) (s : str) : str :=
  map (fun c => if N.eqb c a then b else c) s.

(** [s.rfind(c)]: the last index of [c], or [-1]. *)
Fixpoint rfind_from (c : char) (i : Z) (found : Z) (s : str) : Z :=
  match s with
  | [] => found
  | x :: s' => rfind_from c (i + 1) (if N.eqb x c then i else found) s'
  end.

Definition rfind (c : char) (s : str) : Z := rfind_from c 0 (-1) s.

Definition len (s : str) : Z := Z.of_nat (List.length s).

(** [s[i:]] for [i >= 0]. *)
Definition slice_from (i : Z) (s : str) : str := skipn (Z.to_nat i) s.

(** ** The Unicode character database

    The tables behind [str.isalpha], [str.isdigit], the decimal value of a
    digit and [str.lower] are data of the interpreter, taken as given. *)
Class Unicode : Type := {
  isalpha : char -> bool;
  isdigit : char -> bool;
  decimal_value : char -> option Z;
  lower : str -> str
}.

(** ** [int(s)] *)

(** Whitespace that [int()] skips around the number: the control characters
    28 to 31 are whitespace for [str.strip] but not here. *)
Definition int_isspace (c : char) : bool :=
  isspace c && negb ((28 <=? c)%N && (c <=? 31)%N).

Section IntParsing.
Context {U : Unicode}.

Definition is_decimal (c : char) : bool :=
  match decimal_value c with Some _ => true | None => false end.

(** The digits of the literal, single underscores allowed between them:
    the value read so far and the number of digit characters. *)
Fixpoint int_digits (acc : Z) (count : Z) (s : str) : option (Z * Z) :=
  match s with
  | [] => Some (acc, count)
  | c :: rest =>
      if N.eqb c 95 then
        match rest with
        | d :: _ => if is_decimal d then int_digits acc count rest else None
        | [] => None
        end
      else
        match decimal_value c with
        | Some v => int_digits (10 * acc + v) (count + 1) rest
        | None => None
        end
  end.

(** [int(s)]; [None] is [ValueError].  [max_str_digits] is the
    interpreter's limit on the length of a decimal literal (0: none),
    which CPython applies to literals of more than 640 digits. *)
Definition py_int (max_str_digits : Z) (s : str) : option Z :=
  let s := rstrip_by int_isspace (lstrip_by int_isspace s) in
  let '(negative, body) :=
    match s with
    | 43%N :: r => (false, r)
    | 45%N :: r => (true, r)
    | _ => (false, s)
    end in
  match body with
  | [] => None
  | c :: _ =>
      if is_decimal c then
        match int_digits 0 0 body with
        | Some (v, count) =>
            if (640 <? count) && (0 <? max_str_digits) && (max_str_digits <? count)
            then None
            else Some (if negative then - v else v)
        | None => None
        end
      else None
  end.
End IntParsing.

(** ** The UTF-8 codec *)

(** What the decoder makes of the input: a code point, or an ill-formed
    span that [errors="replace"] turns into one U+FFFD and
    [errors="strict"] into [UnicodeDecodeError]. *)
Inductive utf8_item : Type :=
| Decoded (c : char)
| IllFormed.

(** The decoder between two code points ([Start]) or inside a multi-byte
    sequence: [need] more continuation bytes, the next one within
    [lo..hi], [acc] the bits read so far. *)
Inductive utf8_state : Type :=
| Start
| Need (need : nat) (acc : N) (lo hi : N).

Local Open Scope N_scope.

Definition utf8_lead (b : N) : list utf8_item * utf8_state :=
  if b <? 128 then ([Decoded b], Start)
  else if b <? 194 then ([IllFormed], Start)
  else if b <? 224 then ([], Need 0 (b - 192) 128 191)
  else if b =? 224 then ([], Need 1 0 160 191)
  else if b =? 237 then ([], Need 1 13 128 159)
  else if b <? 240 then ([], Need 1 (b - 224) 128 191)
  else if b =? 240 then ([], Need 2 0 144 191)
  else if b <? 244 then ([], Need 2 (b - 240) 128 191)
  else if b =? 244 then ([], Need 2 4 128 143)
  else ([IllFormed], Start).

Definition utf8_step (st : utf8_state) (b : N) : list utf8_item * utf8_state :=
  match st with
  | Start => utf8_lead b
  | Need n acc lo hi =>
      if (lo <=? b) && (b <=? hi) then
        let acc' := acc * 64 + (b - 128) in
        match n with
        | O => ([Decoded acc'], Start)
        | S n' => ([], Need n' acc' 128 191)
        end
      else
        let '(items, st') := utf8_lead b in (IllFormed :: items, st')
  end.

Fixpoint utf8_scan (st : utf8_state) (data : bytes) : list utf8_item :=
  match data with
  | [] => match st with Start => [] | Need _ _ _ _ => [IllFormed] end
  | b :: rest =>
      let '(items, st') := utf8_step st b in items ++ utf8_scan st' rest
  end.

Local Close Scope N_scope.

(** [data.decode("utf-8")]: [None] is [UnicodeDecodeError]. *)
Fixpoint utf8_strict_items (items : list utf8_item) : option str :=
  match items with
  | [] => Some []
  | Decoded c :: rest =>
      match utf8_strict_items rest with
      | Some s => Some (c :: s)
      | None => None
      end
  | IllFormed :: _ => None
  end.

Definition utf8_decode (data : bytes) : option str :=
  utf8_strict_items (utf8_scan Start data).

(** [data.decode("utf-8", errors="replace")] *)
Definition utf8_decode_replace (data : bytes) : str :=
  map (fun it => match it with Decoded c => c | IllFormed => 65533%N end)
      (utf8_scan Start data).

(* ================================================================== *)
(** * pathlib (CPython 3.11): pure paths of both flavours *)
(* ================================================================== *)

Inductive flavour : Type :=
| PosixFlavour
| WindowsFlavour.

(** A parsed path: drive, root and the list of parts (the first part is
    the anchor [drv + root] when there is one). *)
Record PurePath : Type := mkPath {
  drv : str;
  root : str;
  parts : list str
}.

Definition slash : char := 47%N.
Definition backslash : char := 92%N.
Definition colon : char := 58%N.
Definition dot : char := 46%N.

Definition sep (fl : flavour) : char :=
  match fl with PosixFlavour => slash | WindowsFlavour => backslash end.

(** [s.find(c, start)]: [None] is [-1]. *)
Fixpoint find_char (c : char) (start : nat) (s : str) : option nat :=
  match s with
  | [] => None
  | x :: s' =>
      match start with
      | O => if N.eqb x c then Some O
             else option_map S (find_char c O s')
      | S start' => option_map S (find_char c start' s')
      end
  end.

(** [s[a:b]] for [0 <= a]. *)
Definition slice (a b : nat) (s : str) : str := firstn (b - a) (skipn a s).

(** [_PosixFlavour.splitroot] *)
Definition posix_splitroot (part : str) : str * str * str :=
  match part with
  | c :: _ =>
      if N.eqb c slash then
        let stripped_part := lstrip_by (N.eqb slash) part in
        if Nat.eqb (List.length part - List.length stripped_part) 2
        then ([], [slash; slash], stripped_part)
        else ([], [slash], stripped_part)
      else ([], [], part)
  | [] => ([], [], part)
  end.

(** [_WindowsFlavour._split_extended_path] *)
Definition split_extended_path (s : str) : str * str :=
  if startswith (lit "\\?\") s then
    let prefix := firstn 4 s in
    let s := skipn 4 s in
    if startswith (lit "UNC\") s
    then (prefix ++ firstn 3 s, backslash :: skipn 3 s)
    else (prefix, s)
  else ([], s).

Definition is_drive_letter (c : char) : bool :=
  ((65 <=? c) && (c <=? 90) || (97 <=? c) && (c <=? 122))%N.

(** The end of [_WindowsFlavour.splitroot], reached when the part is not a
    UNC path: an optional drive letter, then an optional root. *)
Definition splitroot_drive (prefix part : str) : str * str * str :=
  let first := firstn 1 part in
  let second := slice 1 2 part in
  let third := slice 2 3 part in
  let '(drv, part, first) :=
    if str_eqb second [colon] &&
       match first with c :: _ => is_drive_letter c | [] => false end
    then (firstn 2 part, skipn 2 part, third)
    else ([], part, first) in
  let '(root, part) :=
    if str_eqb first [backslash]
    then (first, lstrip_by (N.eqb backslash) part)
    else ([], part) in
  (prefix ++ drv, root, part).

(** The UNC branch of [_WindowsFlavour.splitroot]:
    [\\machine\mountpoint\directory...], with [index] the backslash
    after the machine. *)
Definition splitroot_unc (prefix part : str) (index : nat) : str * str * str :=
  let index2 := find_char backslash (index + 1) part in
  (* a UNC path can't have two slashes in a row (after the initial two) *)
  if match index2 with Some i => Nat.eqb i (index + 1) | None => false end
  then splitroot_drive prefix part
  else
    let index2 := match index2 with
                  | Some i => i
                  | None => List.length part
                  end in
    if truthy prefix
    then (prefix ++ slice 1 index2 part, [backslash], skipn (index2 + 1) part)
    else (firstn index2 part, [backslash], skipn (index2 + 1) part).

(** [_WindowsFlavour.splitroot]; [part] has its forward slashes replaced
    already. *)
Definition windows_splitroot (part : str) : str * str * str :=
  let first := firstn 1 part in
  let second := slice 1 2 part in
  let '(prefix, part) :=
    if str_eqb second [backslash] && str_eqb first [backslash]
    then split_extended_path part
    else ([], part) in
  let first := firstn 1 part in
  let second := slice 1 2 part in
  let third := slice 2 3 part in
  if str_eqb second [backslash] && str_eqb first [backslash]
     && negb (str_eqb third [backslash])
  then
    (* is a UNC path *)
    match find_char backslash 2 part with
    | Some index => splitroot_unc prefix part index
    | None => splitroot_drive prefix part
    end
  else splitroot_drive prefix part.

Definition splitroot (fl : flavour) (part : str) : str * str * str :=
  match fl with
  | PosixFlavour => posix_splitroot part
  | WindowsFlavour => windows_splitroot part
  end.

(** The components kept by [parse_parts]: not empty and not ["."]. *)
Definition keep_component (x : str) : bool :=
  truthy x && negb (str_eqb x [dot]).

(** [Path(s)]: [_Flavour.parse_parts([s])]. *)
Definition Path (fl : flavour) (s : str) : PurePath :=
  match s with
  | [] => mkPath [] [] []
  | _ :: _ =>
      let part := match fl with
                  | PosixFlavour => s
                  | WindowsFlavour => replace_char slash backslash s
                  end in
      let '(drv, root, rel) := splitroot fl part in
      let parsed := filter keep_component (split (sep fl) rel) in
      mkPath drv root
        (if truthy drv || truthy root then (drv ++ root) :: parsed else parsed)
  end.

Definition anchored (p : PurePath) : bool := truthy (drv p) || truthy (root p).

(** [str(p)] *)
Definition path_str (fl : flavour) (p : PurePath) : str :=
  str_or
    (if anchored p
     then drv p ++ root p ++ join [sep fl] (tl (parts p))
     else join [sep fl] (parts p))
    [dot].

(** [p.name] *)
Definition path_name (p : PurePath) : str :=
  if Nat.eqb (List.length (parts p)) (if anchored p then 1 else 0)
  then []
  else last (parts p) [].

(** [p.suffix] *)
Definition path_suffix (p : PurePath) : str :=
  let name := path_name p in
  let i := rfind dot name in
  if (0 <? i) && (i <? len name - 1) then slice_from i name else [].

Section PathJoin.
Context {U : Unicode}.

Definition casefold (fl : flavour) (s : str) : str :=
  match fl with PosixFlavour => s | WindowsFlavour => lower s end.

(** [_Flavour.join_parsed_parts] *)
Definition join_parsed_parts (fl : flavour) (p p2 : PurePath) : PurePath :=
  if truthy (root p2) then
    if negb (truthy (drv p2)) && truthy (drv p)
    then mkPath (drv p) (root p2) ((drv p ++ root p2) :: tl (parts p2))
    else p2
  else if truthy (drv p2) then
    if str_eqb (drv p2) (drv p)
       || str_eqb (casefold fl (drv p2)) (casefold fl (drv p))
    then mkPath (drv p) (root p) (parts p ++ tl (parts p2))
    else p2
  else mkPath (drv p) (root p) (parts p ++ parts p2).

(** [p / key] *)
Definition path_div (fl : flavour) (p : PurePath) (key : str) : PurePath :=
  join_parsed_parts fl p (Path fl key).
End PathJoin.

(* ================================================================== *)
(** * Effects: a state-and-exception monad over the outside world *)
(* ================================================================== *)

Section Monad.
Variable World : Type.

Definition M (A : Type) : Type := World -> result A * World.

Definition ret {A} (a : A) : M A := fun w => (Return a, w).

Definition raise {A} (e : exn) : M A := fun w => (Raise e, w).

Definition bind {A B} (m : M A) (k : A -> M B) : M B :=
  fun w =>
    match m w with
    | (Return a, w') => k a w'
    | (Raise e, w') => (Raise e, w')
    end.

(** Read the world without changing it. *)
Definition gets {A} (f : World -> A) : M A := fun w => (Return (f w), w).

(** A pure computation that may raise. *)
Definition lift {A} (r : result A) : M A := fun w => (r, w).

(** The first [except] clause that catches [e]. *)
Fixpoint handler_for {A} (clauses : list (list exn_class * (exn -> M A)))
         (e : exn) : option (exn -> M A) :=
  match clauses with
  | [] => None
  | (classes, h) :: rest =>
      if caught_by classes e then Some h else handler_for rest e
  end.

(** [try: m  except C1: h1  except C2: h2 ...] *)
Definition try_ {A} (m : M A) (clauses : list (list exn_class * (exn -> M A)))
  : M A :=
  fun w =>
    match m w with
    | (Return a, w') => (Return a, w')
    | (Raise e, w') =>
        match handler_for clauses e with
        | Some h => h e w'
        | None => (Raise e, w')
        end
    end.

Definition try_except {A} (m : M A) (classes : list exn_class)
           (h : exn -> M A) : M A :=
  try_ m [(classes, h)].

(** [with contextlib.suppress(Exception): m] *)
Definition suppress (m : M unit) : M unit :=
  try_except m [Exception] (fun _ => ret tt).
End Monad.

Arguments ret {World A} a.
Arguments raise {World A} e.
Arguments gets {World A} f.
Arguments lift {World A} r.

Notation "x <- m ;; k" := (bind m (fun x => k))
  (at level 61, m at next level, right associativity).
Notation "' pat <- m ;; k" := (bind m (fun x => match x with pat => k end))
  (at level 61, pat pattern, m at next level, right associativity).

(* ================================================================== *)
(** * The platform and the operating system *)
(* ================================================================== *)

(** What [bytes.decode(encoding)] can do. *)
Inductive codec_outcome : Type :=
| CodecText (s : str)
| CodecDecodeError
| CodecLookupError.

(** Constants of the interpreter and the machine. *)
Class Platform : Type := {
  (** [pathlib.Path] is [PosixPath] or [WindowsPath] *)
  os_flavour : flavour;
  (** [sys.platform] *)
  sys_platform : str;
  (** [getattr(subprocess, "CREATE_NO_WINDOW", 0)] *)
  CREATE_NO_WINDOW : Z;
  (** [sys.get_int_max_str_digits()] *)
  int_max_str_digits : Z;
  (** [data.decode(locale.getpreferredencoding(False))] *)
  locale_decode : bytes -> codec_outcome;
  (** [os.path.expandvars], evaluated when [config.py] is imported *)
  expandvars : str -> str
}.

(** [subprocess.CompletedProcess] with captured text output. *)
Record CompletedProcess : Type := mkCompleted {
  returncode : Z;
  stdout : str;
  stderr : str
}.

(** The fields of [os.stat_result] that are read.  Times are kept in
    nanoseconds and only handed to the clock formatting below. *)
Record stat_result : Type := mkStat {
  st_size : Z;
  st_mtime : Z;
  st_ctime : Z
}.

Inductive hive : Type :=
| HKEY_LOCAL_MACHINE
| HKEY_CURRENT_USER.

Definition process := N.

(** The calls into the operating system.  Each may change the world and
    may raise; two calls with the same arguments need not agree. *)
Class OS (World : Type) : Type := {
  (** [os.environ.get(key, default)] with the empty string as default *)
  environ_get : string -> World -> str;
  (** [subprocess.run(argv, capture_output=True, text=True, timeout=t,
      creationflags=f)] *)
  subprocess_run : list str -> Z -> Z -> M World CompletedProcess;
  (** [Path.is_file()], [Path.is_dir()], [Path.stat()] of the path with
      the given [str()] *)
  Path_is_file : str -> M World bool;
  Path_is_dir : str -> M World bool;
  Path_stat : str -> M World stat_result;
  (** [datetime.fromtimestamp(t).strftime("%Y-%m-%d %H:%M:%S")] *)
  strftime_local : Z -> M World str;
  (** [shutil.which(name)] *)
  shutil_which : str -> M World (option str);
  (** [import winreg] *)
  import_winreg : M World unit;
  (** [with winreg.OpenKey(hive, subkey) as key:
      winreg.QueryValueEx(key, "InstallPath")[0]] *)
  winreg_InstallPath : hive -> str -> M World str;
  (** [asyncio.create_subprocess_exec] on the command, with both pipes
      captured and the given creation flags *)
  create_subprocess_exec : list str -> Z -> M World process;
  (** [asyncio.wait_for(process.communicate(), timeout=t)] *)
  communicate : process -> Z -> M World (bytes * bytes);
  (** [process.returncode] *)
  process_returncode : process -> World -> option Z;
  (** [process.kill()] *)
  process_kill : process -> M World unit
}.

(* ================================================================== *)
(** * backend.py: decoding and result materialization *)
(* ================================================================== *)

Definition BOM : bytes := [239; 187; 191]%N.

(** [data.startswith(prefix)] on bytes. *)
Definition bytes_startswith (prefix data : bytes) : bool := startswith prefix data.

Definition decode_utf8 (data : bytes) : result str :=
  match utf8_decode data with
  | Some s => Return s
  | None => Raise (Exn UnicodeDecodeError (lit "invalid utf-8"))
  end.

Section Decode.
Context {P : Platform}.

(** [data.decode(encoding)] with the preferred locale encoding. *)
Definition decode_locale (data : bytes) : result str :=
  match locale_decode data with
  | CodecText s => Return s
  | CodecDecodeError => Raise (Exn UnicodeDecodeError (lit "codec can't decode"))
  | CodecLookupError => Raise (Exn LookupError (lit "unknown encoding"))
  end.

Definition _decode_output (data : bytes) : result str :=
  if bytes_startswith BOM data then Return (utf8_decode_replace (skipn 3 data))
  else
    match decode_utf8 data with
    | Return s => Return s
    | Raise e =>
        if caught_by [UnicodeDecodeError] e then
          match decode_locale data with
          | Return s => Return s
          | Raise e' =>
              if caught_by [UnicodeDecodeError; LookupError] e'
              then Return (utf8_decode_replace data)
              else Raise e'
          end
        else Raise e
    end.
End Decode.

Section Materialize.
Context {U : Unicode} {P : Platform} {World : Type} {O : OS World}.

Definition _looks_like_path (s : str) : bool :=
  (* Drive letter: C:\... *)
  if (3 <=? len s)
     && match s with
        | c0 :: c1 :: c2 :: _ =>
            isalpha c0 && N.eqb c1 colon
            && (N.eqb c2 slash || N.eqb c2 backslash)
        | _ => false
        end
  then true
  (* UNC: \\server\share *)
  else if startswith [backslash; backslash] s then true
  (* Unix-style (for testing or WSL) *)
  else startswith [slash] s.

(** The inner [try] of [_stat_to_result]: [size], [dm] and [dc] keep the
    values assigned before an [OSError]. *)
Definition stat_block (p : PurePath) (is_dir : bool) : M World (Z * str * str) :=
  try_except
    (stat <- Path_stat (path_str os_flavour p) ;;
     let size := if negb is_dir then st_size stat else -1 in
     try_except
       (dm <- strftime_local (st_mtime stat) ;;
        try_except
          (dc <- strftime_local (st_ctime stat) ;;
           ret (size, dm, dc))
          [OSError] (fun _ => ret (size, dm, [])))
       [OSError] (fun _ => ret (size, [], [])))
    [OSError] (fun _ => ret (-1, [], [])).

Definition _stat_to_result (filepath : str) : M World (option SearchResult) :=
  try_except
    (let p := Path os_flavour filepath in
     let name := str_or (path_name p) filepath in
     is_dir <- Path_is_dir (path_str os_flavour p) ;;
     let ext := if negb is_dir
                then lower (lstrip_chars [dot] (path_suffix p))
                else [] in
     ' (size, dm, dc) <- stat_block p is_dir ;;
     ret (Some (mkSearchResult (path_str os_flavour p) name is_dir size dm dc ext)))
    [Exception]
    (fun exc =>
       (* Return a bare result so we at least report the path *)
       ret (Some (SearchResult_default filepath
                    (str_or (path_name (Path os_flavour filepath)) filepath)))).

(** The [for raw_line in stdout.splitlines()] loop; [results] is the
    list built so far. *)
Fixpoint parse_lines (lines : list str) (results : list SearchResult)
  : M World (list SearchResult) :=
  match lines with
  | [] => ret results
  | raw_line :: rest =>
      (* only trim line endings *)
      let filepath := rstrip_chars [13; 10]%N raw_line in
      if negb (truthy (strip filepath)) then parse_lines rest results
      else if negb (_looks_like_path filepath) then parse_lines rest results
      else
        result <- _stat_to_result filepath ;;
        match result with
        | Some r => parse_lines rest (results ++ [r])
        | None => parse_lines rest results
        end
  end.

Definition _parse_paths_and_stat (stdout : str) : M World (list SearchResult) :=
  parse_lines (splitlines stdout) [].
End Materialize.

(* ================================================================== *)
(** * config.py *)
(* ================================================================== *)

Record EverythingConfig : Type := mkConfig {
  es_path : str;
  instance : str;
  timeout : Z;
  max_results_cap : Z;
  errors : list str;
  warnings : list str;
  version_info : str
}.

(** [EverythingConfig()]: the dataclass defaults. *)
Definition EverythingConfig_default : EverythingConfig :=
  mkConfig [] [] 30 1000 [] [] [].

Definition set_es_path (c : EverythingConfig) (v : str) : EverythingConfig :=
  mkConfig v (instance c) (timeout c) (max_results_cap c) (errors c)
           (warnings c) (version_info c).

Definition set_instance (c : EverythingConfig) (v : str) : EverythingConfig :=
  mkConfig (es_path c) v (timeout c) (max_results_cap c) (errors c)
           (warnings c) (version_info c).

Definition set_version_info (c : EverythingConfig) (v : str) : EverythingConfig :=
  mkConfig (es_path c) (instance c) (timeout c) (max_results_cap c) (errors c)
           (warnings c) v.

(** [config.errors.append(msg)] *)
Definition errors_append (c : EverythingConfig) (msg : str) : EverythingConfig :=
  mkConfig (es_path c) (instance c) (timeout c) (max_results_cap c)
           (errors c ++ [msg]) (warnings c) (version_info c).

Definition is_valid (self : EverythingConfig) : bool :=
  truthy (es_path self) && Nat.eqb (List.length (errors self)) 0.

Definition es_exe : str := lit "es.exe".

Definition msg_not_found : str :=
  lit "es.exe not found. Install from https://github.com/voidtools/es/releases "
  ++ lit "or set the EVERYTHING_ES_PATH environment variable. "
  ++ lit "Everything (https://www.voidtools.com/) must be installed and running.".

Definition msg_cannot_connect (info : str) : str :=
  lit "Cannot connect to Everything: " ++ info ++ lit ". "
  ++ lit "Ensure Everything is running (check your system tray). "
  ++ lit "If you use Everything 1.5 alpha, try EVERYTHING_INSTANCE=1.5a".

Section Config.
Context {U : Unicode} {P : Platform} {World : Type} {O : OS World}.

Definition ES_SEARCH_PATHS : list str :=
  [ expandvars (lit "%LOCALAPPDATA%\Microsoft\WindowsApps");
    lit "C:\Program Files\Everything";
    lit "C:\Program Files (x86)\Everything";
    lit "C:\Program Files\Everything 1.5a";
    lit "C:\Program Files (x86)\Everything 1.5a";
    expandvars (lit "%LOCALAPPDATA%\Everything");
    expandvars (lit "%USERPROFILE%\Everything");
    expandvars (lit "%PROGRAMDATA%\Everything");
    expandvars (lit "%USERPROFILE%\scoop\shims");
    expandvars (lit "%USERPROFILE%\scoop\apps\everything\current");
    expandvars (lit "%PROGRAMDATA%\chocolatey\bin") ].

Definition _CREATE_NO_WINDOW : Z := CREATE_NO_WINDOW.

Definition spawn_errors : list exn_class :=
  [TimeoutExpired; FileNotFoundError; OSError].

(** The first [try] returns from the function when the probe completes;
    the second runs only after the first one raised a caught error. *)
Definition _is_everything_es (path : str) : M World bool :=
  try_except
    (result <- subprocess_run [path; lit "-get-everything-version"] 5
                              _CREATE_NO_WINDOW ;;
     let output := strip (stdout result) in
     ret (truthy output && existsb isdigit output))
    spawn_errors
    (fun _ =>
       try_except
         (result <- subprocess_run [path; lit "-version"] 5 _CREATE_NO_WINDOW ;;
          ret (str_contains (lit "everything") (lower (stdout result))))
         spawn_errors
         (fun _ => ret false)).

(** [candidate.is_file() and _is_everything_es(str(candidate))] *)
Definition is_verified_file (candidate : PurePath) : M World bool :=
  f <- Path_is_file (path_str os_flavour candidate) ;;
  if f then _is_everything_es (path_str os_flavour candidate) else ret false.

(** One registry key of [_find_via_registry]: [Some path] returns from
    the function, [None] continues with the next key. *)
Definition registry_key (h : hive) (subkey : str) : M World (option str) :=
  try_except
    (install_path <- winreg_InstallPath h subkey ;;
     let candidate := path_div os_flavour (Path os_flavour install_path) es_exe in
     ok <- is_verified_file candidate ;;
     ret (if ok then Some (path_str os_flavour candidate) else None))
    [FileNotFoundError; OSError]
    (fun _ => ret None).

Fixpoint registry_keys (keys : list (hive * str)) : M World str :=
  match keys with
  | [] => ret []
  | (h, subkey) :: rest =>
      r <- registry_key h subkey ;;
      match r with
      | Some found => ret found
      | None => registry_keys rest
      end
  end.

Definition _find_via_registry : M World str :=
  if negb (str_eqb sys_platform (lit "win32")) then ret []
  else
    imported <- try_except (_ <- import_winreg ;; ret true)
                           [ImportError] (fun _ => ret false) ;;
    if negb imported then ret []
    else
      let subkeys := [ lit "SOFTWARE\voidtools\Everything";
                       lit "SOFTWARE\WOW6432Node\voidtools\Everything" ] in
      registry_keys
        (flat_map (fun h => map (fun k => (h, k)) subkeys)
                  [HKEY_LOCAL_MACHINE; HKEY_CURRENT_USER]).

(** The [if env_override:] block: [Some path] returns from the function. *)
Definition find_override (env_override : str) : M World (option str) :=
  if truthy env_override then
    let p := Path os_flavour env_override in
    f <- Path_is_file (path_str os_flavour p) ;;
    if f && str_eqb (lower (path_name p)) es_exe then
      ok <- _is_everything_es (path_str os_flavour p) ;;
      ret (if ok then Some (path_str os_flavour p) else None)
    else
      d <- Path_is_dir (path_str os_flavour p) ;;
      if d then
        let candidate := path_div os_flavour p es_exe in
        ok <- is_verified_file candidate ;;
        ret (if ok then Some (path_str os_flavour candidate) else None)
      else ret None
  else ret None.

(** [for name in ("es", "es.exe")] *)
Fixpoint find_on_path (names : list str) : M World (option str) :=
  match names with
  | [] => ret None
  | name :: rest =>
      found <- shutil_which name ;;
      match found with
      | Some f =>
          if truthy f then
            ok <- _is_everything_es f ;;
            if ok then ret (Some f) else find_on_path rest
          else find_on_path rest
      | None => find_on_path rest
      end
  end.

(** [for search_dir in ES_SEARCH_PATHS] *)
Fixpoint find_in_dirs (dirs : list str) : M World (option str) :=
  match dirs with
  | [] => ret None
  | search_dir :: rest =>
      let candidate := path_div os_flavour (Path os_flavour search_dir) es_exe in
      r <- try_except
             (ok <- is_verified_file candidate ;;
              ret (if ok then Some (path_str os_flavour candidate) else None))
             [OSError] (fun _ => ret None) ;;
      match r with
      | Some found => ret (Some found)
      | None => find_in_dirs rest
      end
  end.

Definition _find_es_exe (env_override : str) : M World str :=
  r <- find_override env_override ;;
  match r with
  | Some found => ret found
  | None =>
      r <- find_on_path [lit "es"; es_exe] ;;
      match r with
      | Some found => ret found
      | None =>
          r <- find_in_dirs ES_SEARCH_PATHS ;;
          match r with
          | Some found => ret found
          | None => _find_via_registry
          end
      end
  end.

(** A version query that answers: exit code 0 and some output.  [None]
    is a caught spawn error. *)
Definition version_probe (argv : list str) (t : Z) : M World (option CompletedProcess) :=
  try_except
    (result <- subprocess_run argv t _CREATE_NO_WINDOW ;; ret (Some result))
    spawn_errors
    (fun _ => ret None).

Definition answered (r : option CompletedProcess) : bool :=
  match r with
  | Some result => (returncode result =? 0) && truthy (strip (stdout result))
  | None => false
  end.

Definition _detect_instance (es_path : str) : M World str :=
  r <- version_probe [es_path; lit "-get-everything-version"] 5 ;;
  if answered r then ret []
  else
    r <- version_probe [es_path; lit "-instance"; lit "1.5a";
                        lit "-get-everything-version"] 5 ;;
    if answered r then ret (lit "1.5a") else ret [].

Definition _test_connection (es_path instance : str) : M World (bool * str) :=
  let base := es_path :: (if truthy instance then [lit "-instance"; instance] else []) in
  r <- version_probe (base ++ [lit "-get-everything-version"]) 10 ;;
  match (if answered r then r else None) with
  | Some result => ret (true, lit "Everything v" ++ strip (stdout result))
  | None =>
      try_
        (result <- subprocess_run (base ++ [lit "-n"; lit "1"; lit "*.txt"]) 10
                                  _CREATE_NO_WINDOW ;;
         if returncode result =? 0
         then ret (true, lit "Everything connected (version unknown)")
         else
           let err := str_or (strip (stderr result))
                             (str_or (strip (stdout result)) (lit "Unknown error")) in
           ret (false, err))
        [ ([TimeoutExpired], fun _ => ret (false, lit "Connection timed out"));
          ([FileNotFoundError],
           fun _ => ret (false, lit "es.exe not found at " ++ es_path));
          ([OSError], fun exc => ret (false, exn_message exc)) ]
  end.

(** [os.environ.get(key, default).strip()] *)
Definition env_stripped (key : string) (w : World) : str :=
  strip (environ_get key w).

(** The configuration before discovery: the defaults, with the instance
    of the environment when there is one. *)
Definition initial_config (w : World) : EverythingConfig :=
  let env_instance := env_stripped "EVERYTHING_INSTANCE" w in
  if truthy env_instance
  then set_instance EverythingConfig_default env_instance
  else EverythingConfig_default.

(** [if not config.instance: config.instance = _detect_instance(...)] *)
Definition detect_instance_if_unset (config : EverythingConfig)
  : M World EverythingConfig :=
  if negb (truthy (instance config))
  then i <- _detect_instance (es_path config) ;; ret (set_instance config i)
  else ret config.

Definition auto_detect : M World EverythingConfig :=
  env_path <- gets (env_stripped "EVERYTHING_ES_PATH") ;;
  config <- gets initial_config ;;
  found <- _find_es_exe env_path ;;
  let config := set_es_path config found in
  if negb (truthy (es_path config)) then
    ret (errors_append config msg_not_found)
  else
    config <- detect_instance_if_unset config ;;
    ' (ok, info) <- _test_connection (es_path config) (instance config) ;;
    if ok : bool then ret (set_version_info config info)
    else ret (errors_append config (msg_cannot_connect info)).
End Config.

(* ================================================================== *)
(** * backend.py: the query executor *)
(* ================================================================== *)

(** Friendly sort names and their es.exe [-sort] values. *)
Definition SORT_MAP : list (string * string) :=
  [ ("name", "name");
    ("name-desc", "name-descending");
    ("path", "path");
    ("path-desc", "path-descending");
    ("size", "size");
    ("size-asc", "size");
    ("size-desc", "size-descending");
    ("date-modified", "date-modified");
    ("date-modified-asc", "date-modified");
    ("date-modified-desc", "date-modified-descending");
    ("date-created", "date-created");
    ("date-created-asc", "date-created");
    ("date-created-desc", "date-created-descending");
    ("extension", "extension") ]%string.

(** [SORT_MAP.get(sort, sort)] *)
Definition sort_value (sort : str) : str :=
  match find (fun kv => str_eqb (lit (fst kv)) sort) SORT_MAP with
  | Some kv => lit (snd kv)
  | None => sort
  end.

Definition msg_timed_out (t : Z) : str :=
  lit "Search timed out after " ++ str_of_int t ++ lit "s. "
  ++ lit "Try a more specific query or increase timeout.".

Definition msg_es_missing (p : str) : str :=
  lit "es.exe not found at: " ++ p ++ lit ". "
  ++ lit "Verify Everything is installed.".

Section Backend.
Context {U : Unicode} {P : Platform} {World : Type} {O : OS World}.
Variable config : EverythingConfig.

Definition _base_cmd : list str :=
  es_path config ::
  (if truthy (instance config) then [lit "-instance"; instance config] else []).

(** The [except] clauses of [_run]; [kill] is [process.kill()] when the
    process was created, and nothing otherwise (the [NameError] is
    suppressed). *)
Definition run_clauses {A} (kill : M World unit)
  : list (list exn_class * (exn -> M World A)) :=
  [ ([AsyncioTimeoutError],
     fun _ => _ <- suppress kill ;;
              raise (Exn RuntimeError (msg_timed_out (timeout config))));
    ([FileNotFoundError],
     fun _ => raise (Exn RuntimeError (msg_es_missing (es_path config)))) ].

Definition _run (cmd : list str) : M World (str * str * Z) :=
  try_
    (process <- create_subprocess_exec cmd CREATE_NO_WINDOW ;;
     try_
       (' (stdout_raw, stderr_raw) <- communicate process (timeout config) ;;
        out <- lift (_decode_output stdout_raw) ;;
        err <- lift (_decode_output stderr_raw) ;;
        rc <- gets (process_returncode process) ;;
        ret (out, err, match rc with Some c => c | None => 0 end))
       (run_clauses (process_kill process)))
    (run_clauses (ret tt)).

Definition search (query : str) (max_results : Z) (sort : str)
           (match_case match_whole_word match_regex match_path : bool)
           (offset : Z) : M World (list SearchResult) :=
  let cmd := _base_cmd in
  (* Result count & offset *)
  let cmd := cmd ++ [lit "-n"; str_of_int (Z.min max_results (max_results_cap config))] in
  let cmd := if 0 <? offset then cmd ++ [lit "-o"; str_of_int offset] else cmd in
  (* Sort *)
  let cmd := cmd ++ [lit "-sort"; sort_value sort] in
  (* Match modifiers *)
  let cmd := if match_case then cmd ++ [lit "-case"] else cmd in
  let cmd := if match_whole_word then cmd ++ [lit "-w"] else cmd in
  let cmd := if match_regex then cmd ++ [lit "-r"] else cmd in
  let cmd := if match_path then cmd ++ [lit "-p"] else cmd in
  let cmd := cmd ++ [query] in
  ' (stdout, stderr, rc) <- _run cmd ;;
  if negb (rc =? 0) then
    let msg := str_or (strip stderr)
                 (str_or (strip stdout)
                    (lit "es.exe exited with code " ++ str_of_int rc)) in
    raise (Exn RuntimeError (lit "Everything search failed: " ++ msg))
  else _parse_paths_and_stat stdout.

(** [int(s)] *)
Definition int_ (s : str) : result Z :=
  match py_int int_max_str_digits s with
  | Some n => Return n
  | None => Raise (Exn ValueError (lit "invalid literal for int() with base 10"))
  end.

(** [try: return int(s)  except ValueError: return -1] *)
Definition int_or_minus_one (s : str) : M World Z :=
  try_except (lift (int_ s)) [ValueError] (fun _ => ret (-1)).

Definition count (query : str) : M World Z :=
  let cmd := _base_cmd ++ [lit "-get-result-count"; query] in
  ' (stdout, stderr, rc) <- _run cmd ;;
  if negb (rc =? 0) then
    raise (Exn RuntimeError
             (lit "Count failed: " ++ str_or (strip stderr) (strip stdout)))
  else int_or_minus_one (strip stdout).

Definition get_total_size (query : str) : M World Z :=
  let cmd := _base_cmd ++ [lit "-get-total-size"; query] in
  ' (stdout, stderr, rc) <- _run cmd ;;
  if negb (rc =? 0) then
    raise (Exn RuntimeError
             (lit "Total size failed: " ++ str_or (strip stderr) (strip stdout)))
  else int_or_minus_one (strip stdout).
End Backend.

(* ================================================================== *)
(** * backend.py: query builders and the health check *)
(* ================================================================== *)

(** [a <= b] on strings: the order of [sorted]. *)
Fixpoint str_leb (a b : str) : bool :=
  match a, b with
  | [], _ => true
  | _ :: _, [] => false
  | x :: a', y :: b' =>
      if N.ltb x y then true
      else if N.ltb y x then false
      else str_leb a' b'
  end.

Fixpoint insert_sorted (x : str) (l : list str) : list str :=
  match l with
  | [] => [x]
  | y :: l' => if str_leb x y then x :: l else y :: insert_sorted x l'
  end.

(** [sorted(l)] for a list of strings. *)
Definition sorted (l : list str) : list str := fold_right insert_sorted [] l.

(** [s.replace(c, "")] for a single character [c]. *)
Definition delete_char (c : char) (s : str) : str :=
  filter (fun x => negb (N.eqb x c)) s.

Definition quote : char := 34%N.
Definition semicolon : char := 59%N.

(** File type categories and their Everything [ext:] queries. *)
Definition FILE_TYPES : list (string * string) :=
  [ ("audio", "ext:mp3;wav;flac;aac;ogg;wma;m4a;opus;aiff;alac");
    ("video", "ext:mp4;avi;mkv;mov;wmv;flv;webm;m4v;mpeg;mpg;3gp;ts");
    ("image", "ext:jpg;jpeg;png;gif;bmp;svg;webp;tiff;tif;ico;raw;heic;heif;avif;psd");
    ("document", "ext:pdf;doc;docx;xls;xlsx;ppt;pptx;odt;ods;odp;rtf;txt;md;epub;pages;numbers;key");
    ("code", "ext:py;js;ts;jsx;tsx;c;cpp;h;hpp;cs;java;go;rs;rb;php;swift;kt;scala;r;lua;sh;bash;ps1;bat;cmd;sql;html;css;scss;sass;less;vue;svelte;dart;zig;nim;hx;ex;exs;erl;hs;ml;fs;clj;lisp;asm;toml;yaml;yml;json;xml;ini;cfg;conf;env;dockerfile;makefile;cmake;gradle;sbt;proto;graphql;tf;hcl");
    ("archive", "ext:zip;rar;7z;tar;gz;bz2;xz;tgz;zst;lz4;cab;iso;dmg");
    ("executable", "ext:exe;msi;dll;sys;com;scr;appx;msix");
    ("font", "ext:ttf;otf;woff;woff2;eot;fon");
    ("3d", "ext:obj;fbx;stl;blend;dae;3ds;gltf;glb;usd;usda;usdz;step;iges");
    ("data", "ext:csv;tsv;json;jsonl;ndjson;xml;sqlite;db;mdb;accdb;parquet;arrow;avro;hdf5;feather") ]%string.

(** Time period shortcuts and their Everything [dm:] values. *)
Definition TIME_PERIODS : list (string * string) :=
  [ ("1min", "last1min");
    ("5min", "last5mins");
    ("10min", "last10mins");
    ("15min", "last15mins");
    ("30min", "last30mins");
    ("1hour", "last1hour");
    ("2hours", "last2hours");
    ("6hours", "last6hours");
    ("12hours", "last12hours");
    ("today", "today");
    ("yesterday", "yesterday");
    ("1day", "last1day");
    ("3days", "last3days");
    ("1week", "last1week");
    ("2weeks", "last2weeks");
    ("1month", "last1month");
    ("3months", "last3months");
    ("6months", "last6months");
    ("1year", "last1year") ]%string.

(** [table.keys()] *)
Definition keys (table : list (string * string)) : list str :=
  map (fun kv => lit (fst kv)) table.

(** [table[key]]; [None] when the key is not in the table. *)
Definition lookup (table : list (string * string)) (key : str) : option str :=
  match find (fun kv => str_eqb (lit (fst kv)) key) table with
  | Some kv => Some (lit (snd kv))
  | None => None
  end.

(** [f'path:"{path_filter}"'] *)
Definition path_clause (path_filter : str) : str :=
  lit "path:" ++ [quote] ++ path_filter ++ [quote].

Section QueryBuilders.
Context {U : Unicode}.

Definition build_type_query (file_type additional_query path_filter : str)
  : result str :=
  let key := strip (lower file_type) in
  match lookup FILE_TYPES key with
  | None =>
      let available := join (lit ", ") (sorted (keys FILE_TYPES)) in
      Raise (Exn ValueError
               (lit "Unknown file type '" ++ file_type
                ++ lit "'. Available: " ++ available))
  | Some ext_query =>
      let parts := [ext_query] in
      let parts := if truthy path_filter
                   then parts ++ [path_clause path_filter] else parts in
      let parts := if truthy additional_query
                   then parts ++ [additional_query] else parts in
      Return (join (lit " ") parts)
  end.
End QueryBuilders.

(** The normalization of the extension list in [build_recent_query]:
    dots are dropped, commas and spaces become semicolons, and the empty
    components are removed. *)
Definition normalize_extensions (extensions : str) : str :=
  let exts := replace_char 32%N semicolon
                (replace_char 44%N semicolon (delete_char dot extensions)) in
  join [semicolon] (filter truthy (split semicolon exts)).

Definition build_recent_query (period path_filter extensions : str) : str :=
  let time_value := match lookup TIME_PERIODS period with
                    | Some v => v
                    | None => period
                    end in
  let parts := [lit "dm:" ++ time_value] in
  let parts := if truthy path_filter
               then parts ++ [path_clause path_filter] else parts in
  let parts :=
    if truthy extensions then
      let exts := normalize_extensions extensions in
      if truthy exts then parts ++ [lit "ext:" ++ exts] else parts
    else parts in
  join (lit " ") parts.

(** The values of the status dictionary. *)
Inductive status_value : Type :=
| SStr (s : str)
| SList (l : list str).

Definition status_dict := list (string * status_value).

Section HealthCheck.
Context {U : Unicode} {P : Platform} {World : Type} {O : OS World}.
Variable config : EverythingConfig.

Definition health_check : M World status_dict :=
  if negb (is_valid config) then
    ret [ ("status", SStr (lit "error"));
          ("errors", SList (errors config));
          ("es_path", SStr (str_or (es_path config) (lit "not found"))) ]%string
  else
    try_except
      (let cmd := _base_cmd config ++ [lit "-get-everything-version"] in
       ' (stdout, _, rc) <- _run config cmd ;;
       if (rc =? 0) && truthy (strip stdout) then
         ret [ ("status", SStr (lit "ok"));
               ("everything_version", SStr (strip stdout));
               ("es_path", SStr (es_path config));
               ("instance", SStr (str_or (instance config) (lit "default"))) ]%string
       else
         ret [ ("status", SStr (lit "error"));
               ("message", SStr (lit "Unexpected response from Everything"));
               ("es_path", SStr (es_path config)) ]%string)
      [Exception]
      (fun exc => ret [ ("status", SStr (lit "error"));
                        ("message", SStr (exn_message exc)) ]%string).
End HealthCheck.

(* ================================================================== *)
(** * server.py: the callers *)
(* ================================================================== *)

(** An [EverythingBackend] holds its configuration and nothing else. *)
Definition EverythingBackend := EverythingConfig.

(** [_get_backend()], with the two module globals as arguments; [None]
    is the value before the lifespan initialised them. *)
Definition _get_backend (_backend : option EverythingBackend)
           (_config : option EverythingConfig) : result EverythingBackend :=
  match _backend with
  | None => Raise (Exn RuntimeError (lit "Everything MCP not initialised"))
  | Some backend =>
      match _config with
      | None =>
          Raise (Exn RuntimeError
                   (lit "Everything is not available. "
                    ++ join (lit " ") [lit "Not initialised"]))
      | Some c =>
          if negb (is_valid c)
          then Raise (Exn RuntimeError
                        (lit "Everything is not available. "
                         ++ join (lit " ") (errors c)))
          else Return backend
      end
  end.

(** [str(v)] of a dictionary value. *)
Definition value_str (v : value) : str :=
  match v with
  | VStr s => s
  | VInt z => str_of_int z
  end.

(** [d.get(key, default)], as text. *)
Definition get_text (d : dict) (key : string) (default : str) : str :=
  match dict_get d key with
  | Some v => value_str v
  | None => default
  end.

(** One line of the listing, from the serialized entry. *)
Definition format_line (d : dict) : str :=
  let path := get_text d "path" (lit "?") in
  let ftype := get_text d "type" (lit "file") in
  let size_h := get_text d "size_human" [] in
  let dm := get_text d "date_modified" [] in
  let prefix := if str_eqb ftype (lit "folder") then lit "[DIR]" else lit "[FILE]" in
  let meta_parts := [] in
  let meta_parts := if truthy size_h then meta_parts ++ [size_h] else meta_parts in
  let meta_parts := if truthy dm then meta_parts ++ [dm] else meta_parts in
  let meta := match meta_parts with
              | [] => []
              | _ :: _ => lit "  (" ++ join (lit ", ") meta_parts ++ lit ")"
              end in
  lit "  " ++ prefix ++ lit " " ++ path ++ meta.

(** The [for r in results] loop of [_format_search_results]. *)
Fixpoint format_lines (results : list SearchResult) (lines : list str)
  : result (list str) :=
  match results with
  | [] => Return lines
  | r :: rest =>
      match to_dict r with
      | Raise e => Raise e
      | Return d => format_lines rest (lines ++ [format_line d])
      end
  end.

Definition newline : str := [10]%N.

Definition _format_search_results (results : list SearchResult) (query_label : str)
           (max_results offset : Z) : result str :=
  match results with
  | [] => Return (lit "No results found for: " ++ query_label)
  | _ :: _ =>
      let header := lit "Found " ++ str_of_int (Z.of_nat (List.length results))
                    ++ lit " results for: " ++ query_label in
      let header := if 0 <? offset
                    then header ++ lit " (offset: " ++ str_of_int offset ++ lit ")"
                    else header in
      match format_lines results [header; []] with
      | Raise e => Raise e
      | Return lines =>
          let lines :=
            if max_results <=? Z.of_nat (List.length results)
            then lines ++ [[];
                           lit "Showing first " ++ str_of_int max_results
                           ++ lit " results.  "
                           ++ lit "Use 'offset' to paginate or refine the query."]
            else lines in
          Return (join newline lines)
      end
  end.

(** The validated input of [everything_search]. *)
Record SearchInput : Type := mkSearchInput {
  query : str;
  max_results : Z;
  sort : str;
  match_case : bool;
  match_whole_word : bool;
  match_regex : bool;
  match_path : bool;
  offset : Z
}.

(** [SearchInput.validate_sort] *)
Definition validate_sort (v : str) : result str :=
  if existsb (str_eqb v) (keys SORT_MAP) then Return v
  else Raise (Exn ValueError
                (lit "Invalid sort option '" ++ v ++ lit "'. Valid: "
                 ++ join (lit ", ") (sorted (keys SORT_MAP)))).

(** The validated inputs of the other tools; each model keeps the field
    names of its class. *)
Module SearchByTypeInput.
Record t : Type := mk {
  file_type : str;
  query : str;
  path : str;
  max_results : Z;
  sort : str
}.
End SearchByTypeInput.

Module FindRecentInput.
Record t : Type := mk {
  period : str;
  path : str;
  extensions : str;
  query : str;
  max_results : Z
}.
End FindRecentInput.

Module CountStatsInput.
Record t : Type := mk {
  query : str;
  include_size : bool;
  breakdown_by_extension : bool
}.
End CountStatsInput.

(** The values of the statistics dictionary, and a dictionary with text
    keys in insertion order. *)
#[warnings="-register-all"] Inductive json : Type :=
| JStr (s : str)
| JInt (z : Z)
| JObj (fields : list (str * json)).

Definition obj := list (str * json).

(** [d[k] = v] *)
Definition obj_set (d : obj) (k : str) (v : json) : obj :=
  if existsb (fun kv => str_eqb (fst kv) k) d
  then map (fun kv => if str_eqb (fst kv) k then (k, v) else kv) d
  else d ++ [(k, v)].

Definition obj_get (d : obj) (k : str) : option json :=
  match find (fun kv => str_eqb (fst kv) k) d with
  | Some kv => Some (snd kv)
  | None => None
  end.

(** [ext_stats]: per extension, the count and the total size, in the order
    in which the extensions were first met. *)
Definition ext_stats := list (str * (Z * Z)).

(** [entry = ext_stats.setdefault(ext, {...}); entry["count"] += 1;
    if size >= 0: entry["total_size"] += size] *)
Fixpoint ext_stats_add (stats : ext_stats) (ext : str) (size : Z) : ext_stats :=
  let grow (n : Z) := if 0 <=? size then n + size else n in
  match stats with
  | [] => [(ext, (1, grow 0))]
  | (k, (count, total)) :: rest =>
      if str_eqb k ext then (k, (count + 1, grow total)) :: rest
      else (k, (count, total)) :: ext_stats_add rest ext size
  end.

(** The [for r in results] loop of the breakdown: the statistics and
    [sampled_files]. *)
Fixpoint sample_results (results : list SearchResult) (stats : ext_stats)
         (sampled_files : Z) : ext_stats * Z :=
  match results with
  | [] => (stats, sampled_files)
  | r :: rest =>
      if is_dir r then sample_results rest stats sampled_files
      else
        let ext := str_or (extension r) (lit "(no extension)") in
        sample_results rest (ext_stats_add stats ext (size r)) (sampled_files + 1)
  end.

(** [sorted(items, key=count, reverse=True)]: by falling count, items
    with the same count in their order of the input. *)
Fixpoint insert_by_count (x : str * (Z * Z)) (l : ext_stats) : ext_stats :=
  match l with
  | [] => [x]
  | y :: l' =>
      if fst (snd y) <=? fst (snd x) then x :: l else y :: insert_by_count x l'
  end.

Definition sorted_by_count (items : ext_stats) : ext_stats :=
  fold_right insert_by_count [] items.

(** The [for ext, stats in sorted_exts[:30]] loop. *)
Fixpoint breakdown_of (items : ext_stats) (breakdown : obj) : result obj :=
  match items with
  | [] => Return breakdown
  | (ext, (count, total)) :: rest =>
      match human_size total with
      | Raise e => Raise e
      | Return h =>
          breakdown_of rest
            (obj_set breakdown ext
               (JObj [ (lit "count", JInt count);
                       (lit "total_size", JInt total);
                       (lit "total_size_human", JStr h) ]))
      end
  end.

Definition sample_limit : Z := 500.

Definition breakdown_note (sampled_files : Z) (results : list SearchResult) : str :=
  lit "Based on " ++ str_of_int sampled_files ++ lit " sampled files from first "
  ++ str_of_int (Z.of_nat (List.length results))
  ++ lit " results (max sample " ++ str_of_int sample_limit
  ++ lit "); directories excluded.".

(** What a tool that answers in JSON returns: the dictionary, before its
    rendering by [json.dumps], or the text of an error. *)
Inductive stats_answer : Type :=
| Stats (output : obj)
| ErrorText (text : str).

Section Tools.
Context {U : Unicode} {P : Platform} {World : Type} {O : OS World}.
(** The module globals [_backend] and [_config]. *)
Variable _backend : option EverythingBackend.
Variable _config : option EverythingConfig.

Definition everything_search (params : SearchInput) : M World str :=
  try_except
    (backend <- lift (_get_backend _backend _config) ;;
     results <- search backend (query params) (max_results params) (sort params)
                       (match_case params) (match_whole_word params)
                       (match_regex params) (match_path params) (offset params) ;;
     lift (_format_search_results results (query params) (max_results params)
                                  (offset params)))
    [Exception]
    (fun exc => ret (lit "Error: " ++ exn_message exc)).

(** [get_status()]: the status resource, before its JSON rendering. *)
Definition get_status : M World status_dict :=
  match _backend with
  | Some backend => health_check backend
  | None => ret [("status", SStr (lit "not initialised"))]%string
  end.
Definition everything_search_by_type (params : SearchByTypeInput.t) : M World str :=
  try_except
    (backend <- lift (_get_backend _backend _config) ;;
     query <- lift (build_type_query (SearchByTypeInput.file_type params)
                                     (SearchByTypeInput.query params)
                                     (SearchByTypeInput.path params)) ;;
     results <- search backend query (SearchByTypeInput.max_results params)
                       (SearchByTypeInput.sort params) false false false false 0 ;;
     let label := lit "type:" ++ SearchByTypeInput.file_type params
                  ++ (if truthy (SearchByTypeInput.query params)
                      then lit " " ++ SearchByTypeInput.query params else []) in
     lift (_format_search_results results label
                                  (SearchByTypeInput.max_results params) 0))
    [Exception]
    (fun exc => ret (lit "Error: " ++ exn_message exc)).

Definition everything_find_recent (params : FindRecentInput.t) : M World str :=
  try_except
    (backend <- lift (_get_backend _backend _config) ;;
     let query := build_recent_query (FindRecentInput.period params)
                                     (FindRecentInput.path params)
                                     (FindRecentInput.extensions params) in
     let query := if truthy (FindRecentInput.query params)
                  then query ++ lit " " ++ FindRecentInput.query params
                  else query in
     results <- search backend query (FindRecentInput.max_results params)
                       (lit "date-modified-desc") false false false false 0 ;;
     lift (_format_search_results results
             (lit "recent (" ++ FindRecentInput.period params ++ lit ")")
             (FindRecentInput.max_results params) 0))
    [Exception]
    (fun exc => ret (lit "Error: " ++ exn_message exc)).

(** The three blocks of [everything_count_stats]; each has its own
    [try], and [output] is the dictionary as the block leaves it. *)
Definition count_block (backend : EverythingBackend) (query : str) (output : obj)
  : M World obj :=
  try_except
    (n <- count backend query ;;
     ret (obj_set output (lit "total_count") (JInt n)))
    [Exception]
    (fun _ =>
       ret (obj_set output (lit "count_note")
              (JStr (lit "Count not available (es.exe may not support -get-result-count)")))).

(** The size is stored before it is formatted: when the formatting raises,
    the stored size stays and the note is added to it. *)
Definition size_block (backend : EverythingBackend) (query : str) (output : obj)
  : M World obj :=
  let size_note (d : obj) :=
    obj_set d (lit "size_note") (JStr (lit "Total size not available")) in
  try_except
    (total_size <- get_total_size backend query ;;
     if 0 <=? total_size then
       let output := obj_set output (lit "total_size") (JInt total_size) in
       match human_size total_size with
       | Return h => ret (obj_set output (lit "total_size_human") (JStr h))
       | Raise _ => ret (size_note output)
       end
     else ret output)
    [Exception]
    (fun _ => ret (size_note output)).

Definition breakdown_block (backend : EverythingBackend) (query : str) (output : obj)
  : M World obj :=
  try_except
    (results <- search backend query sample_limit (lit "name")
                       false false false false 0 ;;
     let '(stats, sampled_files) := sample_results results [] 0 in
     let sorted_exts := sorted_by_count stats in
     breakdown <- lift (breakdown_of (firstn 30 sorted_exts) []) ;;
     let output := obj_set output (lit "extension_breakdown") (JObj breakdown) in
     ret (obj_set output (lit "breakdown_note")
            (JStr (breakdown_note sampled_files results))))
    [Exception]
    (fun exc => ret (obj_set output (lit "breakdown_error") (JStr (exn_message exc)))).

Definition everything_count_stats (params : CountStatsInput.t) : M World stats_answer :=
  try_except
    (backend <- lift (_get_backend _backend _config) ;;
     let output : obj := [(lit "query", JStr (CountStatsInput.query params))] in
     output <- count_block backend (CountStatsInput.query params) output ;;
     output <- (if CountStatsInput.include_size params
                then size_block backend (CountStatsInput.query params) output
                else ret output) ;;
     output <- (if CountStatsInput.breakdown_by_extension params
                then breakdown_block backend (CountStatsInput.query params) output
                else ret output) ;;
     ret (Stats output))
    [Exception]
    (fun exc => ret (ErrorText (lit "Error: " ++ exn_message exc))).
End Tools.

(** ** Directory summaries *)

(** An [os.DirEntry]: its name and what its two tests answer. *)
Record DirEntry : Type := mkDirEntry {
  entry_name : str;
  entry_is_dir : result bool;
  entry_is_file : result bool
}.

Definition _MAX_DIR_SCAN_ITEMS : Z := 10000.
Definition _MAX_SUBDIRECTORY_SAMPLE : Z := 20.
Definition _MAX_FILE_SAMPLE : Z := 30.

(** The state of the scan: [dirs], [files], [scanned], [truncated]. *)
Definition scan_state : Type := list str * list str * Z * bool.

(** The [for entry in entries] loop of [_summarize_directory].  An item
    of [entries] that is an exception is the iterator raising there. *)
Fixpoint scan_entries (entries : list (result DirEntry)) (dirs files : list str)
         (scanned : Z) : result scan_state :=
  match entries with
  | [] => Return (dirs, files, scanned, false)
  | Raise e :: _ => Raise e
  | Return entry :: rest =>
      if _MAX_DIR_SCAN_ITEMS <=? scanned then Return (dirs, files, scanned, true)
      else
        let scanned := scanned + 1 in
        match entry_is_dir entry with
        | Raise e =>
            if caught_by [OSError] e then scan_entries rest dirs files scanned
            else Raise e
        | Return true =>
            if Z.of_nat (List.length dirs) <? _MAX_SUBDIRECTORY_SAMPLE
            then scan_entries rest (dirs ++ [entry_name entry]) files scanned
            else scan_entries rest dirs files scanned
        | Return false =>
            match entry_is_file entry with
            | Raise e =>
                if caught_by [OSError] e then scan_entries rest dirs files scanned
                else Raise e
            | Return is_file =>
                if is_file && (Z.of_nat (List.length files) <? _MAX_FILE_SAMPLE)
                then scan_entries rest dirs (files ++ [entry_name entry]) scanned
                else scan_entries rest dirs files scanned
            end
        end
  end.

(** The summary dictionary; [note] is absent when [None]. *)
Record DirSummary : Type := mkDirSummary {
  item_count : Z;
  subdirectories : list str;
  files_sample : list str;
  note : option str
}.

Definition _summarize_directory (entries : list (result DirEntry))
  : result DirSummary :=
  match scan_entries entries [] [] 0 with
  | Raise e => Raise e
  | Return (dirs, files, scanned, truncated) =>
      Return
        (mkDirSummary scanned (sorted dirs) (sorted files)
           (if truncated : bool then
              Some (lit "Directory scan capped at " ++ str_of_int _MAX_DIR_SCAN_ITEMS
                    ++ lit " entries; samples may be incomplete")
            else if _MAX_SUBDIRECTORY_SAMPLE + _MAX_FILE_SAMPLE <? scanned then
              Some (lit "Showing first items of " ++ str_of_int scanned ++ lit " total")
            else None))
  end.

(** ** Text file preview *)

Definition _MAX_PREVIEW_CHARS : Z := 50000.

Section Preview.
Context {World : Type}.
(** [f.readline(size)] of the file that [_read_preview] has open. *)
Variable readline : Z -> M World str.

(** The [for _ in range(max_lines)] loop of [_read_preview], with
    [rounds] rounds left: the lines read and [truncated]. *)
Fixpoint read_lines (rounds : nat) (lines : list str) (total_chars : Z)
         (truncated : bool) : M World (list str * bool) :=
  match rounds with
  | O => ret (lines, truncated)
  | S rounds' =>
      let remaining := _MAX_PREVIEW_CHARS - total_chars in
      if remaining <=? 0 then ret (lines, true)
      else
        (* Bound each read to avoid huge single-line payloads. *)
        line <- readline (remaining + 1) ;;
        if negb (truthy line) then ret (lines, truncated)
        else
          let '(line, truncated) :=
            if remaining <? len line
            then (firstn (Z.to_nat remaining) line, true)
            else (line, truncated) in
          let total_chars := total_chars + len line in
          let lines := lines ++ [rstrip_chars [10; 13]%N line] in
          if _MAX_PREVIEW_CHARS <=? total_chars then ret (lines, true)
          else read_lines rounds' lines total_chars truncated
  end.

(** The body of [with open(path, encoding=encoding) as f:], once the file
    is open. *)
Definition read_preview_text (max_lines : Z) : M World str :=
  ' (lines, truncated) <- read_lines (Z.to_nat max_lines) [] 0 false ;;
  let lines := if truncated : bool
               then lines ++ [lit "... [preview truncated]"] else lines in
  ret (join newline lines).
End Preview.

(* ================================================================== *)
(** * The vocabulary of the statements *)
(* ================================================================== *)

Section VerifierVocabulary.
Context {U : Unicode} {P : Platform} {World : Type} {O : OS World}.

(** The two probes of [_is_everything_es]. *)
Definition version_query (path : str) : M World CompletedProcess :=
  subprocess_run [path; lit "-get-everything-version"] 5 _CREATE_NO_WINDOW.

Definition version_fallback (path : str) : M World CompletedProcess :=
  subprocess_run [path; lit "-version"] 5 _CREATE_NO_WINDOW.

(** The probe completed, or failed in one of the ways the verifier
    expects: a timeout, a missing file, or another [OSError] of the spawn. *)
Definition completes_or_fails_to_spawn {A} (r : result A) : Prop :=
  match r with
  | Return _ => True
  | Raise e => caught_by spawn_errors e = true
  end.

(** The commands of the instance detection and of the connectivity test. *)
Definition alpha_query (es_path : str) : list str :=
  [es_path; lit "-instance"; lit "1.5a"; lit "-get-everything-version"].

Definition connection_base (es_path instance : str) : list str :=
  es_path :: (if truthy instance then [lit "-instance"; instance] else []).

Definition listing_query (es_path instance : str) : list str :=
  connection_base es_path instance ++ [lit "-n"; lit "1"; lit "*.txt"].

(** The path passed verification, and that left the world in [w']. *)
Definition verified_at (path : str) (w' : World) : Prop :=
  exists w1, _is_everything_es path w1 = (Return true, w').

(** The path passed verification in some state of the world. *)
Definition verified (path : str) : Prop := exists w', verified_at path w'.

(** The last stage of [auto_detect]: the connectivity test of the
    configuration, and what the configuration records of it. *)
Definition record_connection (config : EverythingConfig) : M World EverythingConfig :=
  ' (ok, info) <- _test_connection (es_path config) (instance config) ;;
  if ok : bool then ret (set_version_info config info)
  else ret (errors_append config (msg_cannot_connect info)).
End VerifierVocabulary.

Section BackendVocabulary.
Context {U : Unicode} {P : Platform} {World : Type} {O : OS World}.
Variable config : EverythingConfig.

Definition count_cmd (query : str) : list str :=
  _base_cmd config ++ [lit "-get-result-count"; query].

Definition total_size_cmd (query : str) : list str :=
  _base_cmd config ++ [lit "-get-total-size"; query].

(** The two errors that [_run] translates to. *)
Definition timed_out : exn := Exn RuntimeError (msg_timed_out (timeout config)).
Definition missing : exn := Exn RuntimeError (msg_es_missing (es_path config)).

(** The command line of [search], argument by argument. *)
Definition search_argv (query : str) (max_results : Z) (sort : str)
           (match_case match_whole_word match_regex match_path : bool)
           (offset : Z) : list str :=
  _base_cmd config
  ++ [lit "-n"; str_of_int (Z.min max_results (max_results_cap config))]
  ++ (if 0 <? offset then [lit "-o"; str_of_int offset] else [])
  ++ [lit "-sort"; sort_value sort]
  ++ (if match_case then [lit "-case"] else [])
  ++ (if match_whole_word then [lit "-w"] else [])
  ++ (if match_regex then [lit "-r"] else [])
  ++ (if match_path then [lit "-p"] else [])
  ++ [query].

(** The message of a failed search: stderr, else stdout, else the exit
    code. *)
Definition search_failure (out err : str) (rc : Z) : exn :=
  Exn RuntimeError
    (lit "Everything search failed: "
     ++ str_or (strip err)
          (str_or (strip out) (lit "es.exe exited with code " ++ str_of_int rc))).
End BackendVocabulary.

Section DecodeVocabulary.
Context {P : Platform}.

(** The text that [_decode_output] returns. *)
Definition decoded (data : bytes) : str :=
  match _decode_output data with
  | Return s => s
  | Raise _ => []
  end.
End DecodeVocabulary.

(** [status[key]] of a status dictionary. *)
Definition status_get (d : status_dict) (key : string) : option status_value :=
  match find (fun kv => String.eqb (fst kv) key) d with
  | Some kv => Some (snd kv)
  | None => None
  end.

Section HealthVocabulary.
Context {U : Unicode} {P : Platform} {World : Type} {O : OS World}.

(** The command of the health check. *)
Definition health_cmd (config : EverythingConfig) : list str :=
  _base_cmd config ++ [lit "-get-everything-version"].
End HealthVocabulary.

(** The line of the listing for an entry, from its fields: the size, when
    one is shown, and the modification date, when there is one, in
    parentheses after the path. *)
Definition listing_line (r : SearchResult) (shown_size : option str) : str :=
  lit "  " ++ (if is_dir r then lit "[DIR]" else lit "[FILE]") ++ lit " " ++ path r
  ++ match shown_size, date_modified r with
     | None, [] => []
     | Some h, [] => lit "  (" ++ h ++ lit ")"
     | None, (_ :: _) as dm => lit "  (" ++ dm ++ lit ")"
     | Some h, (_ :: _) as dm => lit "  (" ++ h ++ lit ", " ++ dm ++ lit ")"
     end.

(** The names of the entries the iterator yields. *)
Definition yielded_names (entries : list (result DirEntry)) : list str :=
  flat_map (fun r => match r with
                     | Return entry => [entry_name entry]
                     | Raise _ => []
                     end) entries.

(** The extensions that [build_recent_query] keeps of its list: the
    components that are not empty. *)
Definition kept_extensions (extensions : str) : list str :=
  filter truthy
    (split semicolon
       (replace_char 32%N semicolon
          (replace_char 44%N semicolon (delete_char dot extensions)))).

(** The unit of a size, by its magnitude. *)
Definition size_unit (n : Z) : string :=
  if n <? 2 ^ 10 then "B"
  else if n <? 2 ^ 20 then "KB"
  else if n <? 2 ^ 30 then "MB"
  else if n <? 2 ^ 40 then "GB"
  else if n <? 2 ^ 50 then "TB"
  else "PB".

(** The first integer that [float()] refuses: halfway between the largest
    double and [2^1024]. *)
Definition float_overflow : Z := 2 ^ 1024 - 2 ^ 970.

(** The files of a batch, the extension under which the breakdown counts
    one, and the sum of the counts of a breakdown. *)
Definition files_of (results : list SearchResult) : list SearchResult :=
  filter (fun r => negb (is_dir r)) results.

Definition counted_as (r : SearchResult) : str :=
  str_or (extension r) (lit "(no extension)").

Definition sum_counts (stats : ext_stats) : Z :=
  fold_right (fun kv acc => fst (snd kv) + acc) 0 stats.

(** The number of characters of a list of lines. *)
Definition total_len (lines : list str) : Z :=
  fold_right (fun l acc => len l + acc) 0 lines.

Section MaterializeVocabulary.
Context {U : Unicode} {P : Platform} {World : Type} {O : OS World}.

(** The entry of the [except Exception] branch: the raw path, pathlib's
    name for it (or the path itself), and the dataclass defaults. *)
Definition bare_entry (filepath : str) : SearchResult :=
  SearchResult_default filepath
    (str_or (path_name (Path os_flavour filepath)) filepath).

(** The entry when the body of the [try] ran to its end. *)
Definition full_entry (filepath : str) (d : bool) (size : Z) (dm dc : str)
  : SearchResult :=
  let p := Path os_flavour filepath in
  mkSearchResult (path_str os_flavour p) (str_or (path_name p) filepath) d size dm dc
    (if negb d then lower (lstrip_chars [dot] (path_suffix p)) else []).

(** The two filters of the loop, on the raw line. *)
Definition trimmed (raw_line : str) : str := rstrip_chars [13; 10]%N raw_line.

Definition accepted (raw_line : str) : bool :=
  truthy (strip (trimmed raw_line)) && _looks_like_path (trimmed raw_line).

(** [r] is an entry that [_stat_to_result] builds for the line in some
    state of the world. *)
Definition entry_of (raw_line : str) (r : SearchResult) : Prop :=
  exists w w', _stat_to_result (trimmed raw_line) w = (Return (Some r), w').

(** The three path shapes, in the words of the specification. *)
Definition drive_letter_shape (s : str) : Prop :=
  exists c separator rest,
    s = c :: colon :: separator :: rest /\
    isalpha c = true /\ (separator = slash \/ separator = backslash).

Definition unc_shape (s : str) : Prop :=
  exists rest, s = backslash :: backslash :: rest.

Definition leading_slash_shape (s : str) : Prop :=
  exists rest, s = slash :: rest.
End MaterializeVocabulary.




(** ** A machine for the examples

    The theorems below hold for every character database, platform and
    operating system.  The examples run the code on this one: ASCII
    character tables, and an operating system whose answers are fixed
    functions of the arguments. *)

#[local] Open Scope N_scope.

Definition ascii_lower (c : char) : char :=
  if (65 <=? c) && (c <=? 90) then c + 32 else c.

Definition ascii_unicode : Unicode := {|
  isalpha := fun c => (65 <=? c) && (c <=? 90) || (97 <=? c) && (c <=? 122);
  isdigit := fun c => (48 <=? c) && (c <=? 57);
  decimal_value := fun c =>
    if (48 <=? c) && (c <=? 57) then Some (Z.of_N (c - 48)) else None;
  lower := map ascii_lower
|}.

#[local] Close Scope N_scope.

(** Latin-1 never fails to decode; an unknown encoding always does. *)
Definition demo_platform (fl : flavour) (latin1 : bool) : Platform := {|
  os_flavour := fl;
  sys_platform := match fl with
                  | PosixFlavour => lit "linux"
                  | WindowsFlavour => lit "win32"
                  end;
  CREATE_NO_WINDOW := match fl with
                      | PosixFlavour => 0
                      | WindowsFlavour => 134217728
                      end;
  int_max_str_digits := 4300;
  locale_decode := fun data => if latin1 then CodecText data else CodecLookupError;
  expandvars := fun s => s
|}.

Record machine : Type := mkMachine {
  m_environ : string -> str;
  m_run : list str -> result CompletedProcess;
  m_spawn : list str -> result process;
  m_communicate : process -> result (bytes * bytes);
  m_returncode : process -> option Z;
  m_is_file : str -> result bool;
  m_is_dir : str -> result bool;
  m_stat : str -> result stat_result;
  m_strftime : Z -> result str;
  m_which : str -> option str
}.

Definition not_found : exn := Exn FileNotFoundError (lit "No such file or directory").

Definition machine_OS (m : machine) : OS unit := {|
  environ_get := fun key _ => m_environ m key;
  subprocess_run := fun argv _ _ => lift (m_run m argv);
  Path_is_file := fun p => lift (m_is_file m p);
  Path_is_dir := fun p => lift (m_is_dir m p);
  Path_stat := fun p => lift (m_stat m p);
  strftime_local := fun t => lift (m_strftime m t);
  shutil_which := fun name => ret (m_which m name);
  import_winreg := raise (Exn ImportError (lit "No module named 'winreg'"));
  winreg_InstallPath := fun _ _ => raise not_found;
  create_subprocess_exec := fun cmd _ => lift (m_spawn m cmd);
  communicate := fun p _ => lift (m_communicate m p);
  process_returncode := fun p _ => m_returncode m p;
  process_kill := fun _ => ret tt
|}.

(** An empty machine: no files, no programs, nothing answers. *)
Definition bare_machine : machine := {|
  m_environ := fun _ => [];
  m_run := fun _ => Raise not_found;
  m_spawn := fun _ => Raise not_found;
  m_communicate := fun _ => Return ([], []);
  m_returncode := fun _ => Some 0;
  m_is_file := fun _ => Return false;
  m_is_dir := fun _ => Return false;
  m_stat := fun _ => Raise not_found;
  m_strftime := fun _ => Return (lit "2026-01-15 10:00:00");
  m_which := fun _ => None
|}.

(** es.exe is installed at [where_] and every command [answer]s. *)
Definition installed (where_ : str) (answer : list str -> result CompletedProcess)
  : machine := {|
  m_environ := fun _ => [];
  m_run := answer;
  m_spawn := fun _ => Return 1%N;
  m_communicate := fun _ => Return ([], []);
  m_returncode := fun _ => Some 0;
  m_is_file := fun p => Return (str_eqb p where_);
  m_is_dir := fun _ => Return false;
  m_stat := fun _ => Raise not_found;
  m_strftime := fun _ => Return (lit "2026-01-15 10:00:00");
  m_which := fun name => if str_eqb name (lit "es") then Some where_ else None
|}.

(** The process writes [out] and [err] and exits with [rc]. *)
Definition exits_with (out err : bytes) (rc : Z) : machine := {|
  m_environ := fun _ => [];
  m_run := fun _ => Raise not_found;
  m_spawn := fun _ => Return 1%N;
  m_communicate := fun _ => Return (out, err);
  m_returncode := fun _ => Some rc;
  m_is_file := fun _ => Return false;
  m_is_dir := fun _ => Return false;
  m_stat := fun _ => Raise not_found;
  m_strftime := fun _ => Return (lit "2026-01-15 10:00:00");
  m_which := fun _ => None
|}.

(** A file that answers the status call: 2048 bytes. *)
Definition with_file (where_ : str) : machine := {|
  m_environ := fun _ => [];
  m_run := fun _ => Raise not_found;
  m_spawn := fun _ => Return 1%N;
  m_communicate := fun _ => Return ([], []);
  m_returncode := fun _ => Some 0;
  m_is_file := fun p => Return (str_eqb p where_);
  m_is_dir := fun _ => Return false;
  m_stat := fun p => if str_eqb p where_
                     then Return (mkStat 2048 1768471200 1764579600)
                     else Raise not_found;
  m_strftime := fun _ => Return (lit "2026-01-15 10:00:00");
  m_which := fun _ => None
|}.


(** Every path is a folder that answers the status call. *)
Definition folder_machine : machine := {|
  m_environ := fun _ => [];
  m_run := fun _ => Raise not_found;
  m_spawn := fun _ => Return 1%N;
  m_communicate := fun _ => Return ([], []);
  m_returncode := fun _ => Some 0;
  m_is_file := fun _ => Return false;
  m_is_dir := fun _ => Return true;
  m_stat := fun _ => Return (mkStat 4096 1768471200 1764579600);
  m_strftime := fun _ => Return (lit "2026-01-15 10:00:00");
  m_which := fun _ => None
|}.

(** The process starts and never answers: the wait times out. *)
Definition hanging : machine := {|
  m_environ := fun _ => [];
  m_run := fun _ => Raise not_found;
  m_spawn := fun _ => Return 1%N;
  m_communicate := fun _ => Raise (Exn AsyncioTimeoutError []);
  m_returncode := fun _ => None;
  m_is_file := fun _ => Return false;
  m_is_dir := fun _ => Return false;
  m_stat := fun _ => Raise not_found;
  m_strftime := fun _ => Return (lit "2026-01-15 10:00:00");
  m_which := fun _ => None
|}.

(** An open text file, as the lines still to be read; a read gives the next
    line, cut to the size asked for, and the empty string at the end. *)
Definition file_readline (size : Z) : M (list str) str :=
  fun f =>
    match f with
    | [] => (Return [], [])
    | line :: rest => (Return (firstn (Z.to_nat size) line), rest)
    end.

(** A machine for the statistics: es.exe counts 3 results of 1300 bytes
    and lists a Python file, a file without extension and a folder. *)
Definition repo_machine : machine := {|
  m_environ := fun _ => [];
  m_run := fun _ => Raise not_found;
  m_spawn := fun cmd =>
    if existsb (str_eqb (lit "-get-result-count")) cmd then Return 1%N
    else if existsb (str_eqb (lit "-get-total-size")) cmd then Return 2%N
    else Return 3%N;
  m_communicate := fun p =>
    if N.eqb p 1 then Return (lit "3" ++ [10]%N, [])
    else if N.eqb p 2 then Return (lit "1300" ++ [10]%N, [])
    else Return (lit "C:\repo\a.py" ++ [13; 10]%N ++ lit "C:\repo\README" ++ [13; 10]%N
                 ++ lit "C:\repo\src" ++ [13; 10]%N, []);
  m_returncode := fun _ => Some 0;
  m_is_file := fun _ => Return false;
  m_is_dir := fun p => Return (str_eqb p (lit "C:\repo\src"));
  m_stat := fun p =>
    if str_eqb p (lit "C:\repo\a.py") then Return (mkStat 1200 1768471200 1764579600)
    else Return (mkStat 100 1768471200 1764579600);
  m_strftime := fun _ => Return (lit "2026-01-15 10:00:00");
  m_which := fun _ => None
|}.

(** The fixture [sample_results] of the repository's tests. *)
Definition sample_results_fixture : list SearchResult :=
  [ mkSearchResult (lit "C:\Projects\app\main.py") (lit "main.py") false 2048
      (lit "2026-01-15 10:30:00") (lit "2025-12-01 09:00:00") (lit "py");
    mkSearchResult (lit "C:\Projects\app\utils.py") (lit "utils.py") false 512
      (lit "2026-01-14 14:20:00") (lit "2025-12-01 09:00:00") (lit "py");
    mkSearchResult (lit "C:\Projects\app\src") (lit "src") true (-1)
      (lit "2026-01-15 10:30:00") [] [] ].

(** es.exe answers with a version banner but exits with code 1: it passes
    verification and fails the connectivity probe. *)
Definition not_running (_ : list str) : result CompletedProcess :=
  Return (mkCompleted 1 (lit "1.4.1.1024") (lit "IPC window not found")).

(** es.exe prints its version for every command. *)
Definition prints_version (_ : list str) : result CompletedProcess :=
  Return (mkCompleted 0 (lit "1.4.1.1024") []).

(** The default instance does not answer; the [1.5a] instance does. *)
Definition alpha_only (argv : list str) : result CompletedProcess :=
  if existsb (str_eqb (lit "-instance")) argv
  then Return (mkCompleted 0 (lit "1.5.0.1355a" ++ [10]%N) [])
  else Return (mkCompleted 1 [] []).

(** The same, with an error banner on stdout when the default instance
    is asked: the banner has a digit, so verification passes. *)
Definition alpha_with_banner (argv : list str) : result CompletedProcess :=
  if existsb (str_eqb (lit "-instance")) argv
  then Return (mkCompleted 0 (lit "1.5.0.1355a" ++ [10]%N) [])
  else Return (mkCompleted 1 (lit "Error 8: IPC window not found") []).

(** A machine that keeps the commands it ran, in order: the world is that
    list.  es.exe is on the search path and prints its version for every
    command; EVERYTHING_INSTANCE has the value [env_instance]. *)
Definition recording_OS (env_instance : str) : OS (list (list str)) := {|
  environ_get := fun key _ =>
    if String.eqb key "EVERYTHING_INSTANCE" then env_instance else [];
  subprocess_run := fun argv _ _ ran =>
    (Return (mkCompleted 0 (lit "1.4.1.1024") []), ran ++ [argv]);
  Path_is_file := fun p => ret (str_eqb p (lit "C:\es.exe"));
  Path_is_dir := fun _ => ret false;
  Path_stat := fun _ => raise not_found;
  strftime_local := fun _ => ret (lit "2026-01-15 10:00:00");
  shutil_which := fun name =>
    ret (if str_eqb name (lit "es") then Some (lit "C:\es.exe") else None);
  import_winreg := raise (Exn ImportError (lit "No module named 'winreg'"));
  winreg_InstallPath := fun _ _ => raise not_found;
  create_subprocess_exec := fun _ _ => ret 1%N;
  communicate := fun _ _ => ret ([], []);
  process_returncode := fun _ _ => Some 0;
  process_kill := fun _ => ret tt
|}.

Definition timing_out (_ : list str) : result CompletedProcess :=
  Raise (Exn TimeoutExpired (lit "Command timed out after 5 seconds")).

(** The program writes bytes that are not text in the locale's encoding:
    [subprocess.run(..., text=True)] raises when it decodes them. *)
Definition undecodable_error : exn :=
  Exn UnicodeDecodeError (lit "'utf-8' codec can't decode byte 0xff in position 0").

Definition undecodable (_ : list str) : result CompletedProcess :=
  Raise undecodable_error.

(** The version query times out and the [-version] banner is not text. *)
Definition undecodable_banner (argv : list str) : result CompletedProcess :=
  if existsb (str_eqb (lit "-version")) argv then Raise undecodable_error
  else Raise (Exn TimeoutExpired (lit "Command timed out after 5 seconds")).

Definition demo_config : EverythingConfig :=
  mkConfig (lit "C:\Program Files\Everything\es.exe") [] 30 1000 [] []
           (lit "Everything v1.4.1.1024").

(* ================================================================== *)
(** * Properties *)
(* ================================================================== *)

#[global] Arguments caught_by : simpl never.

(** ** Strings *)

Lemma str_eqb_eq (a b : str) : str_eqb a b = true <-> a = b.
Proof.
  unfold str_eqb. destruct (list_eq_dec N.eq_dec a b); split; congruence.
Qed.

Lemma truthy_true (s : str) : truthy s = true <-> s <> [].
Proof. destruct s; simpl; split; congruence. Qed.

Lemma truthy_false (s : str) : truthy s = false <-> s = [].
Proof. destruct s; simpl; split; congruence. Qed.


Lemma ends_with_refl (s : str) : ends_with s s.
Proof. exists []. reflexivity. Qed.

Lemma ends_with_app (a s suffix : str) : ends_with s suffix -> ends_with (a ++ s) suffix.
Proof. intros [pre ->]. exists (a ++ pre). now rewrite app_assoc. Qed.

(** ** Size formatting *)

(** C8: the size table of the specification: 0, 1023, 1024, 1536,
    1048576 and 1024^4 bytes render as "0 B", "1023 B", "1.0 KB",
    "1.5 KB", "1.0 MB" and "1.0 TB", and every negative size renders as
    "unknown". *)
Theorem human_size_table :
  human_size 0 = Return (lit "0 B") /\
  human_size 1023 = Return (lit "1023 B") /\
  human_size 1024 = Return (lit "1.0 KB") /\
  human_size 1536 = Return (lit "1.5 KB") /\
  human_size 1048576 = Return (lit "1.0 MB") /\
  human_size (1024 ^ 4) = Return (lit "1.0 TB") /\
  (forall n : Z, n < 0 -> human_size n = Return (lit "unknown")).
Proof.
  do 6 (split; [vm_compute; reflexivity |]).
  intros n Hn. unfold human_size.
  destruct (Z.ltb_spec n 0); [reflexivity | lia].
Qed.

Lemma human_size_table_witness :
  -1 < 0 /\ human_size (-1) = Return (lit "unknown").
Proof.
  split; [lia |].
  apply (proj2 (proj2 (proj2 (proj2 (proj2 (proj2 human_size_table)))))).
  lia.
Defined.

(** Sizes the table does not list: binary rounding of the quotient, the
    petabyte branch and the overflow of [float()]. *)
Example human_size_edge :
  human_size 1048575 = Return (lit "1024.0 KB") /\
  human_size 1280 = Return (lit "1.2 KB") /\
  human_size 1792 = Return (lit "1.8 KB") /\
  human_size (1024 ^ 5 * 1000) = Return (lit "1000.0 PB") /\
  human_size (2 ^ 1024 - 2 ^ 970) =
    Raise (Exn OverflowError (lit "int too large to convert to float")).
Proof. do 4 (split; [vm_compute; reflexivity |]). vm_compute. reflexivity. Qed.

(** ** Serialization *)

Lemma human_size_nonneg_cases (n : Z) :
  (exists h, human_size n = Return h) \/
  human_size n = Raise (Exn OverflowError (lit "int too large to convert to float")).
Proof.
  unfold human_size. destruct (n <? 0); [left; eauto |].
  destruct (float_of_int n); [left; eauto | right; reflexivity].
Qed.

(** C10: when [to_dict] yields a dictionary, the keys "size" and
    "size_human" are in it only if the entry is not a directory and its
    size is non-negative (and then both are, with the entry's size); so a
    folder has no "size" key and the stored size is never the sentinel -1. *)
Theorem to_dict_size_keys (r : SearchResult) (d : dict) :
  to_dict r = Return d ->
  (dict_has d "size" = true <-> is_dir r = false /\ 0 <= size r) /\
  (dict_has d "size_human" = true <-> is_dir r = false /\ 0 <= size r) /\
  (dict_has d "size" = true -> dict_get d "size" = Some (VInt (size r))) /\
  (is_dir r = true -> dict_get d "size" = None) /\
  dict_get d "size" <> Some (VInt (-1)).
Proof.
  unfold to_dict. intros H.
  destruct (is_dir r) eqn:Hd; simpl in H.
  - destruct (truthy (extension r)), (truthy (date_modified r)),
      (truthy (date_created r)); inversion H; subst; cbn;
      repeat split; intros; try discriminate; try tauto;
      destruct H0; discriminate.
  - destruct (Z.leb_spec 0 (size r)) as [Hs | Hs]; simpl in H.
    + destruct (human_size (size r)) as [h | e]; [| discriminate].
      destruct (truthy (extension r)), (truthy (date_modified r)),
        (truthy (date_created r)); inversion H; subst; cbn;
        repeat split; intros; try discriminate; try tauto; try lia;
        intros Heq; inversion Heq; lia.
    + destruct (truthy (extension r)), (truthy (date_modified r)),
        (truthy (date_created r)); inversion H; subst; cbn;
        repeat split; intros; try discriminate; try tauto; try lia;
        destruct H0; lia.
Qed.

Lemma to_dict_size_keys_witness :
  let r := mkSearchResult (lit "C:\test.py") (lit "test.py") false 1024 []
             (lit "2026-01-15 10:00:00") (lit "py") in
  exists d, to_dict r = Return d /\
            dict_get d "size" = Some (VInt 1024) /\
            dict_get d "size_human" = Some (VStr (lit "1.0 KB")).
Proof.
  intros r. eexists. split; [vm_compute; reflexivity |].
  split; [| vm_compute; reflexivity].
  refine (proj1 (proj2 (proj2 (@to_dict_size_keys r _ _))) _);
    vm_compute; reflexivity.
Defined.

(** A size beyond the range of [float] makes [human_size], and with it
    [to_dict], raise: the theorem above speaks of the entries that do
    serialize. *)
Example to_dict_overflow :
  to_dict (mkSearchResult (lit "C:\big") (lit "big") false (2 ^ 1024) [] [] [])
    = Raise (Exn OverflowError (lit "int too large to convert to float")).
Proof. vm_compute. reflexivity. Qed.

(** ** Decoding *)

Lemma utf8_strict_replace (items : list utf8_item) (s : str) :
  utf8_strict_items items = Some s ->
  map (fun it => match it with Decoded c => c | IllFormed => 65533%N end) items = s.
Proof.
  revert s. induction items as [| [c |] items IH]; simpl; intros s H.
  - now inversion H.
  - destruct (utf8_strict_items items) as [s' |]; [| discriminate].
    inversion H; subst. f_equal. now apply IH.
  - discriminate.
Qed.

(** A well-formed input decodes to the same text with either error
    handler. *)
Lemma utf8_decode_replace_strict (data : bytes) (s : str) :
  utf8_decode data = Some s -> utf8_decode_replace data = s.
Proof. apply utf8_strict_replace. Qed.

Section DecodeProperties.
Context {P : Platform}.

Lemma decode_output_bom (rest : bytes) :
  _decode_output (BOM ++ rest) = Return (utf8_decode_replace rest).
Proof. reflexivity. Qed.

Lemma decode_output_no_bom (data : bytes) :
  bytes_startswith BOM data = false ->
  _decode_output data =
    match utf8_decode data with
    | Some s => Return s
    | None =>
        match locale_decode data with
        | CodecText s => Return s
        | CodecDecodeError | CodecLookupError =>
            Return (utf8_decode_replace data)
        end
    end.
Proof.
  intros H. unfold _decode_output, decode_utf8, decode_locale. rewrite H.
  destruct (utf8_decode data); [reflexivity |].
  destruct (locale_decode data); reflexivity.
Qed.

(** C3: an input that starts with the byte-order mark EF BB BF decodes
    to the UTF-8 reading of what follows those three bytes (the strict
    reading when the rest is well-formed); without the mark, a UTF-8
    failure falls back on the locale's codec and a failure of that on
    UTF-8 with replacement; and every input decodes to some text: no
    exception leaves [_decode_output]. *)
Theorem decode_output_spec :
  (forall rest, _decode_output (BOM ++ rest) = Return (utf8_decode_replace rest)) /\
  (forall rest s, utf8_decode rest = Some s ->
                  _decode_output (BOM ++ rest) = Return s) /\
  (forall data, bytes_startswith BOM data = false ->
     _decode_output data =
       match utf8_decode data with
       | Some s => Return s
       | None =>
           match locale_decode data with
           | CodecText s => Return s
           | CodecDecodeError | CodecLookupError =>
               Return (utf8_decode_replace data)
           end
       end) /\
  (forall data, exists s, _decode_output data = Return s).
Proof.
  split; [exact decode_output_bom |].
  split.
  { intros rest s H. rewrite decode_output_bom.
    now rewrite (utf8_decode_replace_strict _ H). }
  split; [exact decode_output_no_bom |].
  intros data. destruct (bytes_startswith BOM data) eqn:Hb.
  - unfold _decode_output. rewrite Hb. eauto.
  - rewrite (decode_output_no_bom _ Hb).
    destruct (utf8_decode data); [eauto |].
    destruct (locale_decode data); eauto.
Qed.
End DecodeProperties.

Lemma decode_output_spec_witness :
  @_decode_output (demo_platform WindowsFlavour false)
     (BOM ++ [104; 105]%N) = Return (lit "hi") /\
  @_decode_output (demo_platform WindowsFlavour false)
     [99; 97; 102; 233]%N = Return [99; 97; 102; 65533]%N.
Proof.
  pose proof (@decode_output_spec (demo_platform WindowsFlavour false))
    as (_ & Hbom & Hplain & _).
  split.
  - apply Hbom. vm_compute. reflexivity.
  - rewrite Hplain; vm_compute; reflexivity.
Defined.

(** A second mark is text: only the first three bytes are dropped.  A
    truncated sequence after the mark is replaced, not an error. *)
Example decode_output_bom_twice :
  @_decode_output (demo_platform PosixFlavour true)
     (BOM ++ BOM ++ [104; 105]%N) = Return [65279; 104; 105]%N /\
  @_decode_output (demo_platform PosixFlavour true)
     (BOM ++ [104; 226; 130]%N) = Return [104; 65533]%N.
Proof. vm_compute. split; reflexivity. Qed.

(** ** Configuration *)

Lemma is_valid_iff (c : EverythingConfig) :
  is_valid c = true <-> es_path c <> [] /\ errors c = [].
Proof.
  unfold is_valid. rewrite andb_true_iff, truthy_true, Nat.eqb_eq.
  split; intros [H1 H2]; split; auto.
  - now apply length_zero_iff_nil.
  - now rewrite H2.
Qed.

Lemma errors_append_invalid (c : EverythingConfig) (msg : str) :
  is_valid (errors_append c msg) = false.
Proof.
  unfold is_valid, errors_append. simpl. rewrite length_app. simpl.
  rewrite Nat.add_comm. simpl. apply andb_false_r.
Qed.

Section ConfigProperties.
Context {U : Unicode} {P : Platform} {World : Type} {O : OS World}.

Lemma initial_config_errors (w : World) : errors (initial_config w) = [].
Proof. unfold initial_config. destruct (truthy _); reflexivity. Qed.

Lemma detect_instance_if_unset_keeps (c c1 : EverythingConfig) (w w1 : World) :
  detect_instance_if_unset c w = (Return c1, w1) ->
  es_path c1 = es_path c /\ errors c1 = errors c.
Proof.
  unfold detect_instance_if_unset, bind, ret. destruct (negb _).
  - destruct (_detect_instance (es_path c) w) as [[i | e] w']; intros H;
      inversion H; subst; auto.
  - intros H; inversion H; subst; auto.
Qed.

(** [auto_detect], one stage after the other. *)
Lemma auto_detect_unfold (w : World) :
  auto_detect w =
    match _find_es_exe (env_stripped "EVERYTHING_ES_PATH" w) w with
    | (Raise e, w1) => (Raise e, w1)
    | (Return found, w1) =>
        let config := set_es_path (initial_config w) found in
        if negb (truthy found)
        then (Return (errors_append config msg_not_found), w1)
        else
          match detect_instance_if_unset config w1 with
          | (Raise e, w2) => (Raise e, w2)
          | (Return c1, w2) =>
              match _test_connection (es_path c1) (instance c1) w2 with
              | (Raise e, w3) => (Raise e, w3)
              | (Return (ok, info), w3) =>
                  if ok
                  then (Return (set_version_info c1 info), w3)
                  else (Return (errors_append c1 (msg_cannot_connect info)), w3)
              end
          end
    end.
Proof.
  unfold auto_detect, bind, gets, ret.
  destruct (_find_es_exe (env_stripped "EVERYTHING_ES_PATH" w) w) as [[found | e] w1];
    [| reflexivity].
  simpl. destruct (negb (truthy found)); [reflexivity |].
  destruct (detect_instance_if_unset _ w1) as [[c1 | e] w2]; [| reflexivity].
  destruct (_test_connection _ _ w2) as [[[[|] info] | e] w3]; reflexivity.
Qed.

(** C7: a configuration is valid exactly when its path is not empty and
    its error list is empty; and the configuration that [auto_detect]
    produces is invalid, with the error it appended, both when
    discovery returned no path and when the connectivity probe failed. *)
Theorem is_valid_spec :
  (forall c, is_valid c = true <-> es_path c <> [] /\ errors c = []) /\
  (forall w c w',
     auto_detect w = (Return c, w') ->
     forall found w1,
       _find_es_exe (env_stripped "EVERYTHING_ES_PATH" w) w = (Return found, w1) ->
       (found = [] -> is_valid c = false /\ errors c = [msg_not_found]) /\
       (forall c1 w2 info w3,
          found <> [] ->
          detect_instance_if_unset (set_es_path (initial_config w) found) w1
            = (Return c1, w2) ->
          _test_connection (es_path c1) (instance c1) w2
            = (Return (false, info), w3) ->
          is_valid c = false /\ errors c = [msg_cannot_connect info])).
Proof.
  split; [exact is_valid_iff |].
  intros w c w' Hrun found w1 Hfind.
  rewrite auto_detect_unfold, Hfind in Hrun. cbv zeta in Hrun.
  split.
  - intros ->. simpl in Hrun. inversion Hrun; subst.
    split; [apply errors_append_invalid |].
    simpl. now rewrite initial_config_errors.
  - intros c1 w2 info w3 Hfound Hinst Hprobe.
    replace (truthy found) with true in Hrun
      by (symmetry; now apply truthy_true).
    simpl negb in Hrun. cbv iota in Hrun.
    rewrite Hinst, Hprobe in Hrun. inversion Hrun; subst.
    split; [apply errors_append_invalid |].
    destruct (detect_instance_if_unset_keeps _ _ Hinst) as [_ He].
    simpl. rewrite He. simpl. now rewrite initial_config_errors.
Qed.
End ConfigProperties.

Lemma is_valid_spec_witness :
  let U := ascii_unicode in
  let P := demo_platform WindowsFlavour true in
  (exists c,
     @auto_detect U P unit (machine_OS bare_machine) tt = (Return c, tt) /\
     is_valid c = false /\ errors c = [msg_not_found]) /\
  (exists c,
     @auto_detect U P unit (machine_OS (installed (lit "C:\es.exe") not_running)) tt
       = (Return c, tt) /\
     is_valid c = false /\
     errors c = [msg_cannot_connect (lit "IPC window not found")]).
Proof.
  intros U P. split.
  - eexists. split; [vm_compute; reflexivity |].
    refine (proj1 (proj2 (@is_valid_spec U P unit (machine_OS bare_machine))
                     tt _ tt _ [] tt _) eq_refl);
      vm_compute; reflexivity.
  - eexists. split; [vm_compute; reflexivity |].
    refine (proj2 (proj2 (@is_valid_spec U P unit
                            (machine_OS (installed (lit "C:\es.exe") not_running)))
                     tt _ tt _ (lit "C:\es.exe") tt _)
              (set_es_path EverythingConfig_default (lit "C:\es.exe")) tt
              (lit "IPC window not found") tt _ _ _);
      try (vm_compute; reflexivity).
    discriminate.
Defined.

(** ** The verifier *)

Lemma lstrip_by_In (f : char -> bool) (s : str) (c : char) :
  In c (lstrip_by f s) -> In c s.
Proof.
  induction s as [| x s IH]; simpl; [tauto |].
  destruct (f x); simpl; tauto.
Qed.

Lemma rstrip_by_In (f : char -> bool) (s : str) (c : char) :
  In c (rstrip_by f s) -> In c s.
Proof.
  induction s as [| x s IH]; simpl; [tauto |].
  destruct (rstrip_by f s) as [| y t].
  - destruct (f x); simpl; tauto.
  - simpl. simpl in IH. tauto.
Qed.

Lemma strip_In (s : str) (c : char) : In c (strip s) -> In c s.
Proof. intros H. apply (lstrip_by_In isspace), (rstrip_by_In isspace), H. Qed.

Section VerifierProperties.
Context {U : Unicode} {P : Platform} {World : Type} {O : OS World}.

Lemma is_everything_es_unfold (path : str) (w : World) :
  _is_everything_es path w =
    match version_query path w with
    | (Return result, w1) =>
        (Return (truthy (strip (stdout result))
                 && existsb isdigit (strip (stdout result))), w1)
    | (Raise e, w1) =>
        if caught_by spawn_errors e then
          match version_fallback path w1 with
          | (Return result, w2) =>
              (Return (str_contains (lit "everything") (lower (stdout result))), w2)
          | (Raise e2, w2) =>
              if caught_by spawn_errors e2 then (Return false, w2)
              else (Raise e2, w2)
          end
        else (Raise e, w1)
    end.
Proof.
  unfold _is_everything_es, version_query, version_fallback,
    try_except, try_, bind, ret.
  destruct (subprocess_run _ _ _ w) as [[r | e] w1]; [reflexivity |].
  simpl. destruct (caught_by spawn_errors e); [| reflexivity].
  destruct (subprocess_run _ _ _ w1) as [[r2 | e2] w2]; [reflexivity |].
  simpl. destruct (caught_by spawn_errors e2); reflexivity.
Qed.

(** The answers of the verifier: a boolean whenever each probe either
    completes or fails by a spawn error, a timeout or a missing file; false
    when both probes fail so; true only if the version query completed with
    a non-empty output that has a digit in it, or the version query failed
    so and the [-version] fallback completed with an output that contains
    "everything" once lower-cased. *)
Lemma is_everything_es_cases (path : str) (w : World) :
  (forall r1 w1,
     version_query path w = (r1, w1) ->
     completes_or_fails_to_spawn r1 ->
     completes_or_fails_to_spawn (fst (version_fallback path w1)) ->
     exists b w', _is_everything_es path w = (Return b, w')) /\
  (forall e1 w1 e2 w2,
     version_query path w = (Raise e1, w1) ->
     caught_by spawn_errors e1 = true ->
     version_fallback path w1 = (Raise e2, w2) ->
     caught_by spawn_errors e2 = true ->
     _is_everything_es path w = (Return false, w2)) /\
  (forall w',
     _is_everything_es path w = (Return true, w') ->
     (exists result,
        version_query path w = (Return result, w') /\
        stdout result <> [] /\
        strip (stdout result) <> [] /\
        (exists c, In c (stdout result) /\ isdigit c = true)) \/
     (exists e1 w1 result,
        version_query path w = (Raise e1, w1) /\
        caught_by spawn_errors e1 = true /\
        version_fallback path w1 = (Return result, w') /\
        str_contains (lit "everything") (lower (stdout result)) = true)) /\
  (forall e w',
     _is_everything_es path w = (Raise e, w') ->
     caught_by spawn_errors e = false /\
     (version_query path w = (Raise e, w') \/
      exists e1 w1,
        version_query path w = (Raise e1, w1) /\
        caught_by spawn_errors e1 = true /\
        version_fallback path w1 = (Raise e, w'))).
Proof.
  rewrite is_everything_es_unfold. split; [| split; [| split]].
  - intros r1 w1 H1 Hh1 Hh2. rewrite H1.
    destruct r1 as [r | e]; [eauto |].
    simpl in Hh1. rewrite Hh1.
    destruct (version_fallback path w1) as [[r2 | e2] w2]; [eauto |].
    simpl in Hh2. rewrite Hh2. eauto.
  - intros e1 w1 e2 w2 H1 Hc1 H2 Hc2. now rewrite H1, Hc1, H2, Hc2.
  - intros w' H.
    destruct (version_query path w) as [[r | e] w1].
    + left. exists r. injection H as Hb Hw. subst w1.
      apply andb_true_iff in Hb as [Hne Hdig].
      apply truthy_true in Hne.
      apply existsb_exists in Hdig as (c & Hin & Hc).
      pose proof (strip_In _ _ Hin) as Hin'.
      split; [reflexivity |]. split; [| split; [exact Hne | eauto]].
      intros Hnil. rewrite Hnil in Hin'. destruct Hin'.
    + right. destruct (caught_by spawn_errors e) eqn:Hc; [| discriminate].
      destruct (version_fallback path w1) as [[r2 | e2] w2] eqn:Hf.
      * injection H as Hb Hw. subst w2. exists e, w1, r2.
        split; [reflexivity |]. split; [exact Hc |].
        split; [exact Hf | exact Hb].
      * destruct (caught_by spawn_errors e2); discriminate.
  - intros e w' H.
    destruct (version_query path w) as [[r | e1] w1]; [discriminate |].
    destruct (caught_by spawn_errors e1) eqn:Hc1.
    + destruct (version_fallback path w1) as [[r2 | e2] w2] eqn:Hf;
        [discriminate |].
      destruct (caught_by spawn_errors e2) eqn:Hc2; [discriminate |].
      injection H as -> ->. split; [exact Hc2 |].
      right. exists e1, w1. auto.
    + injection H as -> ->. split; [exact Hc1 |]. left. reflexivity.
Qed.

(** C6: the verifier does raise to its caller.  Its handlers catch a
    timeout, a missing file and any other [OSError]; an exception of
    another kind that a probe raises leaves the verifier with the world
    the probe left, be it the version query or, after a failure of the
    version query that was handled, the [-version] fallback.
    [subprocess.run(..., text=True)] raises such an exception when the
    output of the program is not text in the locale's encoding
    ([UnicodeDecodeError]) and when the path has a NUL character in it
    ([ValueError]). *)
Theorem is_everything_es_raises (path : str) (w : World) (e : exn) (w' : World) :
  caught_by spawn_errors e = false ->
  (version_query path w = (Raise e, w') ->
   _is_everything_es path w = (Raise e, w')) /\
  (forall e1 w1,
     version_query path w = (Raise e1, w1) ->
     caught_by spawn_errors e1 = true ->
     version_fallback path w1 = (Raise e, w') ->
     _is_everything_es path w = (Raise e, w')).
Proof.
  intros He. rewrite is_everything_es_unfold. split.
  - intros H. now rewrite H, He.
  - intros e1 w1 H1 Hc1 H2. now rewrite H1, Hc1, H2, He.
Qed.
End VerifierProperties.

Example is_everything_es_cases_example :
  let U := ascii_unicode in
  let P := demo_platform WindowsFlavour true in
  @_is_everything_es U P unit (machine_OS bare_machine) (lit "C:\not-es.exe") tt
    = (Return false, tt) /\
  (exists b w',
     @_is_everything_es U P unit
        (machine_OS (installed (lit "C:\es.exe") prints_version))
        (lit "C:\es.exe") tt = (Return b, w')) /\
  (exists c, In c (lit "1.4.1.1024") /\ @isdigit U c = true).
Proof.
  intros U P. split; [| split].
  - refine (proj1 (proj2 (@is_everything_es_cases U P unit (machine_OS bare_machine)
                            (lit "C:\not-es.exe") tt))
              not_found tt not_found tt _ _ _ _); reflexivity.
  - refine (proj1 (@is_everything_es_cases U P unit
                     (machine_OS (installed (lit "C:\es.exe") prints_version))
                     (lit "C:\es.exe") tt)
              (Return (mkCompleted 0 (lit "1.4.1.1024") [])) tt _ _ _);
      [reflexivity | exact I | exact I].
  - destruct (proj1 (proj2 (proj2 (@is_everything_es_cases U P unit
                     (machine_OS (installed (lit "C:\es.exe") prints_version))
                     (lit "C:\es.exe") tt))) tt eq_refl)
      as [(result & Hq & _ & _ & Hdigit) | (e1 & w1 & result & Hq & _)];
      [| discriminate Hq].
    inversion Hq; subst result. exact Hdigit.
Qed.

Lemma is_everything_es_raises_witness :
  let U := ascii_unicode in
  let P := demo_platform WindowsFlavour true in
  caught_by spawn_errors undecodable_error = false /\
  @_is_everything_es U P unit (machine_OS (installed (lit "C:\es.exe") undecodable))
     (lit "C:\es.exe") tt = (Raise undecodable_error, tt) /\
  @_is_everything_es U P unit (machine_OS (installed (lit "C:\es.exe") undecodable_banner))
     (lit "C:\es.exe") tt = (Raise undecodable_error, tt) /\
  @auto_detect U P unit (machine_OS (installed (lit "C:\es.exe") undecodable)) tt
    = (Raise undecodable_error, tt).
Proof.
  intros U P. split; [reflexivity |]. split; [| split].
  - apply (proj1 (@is_everything_es_raises U P unit
                    (machine_OS (installed (lit "C:\es.exe") undecodable))
                    (lit "C:\es.exe") tt undecodable_error tt eq_refl)).
    reflexivity.
  - apply (proj2 (@is_everything_es_raises U P unit
                    (machine_OS (installed (lit "C:\es.exe") undecodable_banner))
                    (lit "C:\es.exe") tt undecodable_error tt eq_refl)
             (Exn TimeoutExpired (lit "Command timed out after 5 seconds")) tt);
      reflexivity.
  - vm_compute. reflexivity.
Defined.

(** ** The query executor *)

Unset Implicit Arguments.

Section BackendProperties.
Context {U : Unicode} {P : Platform} {World : Type} {O : OS World}.
Variable config : EverythingConfig.

Lemma count_unfold (query : str) (w : World) :
  count config query w =
    match _run config (count_cmd config query) w with
    | (Return (out, err, rc), w1) =>
        if negb (rc =? 0)
        then (Raise (Exn RuntimeError
                       (lit "Count failed: " ++ str_or (strip err) (strip out))), w1)
        else int_or_minus_one (strip out) w1
    | (Raise e, w1) => (Raise e, w1)
    end.
Proof.
  unfold count, count_cmd, bind, raise.
  destruct (_run _ _ w) as [[[[out err] rc] | e] w1]; [| reflexivity].
  destruct (negb (rc =? 0)); reflexivity.
Qed.

Lemma get_total_size_unfold (query : str) (w : World) :
  get_total_size config query w =
    match _run config (total_size_cmd config query) w with
    | (Return (out, err, rc), w1) =>
        if negb (rc =? 0)
        then (Raise (Exn RuntimeError
                       (lit "Total size failed: " ++ str_or (strip err) (strip out))), w1)
        else int_or_minus_one (strip out) w1
    | (Raise e, w1) => (Raise e, w1)
    end.
Proof.
  unfold get_total_size, total_size_cmd, bind, raise.
  destruct (_run _ _ w) as [[[[out err] rc] | e] w1]; [| reflexivity].
  destruct (negb (rc =? 0)); reflexivity.
Qed.

Lemma int_or_minus_one_spec (s : str) (w : World) :
  int_or_minus_one s w =
    (Return (match py_int int_max_str_digits s with
             | Some n => n
             | None => -1
             end), w).
Proof.
  unfold int_or_minus_one, try_except, try_, lift, int_, ret.
  destruct (py_int int_max_str_digits s); reflexivity.
Qed.

(** C4: when the process exits with code 0 and its output, stripped, is
    not an integer literal, [count] and [get_total_size] return -1; they
    do not raise. *)
Theorem unparseable_output_is_minus_one (query out err : str) (w w1 : World) :
  py_int int_max_str_digits (strip out) = None ->
  (_run config (count_cmd config query) w = (Return (out, err, 0), w1) ->
   count config query w = (Return (-1), w1)) /\
  (_run config (total_size_cmd config query) w = (Return (out, err, 0), w1) ->
   get_total_size config query w = (Return (-1), w1)).
Proof.
  intros Hint. split; intros Hrun.
  - rewrite count_unfold, Hrun. simpl.
    now rewrite int_or_minus_one_spec, Hint.
  - rewrite get_total_size_unfold, Hrun. simpl.
    now rewrite int_or_minus_one_spec, Hint.
Qed.

(** An integer literal is returned as it is. *)
Lemma parseable_output_is_returned (query out err : str) (n : Z) (w w1 : World) :
  py_int int_max_str_digits (strip out) = Some n ->
  _run config (count_cmd config query) w = (Return (out, err, 0), w1) ->
  count config query w = (Return n, w1).
Proof.
  intros Hint Hrun. rewrite count_unfold, Hrun. simpl.
  now rewrite int_or_minus_one_spec, Hint.
Qed.

Lemma search_nonzero_exit (query : str) (max_results : Z) (sort : str)
      (mc mw mr mp : bool) (offset : Z) (w : World) :
  exists cmd,
    last cmd [] = query /\
    forall out err rc w1,
      _run config cmd w = (Return (out, err, rc), w1) ->
      rc <> 0 ->
      search config query max_results sort mc mw mr mp offset w
        = (Raise (search_failure out err rc), w1).
Proof.
  unfold search. eexists. split.
  2: { intros out err rc w1 Hrun Hrc. unfold bind. rewrite Hrun.
       destruct (Z.eqb_spec rc 0); [contradiction | reflexivity]. }
  apply last_last.
Qed.

Lemma count_nonzero_exit (query out err : str) (rc : Z) (w w1 : World) :
  _run config (count_cmd config query) w = (Return (out, err, rc), w1) ->
  rc <> 0 ->
  count config query w =
    (Raise (Exn RuntimeError
              (lit "Count failed: " ++ str_or (strip err) (strip out))), w1).
Proof.
  intros Hrun Hrc. rewrite count_unfold, Hrun.
  destruct (Z.eqb_spec rc 0); [contradiction | reflexivity].
Qed.

Lemma get_total_size_nonzero_exit (query out err : str) (rc : Z) (w w1 : World) :
  _run config (total_size_cmd config query) w = (Return (out, err, rc), w1) ->
  rc <> 0 ->
  get_total_size config query w =
    (Raise (Exn RuntimeError
              (lit "Total size failed: " ++ str_or (strip err) (strip out))), w1).
Proof.
  intros Hrun Hrc. rewrite get_total_size_unfold, Hrun.
  destruct (Z.eqb_spec rc 0); [contradiction | reflexivity].
Qed.

(** C1, where the code departs from it: when the process exits with a
    non-zero code and both streams are blank, [count] and
    [get_total_size] raise an error whose message is the bare prefix; the
    exit code is not in it.  ([search] has the third alternative, see
    [search_nonzero_exit].) *)
Theorem count_failure_without_output (query out err : str) (rc : Z) (w w1 : World) :
  rc <> 0 ->
  strip err = [] ->
  strip out = [] ->
  (_run config (count_cmd config query) w = (Return (out, err, rc), w1) ->
   count config query w = (Raise (Exn RuntimeError (lit "Count failed: ")), w1)) /\
  (_run config (total_size_cmd config query) w = (Return (out, err, rc), w1) ->
   get_total_size config query w
     = (Raise (Exn RuntimeError (lit "Total size failed: ")), w1)).
Proof.
  intros Hrc Herr Hout. split; intros Hrun.
  - rewrite (count_nonzero_exit query out err rc w w1 Hrun Hrc), Herr, Hout. reflexivity.
  - rewrite (get_total_size_nonzero_exit query out err rc w w1 Hrun Hrc), Herr, Hout. reflexivity.
Qed.
End BackendProperties.

Lemma unparseable_output_is_minus_one_witness :
  let U := ascii_unicode in
  let P := demo_platform WindowsFlavour true in
  let O := machine_OS (exits_with [110; 47; 97]%N [] 0) in
  @count U P unit O demo_config (lit "ext:py") tt = (Return (-1), tt) /\
  @get_total_size U P unit O demo_config (lit "ext:py") tt = (Return (-1), tt).
Proof.
  intros U P O.
  pose proof (@unparseable_output_is_minus_one U P unit O demo_config
                (lit "ext:py") (lit "n/a") [] tt tt eq_refl) as [Hc Hs].
  split; [apply Hc | apply Hs]; vm_compute; reflexivity.
Defined.

Lemma count_failure_without_output_witness :
  let U := ascii_unicode in
  let P := demo_platform WindowsFlavour true in
  let O := machine_OS (exits_with [] [] 1) in
  @count U P unit O demo_config (lit "ext:py") tt
    = (Raise (Exn RuntimeError (lit "Count failed: ")), tt) /\
  @get_total_size U P unit O demo_config (lit "ext:py") tt
    = (Raise (Exn RuntimeError (lit "Total size failed: ")), tt).
Proof.
  intros U P O.
  assert (Hrc : 1 <> 0) by discriminate.
  pose proof (@count_failure_without_output U P unit O demo_config
                (lit "ext:py") [] [] 1 tt tt Hrc eq_refl eq_refl) as [Hc Hs].
  split; [apply Hc | apply Hs]; vm_compute; reflexivity.
Defined.

(** The same failure through [search] names the exit code; and a count of
    42 is read back. *)
Example search_failure_names_exit_code :
  let U := ascii_unicode in
  let P := demo_platform WindowsFlavour true in
  @search U P unit (machine_OS (exits_with [] [] 1)) demo_config
     (lit "*.py") 100 (lit "name") false false false false 0 tt
    = (Raise (Exn RuntimeError
                (lit "Everything search failed: es.exe exited with code 1")), tt) /\
  @count U P unit (machine_OS (exits_with [52; 50; 10]%N [] 0)) demo_config
     (lit "ext:py") tt = (Return 42, tt).
Proof. split; vm_compute; reflexivity. Qed.

(** ** Result materialization *)

(** Every exception of the model derives from [Exception]. *)
Lemma except_Exception_catches_all (e : exn) : caught_by [Exception] e = true.
Proof. destruct e as [[] msg]; reflexivity. Qed.

Section MaterializeProperties.
Context {U : Unicode} {P : Platform} {World : Type} {O : OS World}.

Lemma stat_block_unfold (p : PurePath) (d : bool) (w : World) :
  stat_block p d w =
    match Path_stat (path_str os_flavour p) w with
    | (Raise e, w1) =>
        if caught_by [OSError] e then (Return (-1, [], []), w1) else (Raise e, w1)
    | (Return st, w1) =>
        let size := if negb d then st_size st else -1 in
        match strftime_local (st_mtime st) w1 with
        | (Raise e, w2) =>
            if caught_by [OSError] e then (Return (size, [], []), w2)
            else (Raise e, w2)
        | (Return dm, w2) =>
            match strftime_local (st_ctime st) w2 with
            | (Raise e, w3) =>
                if caught_by [OSError] e then (Return (size, dm, []), w3)
                else (Raise e, w3)
            | (Return dc, w3) => (Return (size, dm, dc), w3)
            end
        end
    end.
Proof.
  unfold stat_block, try_except, try_, bind, ret.
  destruct (Path_stat _ w) as [[st | e] w1]; simpl.
  2: { destruct (caught_by [OSError] e); reflexivity. }
  destruct (strftime_local (st_mtime st) w1) as [[dm | e] w2]; simpl.
  2: { destruct (caught_by [OSError] e) eqn:Hc; simpl; [reflexivity |].
       repeat (rewrite Hc; simpl). reflexivity. }
  destruct (strftime_local (st_ctime st) w2) as [[dc | e] w3]; simpl;
    [reflexivity |].
  destruct (caught_by [OSError] e) eqn:Hc; simpl; [reflexivity |].
  repeat (rewrite Hc; simpl). reflexivity.
Qed.

Lemma stat_to_result_unfold (filepath : str) (w : World) :
  _stat_to_result filepath w =
    match Path_is_dir (path_str os_flavour (Path os_flavour filepath)) w with
    | (Raise e, w1) => (Return (Some (bare_entry filepath)), w1)
    | (Return d, w1) =>
        match stat_block (Path os_flavour filepath) d w1 with
        | (Raise e, w2) => (Return (Some (bare_entry filepath)), w2)
        | (Return (size, dm, dc), w2) =>
            (Return (Some (full_entry filepath d size dm dc)), w2)
        end
    end.
Proof.
  unfold _stat_to_result, try_except, try_, bind, ret.
  destruct (Path_is_dir _ w) as [[d | e] w1]; simpl.
  2: { now rewrite except_Exception_catches_all. }
  destruct (stat_block _ d w1) as [[[[sz dm] dc] | e] w2]; simpl.
  - reflexivity.
  - now rewrite except_Exception_catches_all.
Qed.

(** What every entry has, whichever branch built it. *)
Lemma stat_to_result_shape (filepath : str) (w : World) :
  exists r w',
    _stat_to_result filepath w = (Return (Some r), w') /\
    name r = str_or (path_name (Path os_flavour filepath)) filepath /\
    (path r = path_str os_flavour (Path os_flavour filepath) \/ r = bare_entry filepath).
Proof.
  rewrite stat_to_result_unfold.
  destruct (Path_is_dir _ w) as [[d | e] w1].
  2: { exists (bare_entry filepath), w1. auto. }
  destruct (stat_block _ d w1) as [[[[sz dm] dc] | e] w2].
  - exists (full_entry filepath d sz dm dc), w2. auto.
  - exists (bare_entry filepath), w2. auto.
Qed.

Lemma parse_lines_cons (raw_line : str) (rest : list str)
      (results : list SearchResult) (w : World) :
  parse_lines (raw_line :: rest) results w =
    if accepted raw_line then
      match _stat_to_result (trimmed raw_line) w with
      | (Return (Some r), w1) => parse_lines rest (results ++ [r]) w1
      | (Return None, w1) => parse_lines rest results w1
      | (Raise e, w1) => (Raise e, w1)
      end
    else parse_lines rest results w.
Proof.
  unfold accepted, trimmed. simpl. unfold bind.
  destruct (truthy (strip _)); simpl; [| reflexivity].
  destruct (_looks_like_path _); simpl; [| reflexivity].
  destruct (_stat_to_result _ w) as [[[r |] | e] w1]; reflexivity.
Qed.

(** The loop never raises, and its batch is the entries of the accepted
    lines, one for each, in their order, after what was there before. *)
Lemma parse_lines_total (lines : list str) (results : list SearchResult) (w : World) :
  exists rs w',
    parse_lines lines results w = (Return (results ++ rs), w') /\
    Forall2 entry_of (filter accepted lines) rs.
Proof.
  revert results w. induction lines as [| raw_line rest IH]; intros results w.
  - exists [], w. simpl. rewrite app_nil_r. split; [reflexivity | constructor].
  - rewrite parse_lines_cons. simpl filter.
    destruct (accepted raw_line).
    + destruct (stat_to_result_shape (trimmed raw_line) w) as (r & w1 & Hr & _).
      rewrite Hr.
      destruct (IH (results ++ [r]) w1) as (rs & w' & Hrs & Hall).
      exists (r :: rs), w'. split.
      * rewrite Hrs. now rewrite <- app_assoc.
      * constructor; [exists w, w1; exact Hr | exact Hall].
    + apply IH.
Qed.

(** A line that is not accepted leaves no trace in the batch. *)
Lemma parse_lines_skip (pre post : list str) (raw_line : str)
      (results : list SearchResult) (w : World) :
  accepted raw_line = false ->
  parse_lines (pre ++ raw_line :: post) results w
    = parse_lines (pre ++ post) results w.
Proof.
  intros Hrej. revert results w.
  induction pre as [| l pre IH]; intros results w; simpl app.
  - rewrite parse_lines_cons, Hrej. reflexivity.
  - rewrite !parse_lines_cons.
    destruct (accepted l); [| apply IH].
    destruct (_stat_to_result (trimmed l) w) as [[[r |] | e] w1];
      [apply IH | apply IH | reflexivity].
Qed.

Lemma looks_like_path_shapes (s : str) :
  _looks_like_path s = true ->
  drive_letter_shape s \/ unc_shape s \/ leading_slash_shape s.
Proof.
  unfold _looks_like_path. intros H.
  destruct ((3 <=? len s) && _) eqn:Hd.
  - left. apply andb_true_iff in Hd as [_ Hd].
    destruct s as [| c0 [| c1 [| c2 rest]]]; try discriminate.
    apply andb_true_iff in Hd as [Hd H2].
    apply andb_true_iff in Hd as [H0 H1].
    apply N.eqb_eq in H1. subst c1.
    exists c0, c2, rest. split; [reflexivity |]. split; [exact H0 |].
    apply orb_true_iff in H2 as [H2 | H2]; apply N.eqb_eq in H2; auto.
  - right. destruct (startswith [backslash; backslash] s) eqn:Hu.
    + left. destruct s as [| a [| b rest]]; cbn [startswith] in Hu.
      * discriminate.
      * now rewrite andb_false_r in Hu.
      * apply andb_true_iff in Hu as [Ha Hb].
        rewrite andb_true_r in Hb.
        apply N.eqb_eq in Ha, Hb. subst. exists rest. reflexivity.
    + right. destruct s as [| a rest]; cbn [startswith] in H.
      * discriminate.
      * rewrite andb_true_r in H. apply N.eqb_eq in H. subst.
        exists rest. reflexivity.
Qed.

(** C5: a line that is not blank after trimming and has none of the
    three path shapes is left out of the batch: the batch is what it
    would be without the line, whatever the line says and whatever the
    lines around it are. *)
Theorem non_path_line_is_excluded (pre post : list str) (raw_line : str)
        (results : list SearchResult) (w : World) :
  strip (trimmed raw_line) <> [] ->
  ~ drive_letter_shape (trimmed raw_line) ->
  ~ unc_shape (trimmed raw_line) ->
  ~ leading_slash_shape (trimmed raw_line) ->
  parse_lines (pre ++ raw_line :: post) results w
    = parse_lines (pre ++ post) results w /\
  (forall stdout,
     splitlines stdout = pre ++ raw_line :: post ->
     _parse_paths_and_stat stdout w = parse_lines (pre ++ post) [] w).
Proof.
  intros _ Hd Hu Hs.
  assert (Hrej : accepted raw_line = false).
  { unfold accepted. destruct (_looks_like_path (trimmed raw_line)) eqn:Hl.
    - destruct (looks_like_path_shapes _ Hl) as [H | [H | H]]; contradiction.
    - apply andb_false_r. }
  split.
  - now apply parse_lines_skip.
  - intros stdout Hlines. unfold _parse_paths_and_stat. rewrite Hlines.
    now apply parse_lines_skip.
Qed.
End MaterializeProperties.

Section EntryConstruction.
Context {U : Unicode} {P : Platform} {World : Type} {O : OS World}.

End EntryConstruction.


Lemma non_path_line_is_excluded_witness :
  let U := ascii_unicode in
  let P := demo_platform WindowsFlavour true in
  @_parse_paths_and_stat U P unit (machine_OS (with_file (lit "C:\a.txt")))
     (lit "C:\a.txt" ++ [10]%N ++ lit "C: is not a path" ++ [13; 10]%N) tt
    = (Return [mkSearchResult (lit "C:\a.txt") (lit "a.txt") false 2048
                 (lit "2026-01-15 10:00:00") (lit "2026-01-15 10:00:00")
                 (lit "txt")], tt).
Proof.
  intros U P.
  assert (Hblank : strip (trimmed (lit "C: is not a path")) <> [])
    by (vm_compute; discriminate).
  assert (Hd : ~ @drive_letter_shape U (trimmed (lit "C: is not a path"))).
  { intros (c & s & rest & Heq & _ & [Hs | Hs]); subst s;
      vm_compute in Heq; discriminate Heq. }
  assert (Hu : ~ unc_shape (trimmed (lit "C: is not a path"))).
  { intros (rest & Heq). vm_compute in Heq. discriminate Heq. }
  assert (Hs : ~ leading_slash_shape (trimmed (lit "C: is not a path"))).
  { intros (rest & Heq). vm_compute in Heq. discriminate Heq. }
  rewrite (proj2 (@non_path_line_is_excluded U P unit
                    (machine_OS (with_file (lit "C:\a.txt")))
                    [lit "C:\a.txt"] [] (lit "C: is not a path") [] tt
                    Hblank Hd Hu Hs)
             (lit "C:\a.txt" ++ [10]%N ++ lit "C: is not a path" ++ [13; 10]%N)
             eq_refl).
  vm_compute. reflexivity.
Defined.

(** ** pathlib and trailing whitespace *)

Lemma last_In (l : str) (d : char) : l <> [] -> In (last l d) l.
Proof.
  induction l as [| a [| b l] IH]; intros H; [congruence | left; reflexivity |].
  right. apply IH. discriminate.
Qed.





Lemma split_from_no_sep (sp : char) (s cur : str) :
  ~ In sp s -> split_from sp cur s = [rev cur ++ s].
Proof.
  revert cur. induction s as [| c s IH]; intros cur H; simpl.
  - now rewrite app_nil_r.
  - destruct (N.eqb_spec c sp) as [-> | Hne]; [exfalso; apply H; left; reflexivity |].
    rewrite IH by (intros Hin; apply H; right; exact Hin).
    simpl. now rewrite <- app_assoc.
Qed.


Lemma join_ends_with_last (sp : str) (parts_ : list str) (x : str) :
  ends_with (join sp (parts_ ++ [x])) x.
Proof.
  induction parts_ as [| a parts_ IH]; [apply ends_with_refl |].
  simpl app. destruct (parts_ ++ [x]) as [| b l] eqn:E.
  - apply app_eq_nil in E as [_ E]. discriminate.
  - change (join sp (a :: b :: l)) with (a ++ sp ++ join sp (b :: l)).
    apply ends_with_app, ends_with_app, IH.
Qed.


Section TrailingWhitespace.
(** [ws] is a run of whitespace that ends the line. *)
Variable ws : str.
Hypothesis ws_nonempty : ws <> [].
Hypothesis ws_space : Forall (fun c => isspace c = true) ws.

















End TrailingWhitespace.

(** ** Trimming *)

Lemma rstrip_by_all (f : char -> bool) (s : str) :
  Forall (fun c => f c = true) s -> rstrip_by f s = [].
Proof.
  induction 1 as [| c s Hc _ IH]; [reflexivity |].
  simpl. now rewrite IH, Hc.
Qed.

Lemma rstrip_by_fixed (f : char -> bool) (s : str) :
  s <> [] -> f (last s 0%N) = false -> rstrip_by f s = s.
Proof.
  induction s as [| c [| b s] IH]; intros Hne Hlast; [congruence | |].
  - simpl in *. now rewrite Hlast.
  - change (rstrip_by f (c :: b :: s))
      with (match rstrip_by f (b :: s) with
            | [] => if f c then [] else [c]
            | t => c :: t
            end).
    rewrite IH; [reflexivity | discriminate | exact Hlast].
Qed.

Lemma rstrip_by_app (f : char -> bool) (s t : str) :
  rstrip_by f (s ++ t) =
    match rstrip_by f t with
    | [] => rstrip_by f s
    | t' => s ++ t'
    end.
Proof.
  induction s as [| c s IH].
  - simpl. destruct (rstrip_by f t); reflexivity.
  - simpl. rewrite IH. destruct (rstrip_by f t) as [| y t']; [reflexivity |].
    destruct s; reflexivity.
Qed.

(** Trimming takes the line terminator and nothing before it. *)
Lemma trimmed_keeps (body eol : str) :
  body <> [] ->
  char_in [13; 10]%N (last body 0%N) = false ->
  Forall (fun c => char_in [13; 10]%N c = true) eol ->
  trimmed (body ++ eol) = body.
Proof.
  intros Hne Hlast Heol. unfold trimmed, rstrip_chars.
  rewrite rstrip_by_app, (rstrip_by_all _ _ Heol).
  now apply rstrip_by_fixed.
Qed.




(** ** The line in the output *)







Section TrailingWhitespaceIsKept.
Context {U : Unicode} {P : Platform} {World : Type} {O : OS World}.


End TrailingWhitespaceIsKept.



(** A bare UNC share on Windows: pathlib gives it a root, which follows
    the whitespace in the path; the name is the line itself.  On POSIX the
    same line is a single component. *)
Example unc_share_with_trailing_space :
  let U := ascii_unicode in
  @_stat_to_result U (demo_platform WindowsFlavour true) unit
     (machine_OS bare_machine) (lit "\\server\share ") tt
    = (Return (Some (mkSearchResult (lit "\\server\share \") (lit "\\server\share ")
                       false (-1) [] [] [])), tt) /\
  @_stat_to_result U (demo_platform PosixFlavour true) unit
     (machine_OS bare_machine) (lit "\\server\share ") tt
    = (Return (Some (mkSearchResult (lit "\\server\share ") (lit "\\server\share ")
                       false (-1) [] [] [])), tt).
Proof. split; vm_compute; reflexivity. Qed.

(** ** The repository's tests, on the model

    The expectations of [tests/test_backend.py] and [tests/test_config.py]
    that concern the functions above, evaluated on the embedding.  Where a
    test patches [subprocess.run] or [_run], the machine gives the same
    answer. *)

Example test_human_size :
  human_size 100 = Return (lit "100 B") /\
  human_size (5 * 1024 * 1024) = Return (lit "5.0 MB") /\
  human_size (1024 ^ 3) = Return (lit "1.0 GB") /\
  human_size (1024 ^ 5) = Return (lit "1.0 PB") /\
  human_size (-1) = Return (lit "unknown").
Proof. do 4 (split; [vm_compute; reflexivity |]). vm_compute. reflexivity. Qed.

Example test_looks_like_path :
  let looks := @_looks_like_path ascii_unicode in
  map looks [ lit "C:\Windows\system32"; lit "D:\"; lit "Z:\some\path";
              lit "C:/Users/test"; lit "\\server\share\file.txt";
              lit "/home/user/file.txt" ]
    = [true; true; true; true; true; true] /\
  map looks [lit "hello world"; lit "12345"; []] = [false; false; false].
Proof. split; vm_compute; reflexivity. Qed.

Example test_decode_output :
  let decode := @_decode_output (demo_platform PosixFlavour true) in
  decode (lit "hello" ++ [10]%N) = Return (lit "hello" ++ [10]%N) /\
  decode (BOM ++ lit "hello") = Return (lit "hello") /\
  decode (lit "caf" ++ [233]%N) = Return (lit "caf" ++ [233]%N) /\
  decode [] = Return [].
Proof. vm_compute. repeat split; reflexivity. Qed.

Example test_parse_paths_and_stat :
  let parse := @_parse_paths_and_stat ascii_unicode
                 (demo_platform WindowsFlavour true) unit
                 (machine_OS (with_file (lit "C:\a.txt"))) in
  parse [] tt = (Return [], tt) /\
  parse [10; 10; 10]%N tt = (Return [], tt) /\
  parse (lit "not a path" ++ [10]%N ++ lit "12345" ++ [10]%N
         ++ lit "hello world" ++ [10]%N) tt = (Return [], tt) /\
  (exists r, parse ([10; 10]%N ++ lit "C:\a.txt" ++ [10; 10]%N) tt = (Return [r], tt)) /\
  (exists r1 r2,
     parse (lit "C:\a.txt" ++ [10]%N ++ lit "D:\b.py" ++ [10]%N) tt
       = (Return [r1; r2], tt) /\
     size r1 = 2048 /\ extension r1 = lit "txt" /\
     size r2 = -1 /\ extension r2 = lit "py").
Proof.
  do 3 (split; [vm_compute; reflexivity |]).
  split; [eexists; vm_compute; reflexivity |].
  do 2 eexists. split; [vm_compute; reflexivity |].
  repeat split; reflexivity.
Qed.

Example test_to_dict :
  (exists d,
     to_dict (mkSearchResult (lit "C:\Projects") (lit "Projects") true (-1) [] [] [])
       = Return d /\
     dict_get d "type" = Some (VStr (lit "folder")) /\ dict_has d "size" = false) /\
  (exists d,
     to_dict (SearchResult_default (lit "C:\test.py") (lit "test.py")) = Return d /\
     dict_get d "type" = Some (VStr (lit "file")) /\ dict_has d "size" = false).
Proof. split; eexists; vm_compute; repeat split; reflexivity. Qed.

Example test_search_error_raises :
  @search ascii_unicode (demo_platform WindowsFlavour true) unit
     (machine_OS (exits_with [] (lit "IPC window not found") 1)) demo_config
     (lit "*.py") 100 (lit "name") false false false false 0 tt
    = (Raise (Exn RuntimeError
                (lit "Everything search failed: IPC window not found")), tt).
Proof. vm_compute. reflexivity. Qed.

Example test_get_total_size :
  @get_total_size ascii_unicode (demo_platform WindowsFlavour true) unit
     (machine_OS (exits_with (lit "1048576" ++ [10]%N) [] 0)) demo_config
     (lit "ext:log") tt = (Return 1048576, tt).
Proof. vm_compute. reflexivity. Qed.

Example test_config_validity :
  is_valid EverythingConfig_default = false /\
  is_valid demo_config = true /\
  is_valid (mkConfig (lit "C:\somewhere\es.exe") [] 30 1000 [lit "Cannot connect"] [] [])
    = false.
Proof. vm_compute. repeat split; reflexivity. Qed.

Example test_is_everything_es :
  let verify m :=
    @_is_everything_es ascii_unicode (demo_platform WindowsFlavour true) unit
       (machine_OS m) (lit "C:\es.exe") tt in
  verify (installed (lit "C:\es.exe") prints_version) = (Return true, tt) /\
  verify bare_machine = (Return false, tt) /\
  verify (installed (lit "C:\es.exe") timing_out) = (Return false, tt).
Proof. vm_compute. repeat split; reflexivity. Qed.

Example test_detect_instance :
  let detect m :=
    @_detect_instance (demo_platform WindowsFlavour true) unit
       (machine_OS m) (lit "C:\es.exe") tt in
  detect (installed (lit "C:\es.exe") prints_version) = (Return [], tt) /\
  detect (installed (lit "C:\es.exe") alpha_only) = (Return (lit "1.5a"), tt) /\
  detect (installed (lit "C:\es.exe") (fun _ => Return (mkCompleted 1 [] [])))
    = (Return [], tt).
Proof. vm_compute. repeat split; reflexivity. Qed.

Example test_test_connection :
  let probe m :=
    @_test_connection (demo_platform WindowsFlavour true) unit
       (machine_OS m) (lit "C:\es.exe") [] tt in
  probe (installed (lit "C:\es.exe") prints_version)
    = (Return (true, lit "Everything v1.4.1.1024"), tt) /\
  probe (installed (lit "C:\es.exe") timing_out)
    = (Return (false, lit "Connection timed out"), tt).
Proof. vm_compute. repeat split; reflexivity. Qed.

Example test_auto_detect :
  let detect m :=
    @auto_detect ascii_unicode (demo_platform WindowsFlavour true) unit
       (machine_OS m) tt in
  (exists c, detect (installed (lit "C:\es.exe") prints_version) = (Return c, tt) /\
             is_valid c = true /\ es_path c = lit "C:\es.exe" /\
             version_info c = lit "Everything v1.4.1.1024") /\
  (exists c, detect (installed (lit "C:\es.exe") alpha_with_banner) = (Return c, tt) /\
             is_valid c = true /\ instance c = lit "1.5a") /\
  (exists c, detect (installed (lit "C:\es.exe") alpha_only) = (Return c, tt) /\
             is_valid c = false) /\
  (exists c, detect bare_machine = (Return c, tt) /\ is_valid c = false).
Proof.
  split; [| split; [| split]]; eexists; (split; [vm_compute; reflexivity |]);
    repeat split; reflexivity.
Qed.

(* ================================================================== *)
(** * Further properties *)
(* ================================================================== *)

(** ** Lines and batches *)

(** Every character of every line comes from the text and is not a line
    boundary. *)
Lemma splitlines_from_Forall (Q : char -> Prop) (n : nat) :
  forall s cur l,
    (List.length s <= n)%nat ->
    Forall Q cur ->
    Forall (fun c => islinebreak c = false -> Q c) s ->
    In l (splitlines_from cur s) ->
    Forall Q l.
Proof.
  induction n as [| n IH]; intros s cur l Hlen Hcur Hs Hin.
  - destruct s; [| simpl in Hlen; lia].
    simpl in Hin. destruct cur; [contradiction |].
    destruct Hin as [<- | []]. now apply Forall_rev.
  - destruct s as [| c rest].
    + simpl in Hin. destruct cur; [contradiction |].
      destruct Hin as [<- | []]. now apply Forall_rev.
    + simpl in Hlen. inversion Hs as [| ? ? Hc Hrest]; subst.
      simpl in Hin. destruct (islinebreak c) eqn:Hbreak.
      * destruct Hin as [<- | Hin]; [now apply Forall_rev |].
        destruct (N.eqb c 13).
        -- destruct rest as [| c' rest'].
           ++ simpl in Hin. contradiction.
           ++ destruct (N.eqb c' 10).
              ** inversion Hrest; subst.
                 apply (IH rest' [] l); [simpl in Hlen; lia | constructor | assumption | exact Hin].
              ** apply (IH (c' :: rest') [] l); [lia | constructor | assumption | exact Hin].
        -- apply (IH rest [] l); [lia | constructor | assumption | exact Hin].
      * apply (IH rest (c :: cur) l); [lia | | assumption | exact Hin].
        constructor; [apply Hc; reflexivity | assumption].
Qed.

Lemma splitlines_no_break (s l : str) :
  In l (splitlines s) -> Forall (fun c => islinebreak c = false) l.
Proof.
  apply (splitlines_from_Forall (fun c => islinebreak c = false) (List.length s));
    [lia | constructor |].
  apply Forall_forall. auto.
Qed.

Lemma crlf_is_break (c : char) : char_in [13; 10]%N c = true -> islinebreak c = true.
Proof.
  unfold char_in. simpl. rewrite !orb_true_iff.
  intros [H | [H | H]]; [| | discriminate]; apply N.eqb_eq in H; subst; reflexivity.
Qed.

Unset Implicit Arguments.

Section BatchProperties.
Context {U : Unicode} {P : Platform} {World : Type} {O : OS World}.

(** X1: a line of [stdout.splitlines()] has no line boundary in it (LF, CR,
    VT, FF, FS, GS, RS, NEL, LS, PS), so the trim of CR and LF in the loop
    changes no line. *)
Theorem splitlines_leaves_nothing_to_trim (stdout raw_line : str) :
  In raw_line (splitlines stdout) ->
  Forall (fun c => islinebreak c = false) raw_line /\ trimmed raw_line = raw_line.
Proof.
  intros Hin. pose proof (splitlines_no_break _ _ Hin) as Hnb.
  split; [exact Hnb |].
  unfold trimmed, rstrip_chars.
  destruct raw_line as [| c l] eqn:E; [reflexivity |]. rewrite <- E in *.
  apply rstrip_by_fixed; [subst; discriminate |].
  assert (Hl : In (last raw_line 0%N) raw_line) by (apply last_In; subst; discriminate).
  rewrite Forall_forall in Hnb. apply Hnb in Hl.
  destruct (char_in [13; 10]%N (last raw_line 0%N)) eqn:Hc; [| reflexivity].
  apply crlf_is_break in Hc. congruence.
Qed.
End BatchProperties.

Lemma splitlines_leaves_nothing_to_trim_witness :
  trimmed (lit "C:\a.txt") = lit "C:\a.txt".
Proof.
  refine (proj2 (splitlines_leaves_nothing_to_trim
                   (lit "C:\a.txt" ++ [13; 10]%N ++ lit "D:\b" ++ [10]%N)
                   (lit "C:\a.txt") _)).
  vm_compute. left. reflexivity.
Defined.

(** A form feed ends a line like a line feed does: a name with one in it
    is read as two lines. *)
Example form_feed_splits_a_name :
  splitlines (lit "C:\a" ++ [12]%N ++ lit "b.txt" ++ [10]%N)
    = [lit "C:\a"; lit "b.txt"].
Proof. vm_compute. reflexivity. Qed.

Lemma lstrip_by_all (f : char -> bool) (s : str) :
  Forall (fun c => f c = true) s -> lstrip_by f s = [].
Proof.
  induction 1 as [| c s Hc _ IH]; [reflexivity |]. simpl. now rewrite Hc.
Qed.

Lemma strip_blank (s : str) : Forall (fun c => isspace c = true) s -> strip s = [].
Proof. intros H. unfold strip. now rewrite (lstrip_by_all _ _ H). Qed.

Lemma Forall2_right {A B : Type} (R : A -> B -> Prop) (Q : B -> Prop)
      (l : list A) (rs : list B) :
  Forall2 R l rs ->
  (forall x r, In x l -> R x r -> Q r) ->
  Forall Q rs.
Proof.
  induction 1 as [| x r l rs HR _ IH]; intros H; constructor.
  - apply (H x r); [left; reflexivity | exact HR].
  - apply IH. intros x' r' Hin. apply H. right. exact Hin.
Qed.

Section EntryProperties.
Context {U : Unicode} {P : Platform} {World : Type} {O : OS World}.

Lemma parse_lines_none_accepted (lines : list str) (results : list SearchResult)
      (w : World) :
  Forall (fun l => accepted l = false) lines ->
  parse_lines lines results w = (Return results, w).
Proof.
  induction 1 as [| l lines Hl _ IH]; [reflexivity |].
  now rewrite parse_lines_cons, Hl.
Qed.

(** X2: an output of whitespace only (blank lines, spaces, tabs) gives
    the empty batch, and no file is looked at: the world is as before. *)
Theorem blank_output_gives_empty_batch (stdout : str) (w : World) :
  Forall (fun c => isspace c = true) stdout ->
  _parse_paths_and_stat stdout w = (Return [], w).
Proof.
  intros Hblank. unfold _parse_paths_and_stat.
  apply parse_lines_none_accepted. apply Forall_forall. intros l Hin.
  assert (Hl : Forall (fun c => isspace c = true) l).
  { apply (splitlines_from_Forall (fun c => isspace c = true) (List.length stdout)
             stdout [] l); [lia | constructor | | exact Hin].
    apply Forall_forall. intros c Hc _. rewrite Forall_forall in Hblank. auto. }
  unfold accepted. rewrite strip_blank; [reflexivity |].
  apply Forall_forall. intros c Hc. unfold trimmed, rstrip_chars in Hc.
  apply rstrip_by_In in Hc. rewrite Forall_forall in Hl. auto.
Qed.

(** What [_stat_to_result] can return: the bare entry, or the full one,
    whose size is -1 for a directory. *)
Lemma stat_to_result_cases (filepath : str) (w w' : World) (r : SearchResult) :
  _stat_to_result filepath w = (Return (Some r), w') ->
  r = bare_entry filepath \/
  exists d sz dm dc,
    r = full_entry filepath d sz dm dc /\ (d = true -> sz = -1).
Proof.
  rewrite stat_to_result_unfold.
  destruct (Path_is_dir _ w) as [[d | e] w1].
  2: { intros H. injection H as <- _. left. reflexivity. }
  rewrite stat_block_unfold.
  destruct (Path_stat _ w1) as [[st | e] w2].
  2: { destruct (caught_by [OSError] e); intros H; injection H as <- _;
         [right; exists d, (-1), [], []; split; [reflexivity | auto] | left; reflexivity]. }
  cbv zeta.
  assert (Hsz : d = true -> (if negb d then st_size st else -1) = -1)
    by (intros ->; reflexivity).
  destruct (strftime_local (st_mtime st) w2) as [[dm | e] w3].
  2: { destruct (caught_by [OSError] e); intros H; injection H as <- _;
         [right; eexists d, _, [], []; split; [reflexivity | exact Hsz]
         | left; reflexivity]. }
  destruct (strftime_local (st_ctime st) w3) as [[dc | e] w4].
  2: { destruct (caught_by [OSError] e); intros H; injection H as <- _;
         [right; eexists d, _, dm, []; split; [reflexivity | exact Hsz]
         | left; reflexivity]. }
  intros H; injection H as <- _.
  right. eexists d, _, dm, dc. split; [reflexivity | exact Hsz].
Qed.

Lemma batch_entries (stdout : str) (w w' : World) (rs : list SearchResult)
      (Q : SearchResult -> Prop) :
  _parse_paths_and_stat stdout w = (Return rs, w') ->
  (forall raw_line r, accepted raw_line = true -> entry_of raw_line r -> Q r) ->
  Forall Q rs.
Proof.
  intros Hrun HQ. unfold _parse_paths_and_stat in Hrun.
  destruct (parse_lines_total (splitlines stdout) [] w) as (rs' & w1 & Hrs & Hall).
  rewrite Hrun in Hrs. injection Hrs as -> _.
  apply (Forall2_right _ _ _ _ Hall).
  intros x r Hin Hr. apply (HQ x r); [| exact Hr].
  apply filter_In in Hin. tauto.
Qed.

(** X3: every entry of a batch has a name and a path that are not empty. *)
Theorem entries_are_named (stdout : str) (w w' : World) (rs : list SearchResult) :
  _parse_paths_and_stat stdout w = (Return rs, w') ->
  Forall (fun r => name r <> [] /\ path r <> []) rs.
Proof.
  intros Hrun. apply (batch_entries stdout w w' rs _ Hrun).
  intros raw_line r Hacc (w0 & w1 & Hr).
  assert (Hfp : trimmed raw_line <> []).
  { unfold accepted in Hacc. apply andb_true_iff in Hacc as [Hne _].
    apply truthy_true in Hne. intros E. rewrite E in Hne. now apply Hne. }
  assert (Hor : forall a, str_or a (trimmed raw_line) <> []).
  { intros a. unfold str_or. destruct a; simpl; [exact Hfp | discriminate]. }
  destruct (stat_to_result_cases _ _ _ _ Hr) as [-> | (d & sz & dm & dc & -> & _)].
  - split; [apply Hor | exact Hfp].
  - split; [apply Hor |]. simpl. unfold path_str, str_or.
    destruct (truthy _) eqn:E; [now apply truthy_true | discriminate].
Qed.

(** X4: in every entry of a batch a directory has the size -1 and no
    extension. *)
Theorem directories_have_no_size (stdout : str) (w w' : World)
        (rs : list SearchResult) :
  _parse_paths_and_stat stdout w = (Return rs, w') ->
  Forall (fun r => is_dir r = true -> size r = -1 /\ extension r = []) rs.
Proof.
  intros Hrun. apply (batch_entries stdout w w' rs _ Hrun).
  intros raw_line r _ (w0 & w1 & Hr).
  destruct (stat_to_result_cases _ _ _ _ Hr) as [-> | (d & sz & dm & dc & -> & Hsz)].
  - discriminate.
  - simpl. intros ->. split; [now apply Hsz | reflexivity].
Qed.

Lemma shapes_look_like_path (s : str) :
  drive_letter_shape s \/ unc_shape s \/ leading_slash_shape s ->
  _looks_like_path s = true.
Proof.
  unfold _looks_like_path.
  intros [(c & sp & rest & -> & Hc & Hsp) | [(rest & ->) | (rest & ->)]].
  - assert (H3 : (3 <=? len (c :: colon :: sp :: rest)) = true).
    { apply Z.leb_le. unfold len. simpl List.length. lia. }
    rewrite H3, Hc. simpl.
    destruct Hsp as [-> | ->]; reflexivity.
  - destruct (_ && _); reflexivity.
  - destruct (_ && _); [reflexivity |].
    destruct (startswith [backslash; backslash] _); reflexivity.
Qed.

(** The path heuristic accepts exactly the three shapes. *)
Lemma looks_like_path_iff (s : str) :
  _looks_like_path s = true <->
  drive_letter_shape s \/ unc_shape s \/ leading_slash_shape s.
Proof. split; [apply looks_like_path_shapes | apply shapes_look_like_path]. Qed.
End EntryProperties.

Lemma blank_output_gives_empty_batch_witness :
  @_parse_paths_and_stat ascii_unicode (demo_platform WindowsFlavour true) unit
     (machine_OS bare_machine) ([10; 32; 9; 13; 10; 10]%N) tt = (Return [], tt).
Proof.
  apply (@blank_output_gives_empty_batch ascii_unicode
           (demo_platform WindowsFlavour true) unit (machine_OS bare_machine)).
  repeat constructor.
Defined.

Lemma entries_are_named_witness :
  Forall (fun r => name r <> [] /\ path r <> [])
    [mkSearchResult (lit "C:\") (lit "C:\") false (-1) [] [] []].
Proof.
  apply (@entries_are_named ascii_unicode (demo_platform WindowsFlavour true) unit
           (machine_OS bare_machine) (lit "C:\" ++ [10]%N) tt tt).
  vm_compute. reflexivity.
Defined.

Lemma directories_have_no_size_witness :
  Forall (fun r => is_dir r = true -> size r = -1 /\ extension r = [])
    [mkSearchResult (lit "C:\Projects.d") (lit "Projects.d") true (-1)
       (lit "2026-01-15 10:00:00") (lit "2026-01-15 10:00:00") []].
Proof.
  apply (@directories_have_no_size ascii_unicode (demo_platform WindowsFlavour true)
           unit (machine_OS folder_machine) (lit "C:\Projects.d" ++ [10]%N) tt tt).
  vm_compute. reflexivity.
Defined.

(** ** Running es.exe *)

Lemma decode_output_decoded {P : Platform} (data : bytes) :
  _decode_output data = Return (decoded data).
Proof.
  unfold decoded. destruct (bytes_startswith BOM data) eqn:Hb.
  - unfold _decode_output. rewrite Hb. reflexivity.
  - rewrite (decode_output_no_bom _ Hb).
    destruct (utf8_decode data); [reflexivity |].
    destruct (locale_decode data); reflexivity.
Qed.

Lemma FileNotFoundError_not_timeout (e : exn) :
  caught_by [FileNotFoundError] e = true -> caught_by [AsyncioTimeoutError] e = false.
Proof. destruct e as [[] msg]; unfold caught_by; simpl; congruence. Qed.

Section RunProperties.
Context {U : Unicode} {P : Platform} {World : Type} {O : OS World}.
Variable config : EverythingConfig.

Lemma run_unfold (cmd : list str) (w : World) :
  _run config cmd w =
    match create_subprocess_exec cmd CREATE_NO_WINDOW w with
    | (Raise e, w1) =>
        if caught_by [AsyncioTimeoutError] e then (Raise (timed_out config), w1)
        else if caught_by [FileNotFoundError] e then (Raise (missing config), w1)
        else (Raise e, w1)
    | (Return p, w1) =>
        match communicate p (timeout config) w1 with
        | (Raise e, w2) =>
            if caught_by [AsyncioTimeoutError] e
            then (Raise (timed_out config), snd (process_kill p w2))
            else if caught_by [FileNotFoundError] e then (Raise (missing config), w2)
            else (Raise e, w2)
        | (Return (o, e), w2) =>
            (Return (decoded o, decoded e,
                     match process_returncode p w2 with Some c => c | None => 0 end), w2)
        end
    end.
Proof.
  unfold _run, try_, bind. 
  destruct (create_subprocess_exec cmd CREATE_NO_WINDOW w) as [[p | e] w1].
  - destruct (communicate p (timeout config) w1) as [[[o e] | e] w2].
    + unfold lift, gets, ret. rewrite !decode_output_decoded. reflexivity.
    + cbn [run_clauses handler_for].
      destruct (caught_by [AsyncioTimeoutError] e) eqn:Ht.
      * unfold suppress, try_except, try_, bind, raise, ret.
        destruct (process_kill p w2) as [[[] | ek] w3]; cbn [handler_for fst snd].
        -- reflexivity.
        -- rewrite except_Exception_catches_all. reflexivity.
      * destruct (caught_by [FileNotFoundError] e) eqn:Hf.
        -- unfold raise. reflexivity.
        -- rewrite Ht, Hf. reflexivity.
  - cbn [run_clauses handler_for].
    destruct (caught_by [AsyncioTimeoutError] e) eqn:Ht.
    + unfold suppress, try_except, try_, bind, raise, ret. reflexivity.
    + destruct (caught_by [FileNotFoundError] e) eqn:Hf; reflexivity.
Qed.

(** X5: when the wait for the process times out, the process is killed
    and the error is a [RuntimeError] that names the timeout; a failure
    of the kill changes nothing of that. *)
Theorem timeout_kills_the_process (cmd : list str) (p : process) (e : exn)
        (w w1 w2 : World) :
  create_subprocess_exec cmd CREATE_NO_WINDOW w = (Return p, w1) ->
  communicate p (timeout config) w1 = (Raise e, w2) ->
  caught_by [AsyncioTimeoutError] e = true ->
  _run config cmd w =
    (Raise (Exn RuntimeError
              (lit "Search timed out after " ++ str_of_int (timeout config)
               ++ lit "s. Try a more specific query or increase timeout.")),
     snd (process_kill p w2)).
Proof.
  intros Hs Hc He. rewrite run_unfold, Hs, Hc, He. reflexivity.
Qed.

(** X6: no timeout and no [FileNotFoundError] leaves [_run]: whatever it
    raises is of another class.  A missing executable, in particular,
    comes out as a [RuntimeError] that names the configured path. *)
Theorem run_translates_errors (cmd : list str) (w : World) :
  (forall e w',
     _run config cmd w = (Raise e, w') ->
     caught_by [AsyncioTimeoutError; FileNotFoundError] e = false) /\
  (forall e w1,
     create_subprocess_exec cmd CREATE_NO_WINDOW w = (Raise e, w1) ->
     caught_by [FileNotFoundError] e = true ->
     _run config cmd w =
       (Raise (Exn RuntimeError
                 (lit "es.exe not found at: " ++ es_path config
                  ++ lit ". Verify Everything is installed.")), w1)).
Proof.
  rewrite run_unfold. split.
  - intros e w'.
    assert (Hor : forall x, caught_by [AsyncioTimeoutError] x = false ->
                            caught_by [FileNotFoundError] x = false ->
                            caught_by [AsyncioTimeoutError; FileNotFoundError] x = false).
    { intros x. unfold caught_by. simpl. rewrite !orb_false_r. intros -> ->. reflexivity. }
    destruct (create_subprocess_exec cmd CREATE_NO_WINDOW w) as [[p | e0] w1].
    + destruct (communicate p (timeout config) w1) as [[[o e1] | e0] w2];
        [discriminate |].
      destruct (caught_by [AsyncioTimeoutError] e0) eqn:Ht;
        [intros H; injection H as <- _; reflexivity |].
      destruct (caught_by [FileNotFoundError] e0) eqn:Hf;
        intros H; injection H as <- _; [reflexivity | now apply Hor].
    + destruct (caught_by [AsyncioTimeoutError] e0) eqn:Ht;
        [intros H; injection H as <- _; reflexivity |].
      destruct (caught_by [FileNotFoundError] e0) eqn:Hf;
        intros H; injection H as <- _; [reflexivity | now apply Hor].
  - intros e w1 Hs He. rewrite Hs, He.
    rewrite (FileNotFoundError_not_timeout e He). reflexivity.
Qed.

(** X7: the command line of [search]: the program is the configured
    es.exe, the query is the last argument, in one piece, and the number
    after [-n] is the smaller of the request and the configured cap.  The
    batch is read only when that command exits with code 0. *)
Theorem search_command_line (query : str) (max_results : Z) (sort : str)
        (mc mw mr mp : bool) (offset : Z) :
  exists cmd : list str,
    (forall w,
       search config query max_results sort mc mw mr mp offset w =
         match _run config cmd w with
         | (Return (out, err, rc), w1) =>
             if rc =? 0 then _parse_paths_and_stat out w1
             else (Raise (search_failure out err rc), w1)
         | (Raise e, w1) => (Raise e, w1)
         end) /\
    hd_error cmd = Some (es_path config) /\
    last cmd [] = query /\
    exists before after n,
      cmd = before ++ [lit "-n"; str_of_int n] ++ after /\
      n <= max_results /\ n <= max_results_cap config /\
      (n = max_results \/ n = max_results_cap config).
Proof.
  pose (after :=
          (if 0 <? offset then [lit "-o"; str_of_int offset] else [])
          ++ [lit "-sort"; sort_value sort]
          ++ (if mc then [lit "-case"] else [])
          ++ (if mw then [lit "-w"] else [])
          ++ (if mr then [lit "-r"] else [])
          ++ (if mp then [lit "-p"] else [])
          ++ [query]).
  pose (n := Z.min max_results (max_results_cap config)).
  exists (_base_cmd config ++ [lit "-n"; str_of_int n] ++ after).
  assert (Hcmd : forall w,
             search config query max_results sort mc mw mr mp offset w =
               bind (_run config (_base_cmd config ++ [lit "-n"; str_of_int n] ++ after))
                    (fun x => let '(stdout, stderr, rc) := x in
                              if negb (rc =? 0)
                              then raise (search_failure stdout stderr rc)
                              else _parse_paths_and_stat stdout) w).
  { intros w. unfold search, after, n.
    destruct (0 <? offset), mc, mw, mr, mp; cbn [app];
      rewrite <- ?app_assoc; reflexivity. }
  split; [| split; [| split]].
  - intros w. rewrite Hcmd. unfold bind, raise.
    destruct (_run config _ w) as [[[[out err] rc] | e] w1]; [| reflexivity].
    destruct (rc =? 0); reflexivity.
  - reflexivity.
  - unfold after. rewrite !app_assoc. apply last_last.
  - exists (_base_cmd config), after, n. unfold n. repeat split; lia.
Qed.
End RunProperties.

Lemma timeout_kills_the_process_witness :
  @_run (demo_platform WindowsFlavour true) unit (machine_OS hanging) demo_config
     [es_path demo_config; lit "*.py"] tt
    = (Raise (Exn RuntimeError
                (lit "Search timed out after 30s. Try a more specific query or increase timeout.")),
       tt).
Proof.
  apply (@timeout_kills_the_process (demo_platform WindowsFlavour true) unit
           (machine_OS hanging) demo_config [es_path demo_config; lit "*.py"]
           1%N (Exn AsyncioTimeoutError []) tt tt tt);
    reflexivity.
Defined.

Lemma run_translates_errors_witness :
  @_run (demo_platform WindowsFlavour true) unit (machine_OS bare_machine) demo_config
     [es_path demo_config; lit "*.py"] tt
    = (Raise (Exn RuntimeError
                (lit "es.exe not found at: C:\Program Files\Everything\es.exe. Verify Everything is installed.")),
       tt) /\
  caught_by [AsyncioTimeoutError; FileNotFoundError]
    (Exn RuntimeError (msg_es_missing (es_path demo_config))) = false.
Proof.
  pose proof (@run_translates_errors (demo_platform WindowsFlavour true) unit
                (machine_OS bare_machine) demo_config
                [es_path demo_config; lit "*.py"] tt) as [Hno Hmissing].
  split.
  - apply (Hmissing not_found tt); reflexivity.
  - apply (Hno _ tt). reflexivity.
Defined.

(** ** The health check and the search tool *)

Section ToolProperties.
Context {U : Unicode} {P : Platform} {World : Type} {O : OS World}.

(** X8: the health check never raises.  Its status is "ok" or "error";
    it is "ok" exactly when the configuration is valid and the version
    command exits with code 0 and prints something that is not blank;
    with an invalid configuration no process is started and the
    configuration's errors are reported. *)
Theorem health_check_reports (config : EverythingConfig) (w : World) :
  exists d w',
    health_check config w = (Return d, w') /\
    (status_get d "status" = Some (SStr (lit "ok")) \/
     status_get d "status" = Some (SStr (lit "error"))) /\
    (status_get d "status" = Some (SStr (lit "ok")) <->
     is_valid config = true /\
     exists out err,
       _run config (health_cmd config) w = (Return (out, err, 0), w') /\
       strip out <> []) /\
    (is_valid config = false ->
     w' = w /\ status_get d "errors" = Some (SList (errors config))).
Proof.
  unfold health_check, health_cmd.
  destruct (is_valid config) eqn:Hv; cbn [negb].
  2: { eexists _, w. split; [reflexivity |].
       split; [right; reflexivity |].
       split; [| intros _; split; reflexivity].
       split; [discriminate | intros [? _]; discriminate]. }
  unfold try_except, try_, bind.
  destruct (_run config _ w) as [[[[out err] rc] | e] w1] eqn:Hrun.
  - destruct (Z.eqb_spec rc 0) as [-> | Hrc]; cbn [andb].
    + destruct (strip out) as [| c t] eqn:Hs; cbn [truthy].
      * eexists _, w1. split; [reflexivity |].
        split; [right; reflexivity |].
        split; [| discriminate].
        split; [discriminate |].
        intros [_ (out' & err' & Heq & Hne)].
        injection Heq as <- _. exfalso. now apply Hne.
      * eexists _, w1. split; [reflexivity |].
        split; [left; reflexivity |].
        split; [| discriminate].
        split; [| reflexivity].
        intros _. split; [reflexivity |].
        exists out, err. split; [reflexivity |]. rewrite Hs. discriminate.
    + eexists _, w1. split; [reflexivity |].
      split; [right; reflexivity |].
      split; [| discriminate].
      split; [discriminate |].
      intros [_ (out' & err' & Heq & _)]. injection Heq as _ _ Heq. exfalso. congruence.
  - cbn [handler_for]. rewrite except_Exception_catches_all.
    eexists _, w1. split; [reflexivity |].
    split; [right; reflexivity |].
    split; [| discriminate].
    split; [discriminate |].
    intros [_ (out' & err' & Heq & _)]. discriminate.
Qed.

(** X9: the search tool never raises.  When the backend is not
    available the answer is "Error: " and the reason, and nothing was
    run; when the search fails it is "Error: " and the message of the
    failure; otherwise it is the formatted listing. *)
Theorem everything_search_answers (_backend : option EverythingBackend)
        (_config : option EverythingConfig) (params : SearchInput) (w : World) :
  exists text w',
    everything_search _backend _config params w = (Return text, w') /\
    (forall e, _get_backend _backend _config = Raise e ->
               text = lit "Error: " ++ exn_message e /\ w' = w) /\
    (forall backend, _get_backend _backend _config = Return backend ->
       match search backend (query params) (max_results params) (sort params)
                    (match_case params) (match_whole_word params)
                    (match_regex params) (match_path params) (offset params) w with
       | (Raise e, w1) => text = lit "Error: " ++ exn_message e /\ w' = w1
       | (Return results, w1) =>
           w' = w1 /\
           match _format_search_results results (query params) (max_results params)
                                        (offset params) with
           | Return listing => text = listing
           | Raise e => text = lit "Error: " ++ exn_message e
           end
       end).
Proof.
  unfold everything_search, try_except, try_, bind, lift.
  destruct (_get_backend _backend _config) as [backend | e0].
  2: { cbn [handler_for]. rewrite except_Exception_catches_all.
       eexists _, w. split; [reflexivity |].
       split; [| discriminate].
       intros e He. injection He as <-. split; reflexivity. }
  destruct (search backend _ _ _ _ _ _ _ _ w) as [[results | e] w1] eqn:Hs.
  - destruct (_format_search_results results _ _ _) as [listing | e] eqn:Hf.
    + eexists _, w1. split; [reflexivity |].
      split; [discriminate |].
      intros b Hb. injection Hb as <-. rewrite Hs, Hf. split; reflexivity.
    + cbn [handler_for]. rewrite except_Exception_catches_all.
      eexists _, w1. split; [reflexivity |].
      split; [discriminate |].
      intros b Hb. injection Hb as <-. rewrite Hs, Hf. split; reflexivity.
  - cbn [handler_for]. rewrite except_Exception_catches_all.
    eexists _, w1. split; [reflexivity |].
    split; [discriminate |].
    intros b Hb. injection Hb as <-. rewrite Hs. split; reflexivity.
Qed.
End ToolProperties.

(** ** The listing *)

Lemma app_nonempty_r {A : Type} (a b : list A) : b <> [] -> a ++ b <> [].
Proof. destruct a; [trivial | discriminate]. Qed.

Lemma human_size_loop_nonempty (units : list string) (v e : Z) :
  human_size_loop units v e <> [].
Proof.
  revert e. induction units as [| u units IH]; intros e; cbn [human_size_loop].
  - apply app_nonempty_r. discriminate.
  - destruct (v <? 1024 * 2 ^ e); [| apply IH].
    destruct (String.eqb u "B"); apply app_nonempty_r; discriminate.
Qed.

Lemma human_size_nonempty (n : Z) (h : str) : human_size n = Return h -> h <> [].
Proof.
  unfold human_size. destruct (n <? 0).
  - intros H; injection H as <-. discriminate.
  - destruct (float_of_int n) as [v |]; [| discriminate].
    intros H.
    pose proof (human_size_loop_nonempty ["B"; "KB"; "MB"; "GB"; "TB"]%string v 0).
    congruence.
Qed.

(** X10: the line of the listing, from the entry: a folder is marked
    [DIR] and never shows a size; a file is marked [FILE] and shows its
    size exactly when the size is known (not negative); the modification
    date follows when the entry has one. *)
Theorem listing_line_of_entry (r : SearchResult) (d : dict) :
  to_dict r = Return d ->
  format_line d =
    listing_line r
      (if negb (is_dir r) && (0 <=? size r)
       then match human_size (size r) with
            | Return h => Some h
            | Raise _ => None
            end
       else None).
Proof.
  unfold to_dict, format_line, listing_line, get_text. intros H.
  destruct r as [p n dir sz dm dc ext]. cbn [is_dir size path date_modified
    date_created extension] in *.
  destruct dir; cbn [negb andb] in *.
  - destruct ext, dm, dc; injection H as <-; reflexivity.
  - destruct (0 <=? sz).
    + destruct (human_size sz) as [h | e] eqn:Hh; [| discriminate].
      pose proof (human_size_nonempty _ _ Hh) as Hne.
      destruct h as [| c h]; [contradiction |].
      destruct ext, dm, dc; injection H as <-; cbn;
        rewrite <- ?app_assoc; reflexivity.
    + destruct ext, dm, dc; injection H as <-; reflexivity.
Qed.

Lemma listing_line_of_entry_witness :
  format_line
    [ ("path", VStr (lit "C:\test.py")); ("name", VStr (lit "test.py"));
      ("type", VStr (lit "file")); ("size", VInt 1024);
      ("size_human", VStr (lit "1.0 KB")); ("extension", VStr (lit "py"));
      ("date_modified", VStr (lit "2026-01-15 10:00:00")) ]%string
    = lit "  [FILE] C:\test.py  (1.0 KB, 2026-01-15 10:00:00)".
Proof.
  apply (listing_line_of_entry
           (mkSearchResult (lit "C:\test.py") (lit "test.py") false 1024
              (lit "2026-01-15 10:00:00") [] (lit "py"))).
  vm_compute. reflexivity.
Defined.

(** A folder with a size on record shows none. *)
Example folder_line_has_no_size :
  _format_search_results
    [mkSearchResult (lit "C:\Projects") (lit "Projects") true 4096
       (lit "2026-01-15 10:00:00") [] []] (lit "proj") 50 0
    = Return (lit "Found 1 results for: proj" ++ newline ++ newline
              ++ lit "  [DIR] C:\Projects  (2026-01-15 10:00:00)").
Proof. vm_compute. reflexivity. Qed.

(** ** Directory summaries *)

Lemma insert_sorted_length (x : str) (l : list str) :
  List.length (insert_sorted x l) = S (List.length l).
Proof.
  induction l as [| y l IH]; [reflexivity |]. simpl.
  destruct (str_leb x y); simpl; [reflexivity | now rewrite IH].
Qed.

Lemma sorted_length (l : list str) : List.length (sorted l) = List.length l.
Proof.
  induction l as [| x l IH]; [reflexivity |].
  simpl. now rewrite insert_sorted_length, IH.
Qed.

Lemma insert_sorted_In (x y : str) (l : list str) :
  In y (insert_sorted x l) <-> y = x \/ In y l.
Proof.
  induction l as [| z l IH]; simpl; [intuition congruence |].
  destruct (str_leb x z); simpl; [intuition congruence |].
  rewrite IH. intuition congruence.
Qed.

Lemma sorted_In (y : str) (l : list str) : In y (sorted l) <-> In y l.
Proof.
  induction l as [| x l IH]; simpl; [tauto |].
  rewrite insert_sorted_In, IH. intuition congruence.
Qed.

Lemma scan_entries_bounds (entries : list (result DirEntry)) :
  forall (dirs files : list str) (scanned : Z) (dirs' files' : list str)
         (scanned' : Z) (truncated : bool),
    scan_entries entries dirs files scanned = Return (dirs', files', scanned', truncated) ->
    0 <= scanned ->
    Z.of_nat (List.length dirs) <= _MAX_SUBDIRECTORY_SAMPLE ->
    Z.of_nat (List.length files) <= _MAX_FILE_SAMPLE ->
    Z.of_nat (List.length dirs') <= _MAX_SUBDIRECTORY_SAMPLE /\
    Z.of_nat (List.length files') <= _MAX_FILE_SAMPLE /\
    scanned <= scanned' <= Z.max scanned _MAX_DIR_SCAN_ITEMS /\
    scanned' <= scanned + Z.of_nat (List.length entries) /\
    (truncated = true -> _MAX_DIR_SCAN_ITEMS <= scanned') /\
    (truncated = false -> scanned' = scanned + Z.of_nat (List.length entries)) /\
    (forall x, In x dirs' -> In x dirs \/ In x (yielded_names entries)) /\
    (forall x, In x files' -> In x files \/ In x (yielded_names entries)).
Proof.
  unfold _MAX_SUBDIRECTORY_SAMPLE, _MAX_FILE_SAMPLE, _MAX_DIR_SCAN_ITEMS.
  induction entries as [| [entry | e] rest IH];
    intros dirs files scanned dirs' files' scanned' truncated H Hs Hd Hf.
  - simpl in H. injection H as <- <- <- <-. simpl.
    repeat split; try lia; try discriminate; auto.
  - cbn [scan_entries] in H.
    unfold _MAX_DIR_SCAN_ITEMS, _MAX_SUBDIRECTORY_SAMPLE, _MAX_FILE_SAMPLE in H.
    assert (Hlen : Z.of_nat (List.length (Return entry :: rest))
                   = 1 + Z.of_nat (List.length rest))
      by (simpl List.length; lia).
    rewrite Hlen. clear Hlen.
    assert (Hnames : forall x, In x (yielded_names rest) \/ x = entry_name entry ->
                               In x (yielded_names (Return entry :: rest))).
    { intros x [Hx | ->]; simpl; auto. }
    destruct (Z.leb_spec 10000 scanned) as [Hcap | Hcap].
    { injection H as <- <- <- <-.
      repeat split; try lia; try discriminate; auto. }
    assert (Hstep : forall (ds fs : list str),
               scan_entries rest ds fs (scanned + 1)
                 = Return (dirs', files', scanned', truncated) ->
               Z.of_nat (List.length ds) <= 20 ->
               Z.of_nat (List.length fs) <= 30 ->
               (forall x, In x ds -> In x dirs \/ x = entry_name entry) ->
               (forall x, In x fs -> In x files \/ x = entry_name entry) ->
               Z.of_nat (List.length dirs') <= 20 /\
               Z.of_nat (List.length files') <= 30 /\
               scanned <= scanned' <= Z.max scanned 10000 /\
               scanned' <= scanned + (1 + Z.of_nat (List.length rest)) /\
               (truncated = true -> 10000 <= scanned') /\
               (truncated = false ->
                scanned' = scanned + (1 + Z.of_nat (List.length rest))) /\
               (forall x, In x dirs' ->
                          In x dirs \/ In x (yielded_names (Return entry :: rest))) /\
               (forall x, In x files' ->
                          In x files \/ In x (yielded_names (Return entry :: rest)))).
    { intros ds fs Hrun Hds Hfs Hind Hinf.
      destruct (IH ds fs (scanned + 1) dirs' files' scanned' truncated Hrun
                   ltac:(lia) Hds Hfs)
        as (H1 & H2 & H3 & H4 & H5 & H6 & H7 & H8).
      repeat split; try lia; auto.
      - intros Ht. specialize (H6 Ht). lia.
      - intros x Hx. destruct (H7 x Hx) as [Hx' | Hx']; [| now right; apply Hnames; left].
        destruct (Hind x Hx'); [now left | right; apply Hnames; now right].
      - intros x Hx. destruct (H8 x Hx) as [Hx' | Hx']; [| now right; apply Hnames; left].
        destruct (Hinf x Hx'); [now left | right; apply Hnames; now right]. }
    assert (Hsame_d : forall x, In x dirs -> In x dirs \/ x = entry_name entry) by auto.
    assert (Hsame_f : forall x, In x files -> In x files \/ x = entry_name entry) by auto.
    assert (Happ : forall (l : list str) x,
               In x (l ++ [entry_name entry]) -> In x l \/ x = entry_name entry).
    { intros l x Hx. apply in_app_or in Hx as [Hx | [<- | []]]; auto. }
    destruct (entry_is_dir entry) as [[|] | e].
    + destruct (Z.ltb_spec (Z.of_nat (List.length dirs)) 20) as [Hlt | Hge].
      * apply (Hstep _ _ H); auto.
        rewrite length_app. simpl List.length. lia.
      * apply (Hstep _ _ H); auto.
    + destruct (entry_is_file entry) as [is_file | e].
      * destruct is_file; cbn [andb] in H.
        -- destruct (Z.ltb_spec (Z.of_nat (List.length files)) 30) as [Hlt | Hge].
           ++ apply (Hstep _ _ H); auto.
              rewrite length_app. simpl List.length. lia.
           ++ apply (Hstep _ _ H); auto.
        -- apply (Hstep _ _ H); auto.
      * destruct (caught_by [OSError] e); [| discriminate].
        apply (Hstep _ _ H); auto.
    + destruct (caught_by [OSError] e); [| discriminate].
      apply (Hstep _ _ H); auto.
  - discriminate.
Qed.

(** X12: a directory summary is bounded: at most 10000 entries are
    counted, at most 20 subdirectories and 30 files are listed, and every
    listed name is the name of an entry of the directory.  The count is the
    number of entries unless the scan stopped at the cap; a summary
    without a note has counted every entry and at most 50 of them. *)
Theorem summary_is_bounded (entries : list (result DirEntry)) (s : DirSummary) :
  _summarize_directory entries = Return s ->
  0 <= item_count s <= 10000 /\
  item_count s <= Z.of_nat (List.length entries) /\
  (List.length (subdirectories s) <= 20)%nat /\
  (List.length (files_sample s) <= 30)%nat /\
  (forall x, In x (subdirectories s) \/ In x (files_sample s) ->
             In x (yielded_names entries)) /\
  (item_count s < 10000 -> item_count s = Z.of_nat (List.length entries)) /\
  (note s = None ->
   item_count s = Z.of_nat (List.length entries) /\ item_count s <= 50).
Proof.
  unfold _summarize_directory.
  destruct (scan_entries entries [] [] 0) as [[[[dirs files] scanned] truncated] | e] eqn:H;
    [| discriminate].
  intros Hs. injection Hs as <-. cbn [item_count subdirectories files_sample note].
  destruct (scan_entries_bounds entries _ _ _ _ _ _ _ H)
    as (H1 & H2 & H3 & H4 & H5 & H6 & H7 & H8);
    try (unfold _MAX_SUBDIRECTORY_SAMPLE, _MAX_FILE_SAMPLE; simpl; lia).
  unfold _MAX_SUBDIRECTORY_SAMPLE, _MAX_FILE_SAMPLE, _MAX_DIR_SCAN_ITEMS in *.
  rewrite !sorted_length.
  split; [lia |]. split; [lia |]. split; [lia |]. split; [lia |].
  split; [| split].
  - intros x [Hx | Hx]; apply (proj1 (sorted_In _ _)) in Hx.
    + destruct (H7 x Hx) as [[] | ?]; assumption.
    + destruct (H8 x Hx) as [[] | ?]; assumption.
  - intros Hlt. destruct truncated; [specialize (H5 eq_refl); lia | now apply H6].
  - destruct truncated; [discriminate |].
    specialize (H6 eq_refl).
    destruct (Z.ltb_spec 50 scanned); [discriminate |].
    intros _. lia.
Qed.

Lemma summary_is_bounded_witness :
  _summarize_directory
    [ Return (mkDirEntry (lit "src") (Return true) (Return false));
      Return (mkDirEntry (lit "a.txt") (Return false) (Return true));
      Return (mkDirEntry (lit "locked") (Raise (Exn PermissionError [])) (Return true)) ]
    = Return (mkDirSummary 3 [lit "src"] [lit "a.txt"] None) /\
  0 <= 3 <= 10000.
Proof.
  split; [vm_compute; reflexivity |].
  exact (proj1 (summary_is_bounded
                  [ Return (mkDirEntry (lit "src") (Return true) (Return false));
                    Return (mkDirEntry (lit "a.txt") (Return false) (Return true));
                    Return (mkDirEntry (lit "locked") (Raise (Exn PermissionError []))
                              (Return true)) ]
                  (mkDirSummary 3 [lit "src"] [lit "a.txt"] None) eq_refl)).
Defined.

(** ** Query builders *)

Lemma split_from_components (sp : char) (s : str) :
  forall cur,
    ~ In sp cur ->
    Forall (fun part => ~ In sp part) (split_from sp cur s).
Proof.
  induction s as [| c s IH]; intros cur Hcur; simpl.
  - constructor; [| constructor]. now rewrite <- in_rev.
  - destruct (N.eqb_spec c sp) as [-> | Hne].
    + constructor; [now rewrite <- in_rev | apply IH; intros []].
    + apply IH. intros [<- | H]; [now apply Hne | now apply Hcur].
Qed.

Lemma split_from_chars (sp : char) (s : str) :
  forall cur part x,
    In part (split_from sp cur s) -> In x part -> In x cur \/ In x s.
Proof.
  induction s as [| c s IH]; intros cur part x Hp Hx; simpl in Hp.
  - destruct Hp as [<- | []]. left. now apply in_rev.
  - destruct (N.eqb c sp).
    + destruct Hp as [<- | Hp]; [left; now apply in_rev |].
      destruct (IH [] part x Hp Hx) as [[] | H]. right. now right.
    + destruct (IH (c :: cur) part x Hp Hx) as [[<- | H] | H].
      * right. now left.
      * now left.
      * right. now right.
Qed.

Lemma split_from_app (sp : char) (p rest : str) :
  ~ In sp p ->
  forall cur,
    split_from sp cur (p ++ sp :: rest) = (rev cur ++ p) :: split_from sp [] rest.
Proof.
  induction p as [| c p IH]; intros Hp cur; simpl.
  - rewrite N.eqb_refl, app_nil_r. reflexivity.
  - destruct (N.eqb_spec c sp) as [-> | Hne]; [exfalso; apply Hp; now left |].
    rewrite IH by (intros H; apply Hp; now right).
    simpl. now rewrite <- app_assoc.
Qed.

(** Splitting what was joined gives the parts back. *)
Lemma split_join (sp : char) (l : list str) :
  l <> [] ->
  Forall (fun part => ~ In sp part) l ->
  split sp (join [sp] l) = l.
Proof.
  unfold split. induction l as [| a l IH]; [congruence |].
  intros _ Hall. inversion Hall as [| ? ? Ha Hl]; subst.
  destruct l as [| b l].
  - simpl. now rewrite split_from_no_sep.
  - change (join [sp] (a :: b :: l)) with (a ++ sp :: join [sp] (b :: l)).
    rewrite split_from_app by assumption. simpl rev. simpl app.
    f_equal. apply IH; [discriminate | assumption].
Qed.

Lemma join_chars (sp : str) (l : list str) (x : char) :
  In x (join sp l) -> In x sp \/ exists part, In part l /\ In x part.
Proof.
  induction l as [| a l IH]; [intros [] |].
  destruct l as [| b l].
  - simpl. intros H. right. exists a. split; [now left | exact H].
  - change (join sp (a :: b :: l)) with (a ++ sp ++ join sp (b :: l)).
    intros H. apply in_app_or in H as [H | H].
    + right. exists a. split; [now left | exact H].
    + apply in_app_or in H as [H | H]; [now left |].
      destruct (IH H) as [Hs | (part & Hp & Hx)]; [now left |].
      right. exists part. split; [now right | exact Hx].
Qed.

Lemma join_nonempty (sp : str) (l : list str) :
  l <> [] -> Forall (fun part => part <> []) l -> join sp l <> [].
Proof.
  destruct l as [| a l]; [congruence |].
  intros _ Hall. inversion Hall as [| ? ? Ha _]; subst.
  destruct l; simpl; [exact Ha |].
  destruct a; [congruence | discriminate].
Qed.

Lemma join_snoc (sp : str) (l : list str) (x : str) :
  l <> [] -> join sp (l ++ [x]) = join sp l ++ sp ++ x.
Proof.
  induction l as [| a l IH]; [congruence |]. intros _.
  destruct l as [| b l]; [reflexivity |].
  change (join sp ((a :: b :: l) ++ [x]))
    with (a ++ sp ++ join sp ((b :: l) ++ [x])).
  rewrite IH by discriminate.
  change (join sp (a :: b :: l)) with (a ++ sp ++ join sp (b :: l)).
  now rewrite <- !app_assoc.
Qed.

Lemma filter_all {A : Type} (f : A -> bool) (l : list A) :
  Forall (fun x => f x = true) l -> filter f l = l.
Proof.
  induction 1 as [| x l Hx _ IH]; [reflexivity |]. simpl. now rewrite Hx, IH.
Qed.

Lemma map_fixed {A : Type} (f : A -> A) (l : list A) :
  Forall (fun x => f x = x) l -> map f l = l.
Proof.
  induction 1 as [| x l Hx _ IH]; [reflexivity |]. simpl. now rewrite Hx, IH.
Qed.

(** The extensions that are kept: the components of the list. *)
Lemma kept_extensions_spec (extensions : str) :
  let parts := kept_extensions extensions in
  normalize_extensions extensions = join [semicolon] parts /\
  Forall (fun part => part <> [] /\
                      forall c, In c part ->
                                c <> dot /\ c <> 44%N /\ c <> 32%N /\ c <> semicolon) parts.
Proof.
  unfold kept_extensions, normalize_extensions. split; [reflexivity |].
  apply Forall_forall. intros part Hin. apply filter_In in Hin as [Hin Hne].
  split; [now apply truthy_true |].
  intros c Hc.
  pose proof (split_from_components semicolon
                (replace_char 32%N semicolon
                   (replace_char 44%N semicolon (delete_char dot extensions)))
                [] (fun H => H)) as Hcomp.
  rewrite Forall_forall in Hcomp. specialize (Hcomp part Hin).
  assert (Hsemi : c <> semicolon) by (intros ->; now apply Hcomp).
  destruct (split_from_chars _ _ _ _ _ Hin Hc) as [[] | Hs].
  unfold replace_char in Hs.
  apply in_map_iff in Hs as (c1 & Hc1 & Hs).
  apply in_map_iff in Hs as (c0 & Hc0 & Hs).
  apply filter_In in Hs as [_ Hdot].
  destruct (N.eqb_spec c0 dot) as [| Hd]; [discriminate |].
  destruct (N.eqb_spec c0 44%N) as [E0 | Hcomma];
    destruct (N.eqb_spec c1 32%N) as [E1 | Hspace]; subst;
    try (exfalso; now apply Hsemi);
    repeat split; try assumption; try discriminate.
Qed.

(** X13: the extension list of a recent-files query.  What the code
    makes of it has no dot, comma or space; its components between the
    semicolons are the kept extensions, none of them empty; normalizing
    it again changes nothing.  The query ends with the [ext:] clause of
    that list, and when nothing is kept the query is the one without an
    extension filter. *)
Theorem recent_query_extensions (period path_filter extensions : str) :
  let e := normalize_extensions extensions in
  Forall (fun c => c <> dot /\ c <> 44%N /\ c <> 32%N) e /\
  (e <> [] ->
   split semicolon e = kept_extensions extensions /\
   Forall (fun part => part <> []) (split semicolon e) /\
   ends_with (build_recent_query period path_filter extensions)
             (lit " ext:" ++ e)) /\
  (e = [] ->
   build_recent_query period path_filter extensions
     = build_recent_query period path_filter []) /\
  normalize_extensions e = e.
Proof.
  destruct (kept_extensions_spec extensions) as [He Hparts].
  cbv zeta in He, Hparts |- *. rewrite He.
  set (parts := kept_extensions extensions) in *.
  assert (Hchars : Forall (fun c => c <> dot /\ c <> 44%N /\ c <> 32%N)
                          (join [semicolon] parts)).
  { apply Forall_forall. intros c Hc. rewrite Forall_forall in Hparts.
    destruct (join_chars _ _ _ Hc) as [[<- | []] | (part & Hp & Hx)].
    - repeat split; discriminate.
    - destruct (Hparts part Hp) as [_ H]. specialize (H c Hx). tauto. }
  assert (Hnosep : Forall (fun part => ~ In semicolon part) parts).
  { apply Forall_forall. intros part Hp Hin. rewrite Forall_forall in Hparts.
    destruct (Hparts part Hp) as [_ H]. specialize (H _ Hin). tauto. }
  assert (Hnonempty : Forall (fun part => part <> []) parts).
  { apply Forall_forall. intros part Hp. rewrite Forall_forall in Hparts.
    now destruct (Hparts part Hp). }
  assert (Hsplit : parts <> [] -> split semicolon (join [semicolon] parts) = parts).
  { intros Hne. now apply split_join. }
  split; [exact Hchars |]. split; [| split].
  - intros Hne.
    assert (Hp : parts <> []) by (intros E; rewrite E in Hne; now apply Hne).
    rewrite (Hsplit Hp). split; [reflexivity |]. split; [exact Hnonempty |].
    unfold build_recent_query. fold parts in He. rewrite He.
    assert (Hext : truthy extensions = true).
    { destruct extensions; [| reflexivity].
      exfalso. apply Hp. reflexivity. }
    rewrite Hext.
    assert (Ht : truthy (join [semicolon] parts) = true).
    { destruct (join [semicolon] parts); [congruence | reflexivity]. }
    rewrite Ht.
    destruct (truthy path_filter); rewrite join_snoc by discriminate;
      eexists; reflexivity.
  - intros E. unfold build_recent_query. rewrite He, E. simpl.
    destruct (truthy extensions); reflexivity.
  - destruct parts as [| a l] eqn:Ep; [reflexivity |].
    unfold normalize_extensions.
    assert (Hdel : delete_char dot (join [semicolon] (a :: l)) = join [semicolon] (a :: l)).
    { apply filter_all. apply Forall_forall. intros c Hc.
      rewrite Forall_forall in Hchars. destruct (Hchars c Hc) as [Hd _].
      destruct (N.eqb_spec c dot); [contradiction | reflexivity]. }
    rewrite Hdel.
    assert (Hrep : forall a0, a0 = 44%N \/ a0 = 32%N ->
               replace_char a0 semicolon (join [semicolon] (a :: l))
                 = join [semicolon] (a :: l)).
    { intros a0 Ha0. apply map_fixed. apply Forall_forall. intros c Hc.
      rewrite Forall_forall in Hchars. destruct (Hchars c Hc) as (_ & H1 & H2).
      destruct (N.eqb_spec c a0); [| reflexivity].
      destruct Ha0; congruence. }
    rewrite (Hrep 44%N) by now left. rewrite (Hrep 32%N) by now right.
    rewrite Hsplit by discriminate.
    rewrite filter_all; [reflexivity |].
    apply Forall_forall. intros part Hp. rewrite Forall_forall in Hnonempty.
    specialize (Hnonempty part Hp). destruct part; [congruence | reflexivity].
Qed.

(** Python's [build_recent_query("1hour", "", ".py, .js")] and two lists
    of which nothing is kept. *)
Example build_recent_query_examples :
  build_recent_query (lit "1hour") [] (lit ".py, .js") = lit "dm:last1hour ext:py;js" /\
  build_recent_query (lit "today") (lit "C:\Projects") (lit "py;js")
    = lit "dm:today path:" ++ [quote] ++ lit "C:\Projects" ++ [quote] ++ lit " ext:py;js" /\
  build_recent_query (lit "last2hours") [] (lit ". ,;") = lit "dm:last2hours" /\
  build_recent_query (lit "1week") [] [] = lit "dm:last1week".
Proof. repeat split; vm_compute; reflexivity. Qed.

Lemma lookup_Some (table : list (string * string)) (key v : str) :
  lookup table key = Some v ->
  exists kv, In kv table /\ lit (fst kv) = key /\ lit (snd kv) = v.
Proof.
  unfold lookup. destruct (find _ table) as [kv |] eqn:Hf; [| discriminate].
  intros H. injection H as <-. apply find_some in Hf as [Hin Heq].
  apply str_eqb_eq in Heq. exists kv. auto.
Qed.

Lemma lookup_None (table : list (string * string)) (key : str) :
  lookup table key = None -> ~ In key (keys table).
Proof.
  unfold lookup, keys. destruct (find _ table) as [kv |] eqn:Hf; [discriminate |].
  intros _ Hin. apply in_map_iff in Hin as (kv & Hk & Hin).
  apply (find_none _ _ Hf) in Hin. apply Bool.not_true_iff_false in Hin.
  apply Hin. now apply str_eqb_eq.
Qed.

Lemma startswith_app (p s : str) : startswith p (p ++ s) = true.
Proof. induction p as [| c p IH]; [reflexivity |]. simpl. now rewrite N.eqb_refl. Qed.

Section TypeQuery.
Context {U : Unicode}.

(** X14: a file-type query.  The category is looked up in lower case and
    without the surrounding whitespace.  For a known category the query
    starts with the category's [ext:] list and ends with the additional
    query; for an unknown one the error is a [ValueError] that quotes the
    category as it was given and lists the ten known ones in order. *)
Theorem type_query_spec (file_type additional_query path_filter : str) :
  (forall q, build_type_query file_type additional_query path_filter = Return q ->
     In (strip (lower file_type)) (keys FILE_TYPES) /\
     startswith (lit "ext:") q = true /\
     ends_with q additional_query /\
     (path_filter = [] -> additional_query = [] ->
      lookup FILE_TYPES (strip (lower file_type)) = Some q)) /\
  (forall e, build_type_query file_type additional_query path_filter = Raise e ->
     ~ In (strip (lower file_type)) (keys FILE_TYPES) /\
     e = Exn ValueError
           (lit "Unknown file type '" ++ file_type
            ++ lit "'. Available: 3d, archive, audio, code, data, document, executable, font, image, video")).
Proof.
  unfold build_type_query.
  destruct (lookup FILE_TYPES (strip (lower file_type))) as [ext |] eqn:Hl.
  - split; [| discriminate]. intros q Hq. injection Hq as <-.
    destruct (lookup_Some _ _ _ Hl) as (kv & Hin & Hk & Hv).
    split; [| split; [| split]].
    + rewrite <- Hk. unfold keys. apply in_map_iff. exists kv. auto.
    + assert (Hext : exists t, ext = lit "ext:" ++ t).
      { rewrite <- Hv. clear - Hin. simpl in Hin.
        repeat (destruct Hin as [<- | Hin]; [eexists; vm_compute; reflexivity |]).
        contradiction. }
      destruct Hext as (t & ->).
      destruct (truthy path_filter), (truthy additional_query);
        cbn [app join]; rewrite <- ?app_assoc; apply startswith_app.
    + destruct additional_query as [| c a];
        [eexists; symmetry; apply app_nil_r |].
      cbn [truthy].
      destruct (truthy path_filter); cbn [app];
        [apply (join_ends_with_last (lit " ") [ext; path_clause path_filter])
        | apply (join_ends_with_last (lit " ") [ext])].
    + intros -> ->. reflexivity.
  - split; [discriminate |]. intros e He. injection He as <-.
    split; [now apply lookup_None | reflexivity].
Qed.
End TypeQuery.

Example build_type_query_examples :
  let U := ascii_unicode in
  build_type_query (lit " Audio ") [] []
    = Return (lit "ext:mp3;wav;flac;aac;ogg;wma;m4a;opus;aiff;alac") /\
  build_type_query (lit "font") (lit "arial") (lit "C:\Windows")
    = Return (lit "ext:ttf;otf;woff;woff2;eot;fon path:" ++ [quote] ++ lit "C:\Windows"
              ++ [quote] ++ lit " arial") /\
  exists e, build_type_query (lit "nonexistent") [] [] = Raise e /\ exn_type e = ValueError.
Proof.
  intros U. split; [vm_compute; reflexivity |]. split; [vm_compute; reflexivity |].
  eexists. split; [vm_compute; reflexivity | reflexivity].
Qed.

(** ** Sizes: units and the range of [float] *)

Lemma float_of_int_small (n : Z) : 0 <= n < 2 ^ 53 -> float_of_int n = Some n.
Proof.
  intros [H0 H53]. unfold float_of_int.
  destruct (Z.eqb_spec n 0) as [-> | Hn]; [reflexivity |].
  assert (Hlog : Z.log2 n < 53) by (apply Z.log2_lt_pow2; lia).
  destruct (Z.leb_spec (Z.log2 n + 1) 53); [reflexivity | lia].
Qed.

(** Above 53 bits: the 53 leading bits [q], the rest [r], and the rounding
    of [q] to even. *)
Lemma float_of_int_large (n : Z) :
  2 ^ 53 <= n ->
  let s := Z.log2 n - 52 in
  let q := n / 2 ^ s in
  let r := n mod 2 ^ s in
  let q' := if (2 ^ (s - 1) <? r) || ((r =? 2 ^ (s - 1)) && Z.odd q)
            then q + 1 else q in
  1 <= s /\ 2 ^ 52 <= q < 2 ^ 53 /\ n = q * 2 ^ s + r /\ 0 <= r < 2 ^ s /\
  float_of_int n = if q' * 2 ^ s <? 2 ^ 1024 then Some (q' * 2 ^ s) else None.
Proof.
  intros Hn. cbv zeta.
  assert (Hpos : 0 < n) by (assert (0 < 2 ^ 53) by reflexivity; lia).
  assert (Hlog : 53 <= Z.log2 n) by (apply Z.log2_le_pow2; lia).
  destruct (Z.log2_spec n Hpos) as [Hlo Hhi].
  set (s := Z.log2 n - 52) in *.
  assert (Hs : 1 <= s) by (unfold s; lia).
  assert (H2s : 0 < 2 ^ s) by (apply Z.pow_pos_nonneg; lia).
  assert (Elo : 2 ^ Z.log2 n = 2 ^ 52 * 2 ^ s).
  { replace (Z.log2 n) with (52 + s) by (unfold s; lia).
    apply Z.pow_add_r; lia. }
  assert (Ehi : 2 ^ Z.succ (Z.log2 n) = 2 ^ 53 * 2 ^ s).
  { replace (Z.succ (Z.log2 n)) with (53 + s) by (unfold s; lia).
    apply Z.pow_add_r; lia. }
  rewrite Elo in Hlo. rewrite Ehi in Hhi.
  split; [exact Hs |]. split; [| split; [| split]].
  - split.
    + apply Z.div_le_lower_bound; lia.
    + apply Z.div_lt_upper_bound; lia.
  - rewrite Z.mul_comm. apply Z.div_mod. lia.
  - apply Z.mod_pos_bound. exact H2s.
  - unfold float_of_int.
    destruct (Z.eqb_spec n 0); [lia |].
    destruct (Z.leb_spec (Z.log2 n + 1) 53); [lia |].
    replace (Z.log2 n + 1 - 53) with s by (unfold s; lia).
    rewrite Z.shiftr_div_pow2 by lia.
    rewrite Z.land_ones by lia.
    rewrite !Z.shiftl_mul_pow2 by lia.
    rewrite Z.mul_1_l. reflexivity.
Qed.

Lemma float_of_int_large_value (n v : Z) :
  2 ^ 53 <= n -> float_of_int n = Some v -> 2 ^ 53 <= v.
Proof.
  intros Hn Hv.
  destruct (float_of_int_large n Hn) as (Hs & Hq & _ & _ & Hf).
  cbv zeta in Hq, Hf. rewrite Hv in Hf.
  set (s := Z.log2 n - 52) in *.
  set (q := n / 2 ^ s) in *.
  set (r := n mod 2 ^ s) in *.
  assert (H2s : 2 <= 2 ^ s).
  { change 2 with (2 ^ 1) at 1. apply Z.pow_le_mono_r; lia. }
  destruct ((2 ^ (s - 1) <? r) || ((r =? 2 ^ (s - 1)) && Z.odd q));
    match type of Hf with
    | _ = (if ?c then _ else _) => destruct c; [| discriminate]
    end; injection Hf as ->; change (2 ^ 53) with (2 ^ 52 * 2); nia.
Qed.

(** X15: the unit of a size is chosen by its magnitude alone: bytes
    below 1024, then KB, MB, GB and TB in steps of 1024, and PB from
    1024^5 on; the rounding of [float] never moves a size into another
    unit.  A size below 1024 is shown exactly, as a whole number. *)
Theorem human_size_unit (n : Z) (h : str) :
  0 <= n ->
  human_size n = Return h ->
  ends_with h (lit " " ++ lit (size_unit n)) /\
  (n < 1024 -> h = str_of_int n ++ lit " B").
Proof.
  intros H0 Hh. unfold human_size in Hh.
  destruct (Z.ltb_spec n 0); [lia |].
  destruct (float_of_int n) as [v |] eqn:Hv; [| discriminate].
  injection Hh as <-.
  assert (Hcases : (n < 2 ^ 53 /\ v = n) \/ (2 ^ 53 <= n /\ 2 ^ 53 <= v)).
  { destruct (Z.lt_ge_cases n (2 ^ 53)) as [Hlt | Hge].
    - left. split; [exact Hlt |]. rewrite float_of_int_small in Hv by lia. congruence.
    - right. split; [exact Hge | now apply (float_of_int_large_value n)]. }
  assert (Hb : forall t, t <= 2 ^ 50 -> (v <? t) = (n <? t)).
  { intros t Ht. destruct Hcases as [[_ ->] | [Hn' Hv']]; [reflexivity |].
    assert (2 ^ 50 < 2 ^ 53) by reflexivity.
    destruct (Z.ltb_spec v t), (Z.ltb_spec n t); try reflexivity; lia. }
  assert (Hv1 : n < 1024 -> v = n).
  { intros Hlt. destruct Hcases as [[_ ->] | [Hn' _]]; [reflexivity |].
    assert (1024 < 2 ^ 53) by reflexivity. lia. }
  unfold size_unit.
  change (2 ^ 10) with 1024. change (2 ^ 20) with 1048576.
  change (2 ^ 30) with 1073741824. change (2 ^ 40) with 1099511627776.
  change (2 ^ 50) with 1125899906842624 in *.
  rewrite !Hb by lia. rewrite Z.div_1_r.
  destruct (Z.ltb_spec n 1024) as [H10 | H10].
  { split; [eexists; reflexivity |]. intros _. now rewrite Hv1. }
  destruct (n <? 1048576); [split; [eexists; reflexivity | lia] |].
  destruct (n <? 1073741824); [split; [eexists; reflexivity | lia] |].
  destruct (n <? 1099511627776); [split; [eexists; reflexivity | lia] |].
  destruct (n <? 1125899906842624); [split; [eexists; reflexivity | lia] |].
  split; [eexists; reflexivity | lia].
Qed.

Lemma human_size_unit_witness :
  ends_with (lit "1.5 KB") (lit " KB").
Proof.
  refine (proj1 (human_size_unit 1536 (lit "1.5 KB") _ _));
    [lia | vm_compute; reflexivity].
Defined.

Lemma float_of_int_overflow (n : Z) :
  0 <= n -> (float_of_int n = None <-> float_overflow <= n).
Proof.
  intros H0.
  assert (Hthr : 2 ^ 53 < float_overflow) by reflexivity.
  destruct (Z.lt_ge_cases n (2 ^ 53)) as [Hlt | Hge].
  { rewrite float_of_int_small by lia. split; [discriminate | lia]. }
  destruct (float_of_int_large n Hge) as (Hs & Hq & Hn & Hr & Hf).
  cbv zeta in Hq, Hn, Hr, Hf. rewrite Hf. clear Hf Hthr Hge.
  set (s := Z.log2 n - 52) in *.
  set (q := n / 2 ^ s) in *.
  set (r := n mod 2 ^ s) in *.
  set (B := (2 ^ (s - 1) <? r) || ((r =? 2 ^ (s - 1)) && Z.odd q)).
  set (q' := if B then q + 1 else q).
  assert (Hq' : q <= q' <= q + 1) by (unfold q'; destruct B; lia).
  assert (HT : 2 ^ 1024 = 18014398509481984 * 2 ^ 970) by reflexivity.
  assert (HF : float_overflow = 18014398509481983 * 2 ^ 970) by reflexivity.
  assert (H52 : 2 ^ 52 = 4503599627370496) by reflexivity.
  assert (H53 : 2 ^ 53 = 9007199254740992) by reflexivity.
  assert (HP : 0 < 2 ^ 970) by reflexivity.
  rewrite HT, HF. rewrite H52, H53 in Hq. clear HT HF H52 H53.
  clearbody q r s.
  destruct (Z.lt_trichotomy s 971) as [Hlt | [Heq | Hgt]].
  - (* at most 1023 bits: no overflow *)
    assert (HS : 2 ^ s <= 2 ^ 970) by (apply Z.pow_le_mono_r; lia).
    assert (HS0 : 0 < 2 ^ s) by (apply Z.pow_pos_nonneg; lia).
    clearbody q'. clear B.
    generalize dependent (2 ^ 970). intros p970 Hp970 HS.
    generalize dependent (2 ^ s). intros ps Hn Hr HS0 HS.
    destruct (Z.ltb_spec (q' * ps) (18014398509481984 * p970)); split;
      intros; first [discriminate | reflexivity | nia | exfalso; nia].
  - (* 1024 bits *)
    assert (HS : 2 ^ s = 2 * 2 ^ 970) by (rewrite Heq; reflexivity).
    assert (Hh : 2 ^ (s - 1) = 2 ^ 970) by (rewrite Heq; reflexivity).
    assert (Hround : q = 9007199254740991 ->
                     (r < 2 ^ 970 /\ q' = q) \/ (2 ^ 970 <= r /\ q' = q + 1)).
    { intros Hmax. unfold q', B. rewrite Hh.
      replace (Z.odd q) with true by (rewrite Hmax; reflexivity).
      destruct (Z.ltb_spec (2 ^ 970) r), (Z.eqb_spec r (2 ^ 970)); cbn [orb andb]; lia. }
    clearbody q'. clear B Hh. rewrite HS in *. clear HS.
    generalize dependent (2 ^ 970). intros p970 Hn Hr Hp970 Hround.
    destruct (Z.eq_dec q 9007199254740991) as [Hmax | Hnot].
    + specialize (Hround Hmax).
      destruct (Z.ltb_spec (q' * (2 * p970)) (18014398509481984 * p970)); split;
        intros; first [discriminate | reflexivity | nia | exfalso; nia].
    + clear Hround.
      destruct (Z.ltb_spec (q' * (2 * p970)) (18014398509481984 * p970)); split;
        intros; first [discriminate | reflexivity | nia | exfalso; nia].
  - (* more than 1024 bits *)
    assert (HS : 2 ^ 972 <= 2 ^ s) by (apply Z.pow_le_mono_r; lia).
    assert (H972 : 2 ^ 972 = 4 * 2 ^ 970) by reflexivity.
    rewrite H972 in HS. clear H972.
    clearbody q'. clear B.
    generalize dependent (2 ^ 970). intros p970 Hp970 HS.
    generalize dependent (2 ^ s). intros ps Hn Hr HS.
    destruct (Z.ltb_spec (q' * ps) (18014398509481984 * p970)); split;
      intros; first [discriminate | reflexivity | nia | exfalso; nia].
Qed.

(** X16: [human_size] answers for every size below
    [2^1024 - 2^970], where the conversion to [float] overflows; from
    there on it raises [OverflowError]. *)
Theorem human_size_overflow (n : Z) :
  ((exists h, human_size n = Return h) <-> n < float_overflow) /\
  (human_size n = Raise (Exn OverflowError (lit "int too large to convert to float"))
   <-> float_overflow <= n).
Proof.
  assert (Hthr : 0 < float_overflow) by reflexivity.
  unfold human_size. destruct (Z.ltb_spec n 0) as [Hneg | H0].
  { split; split; try discriminate; try lia. intros _. eauto. }
  pose proof (float_of_int_overflow n H0) as Hf.
  destruct (float_of_int n) as [v |].
  - assert (Hlt : n < float_overflow).
    { destruct (Z.lt_ge_cases n float_overflow) as [? | Hge]; [assumption |].
      apply Hf in Hge. discriminate. }
    split; split; try discriminate; try lia. intros _. eauto.
  - assert (Hge : float_overflow <= n) by now apply Hf.
    split; split; try lia; try reflexivity.
    intros [h Hh]. discriminate.
Qed.

(** ** Serialization: the other keys *)

(** X17: [to_dict] answers unless the entry is a file whose size is
    beyond the range of [float].  The dictionary always has the path, the
    name and the type ("folder" for a directory, "file" otherwise); the
    extension and the two dates are in it exactly when they are not
    empty, with the entry's values. *)
Theorem to_dict_fields (r : SearchResult) :
  ((exists d, to_dict r = Return d) <-> is_dir r = true \/ size r < float_overflow) /\
  (forall d, to_dict r = Return d ->
     dict_get d "path" = Some (VStr (path r)) /\
     dict_get d "name" = Some (VStr (name r)) /\
     dict_get d "type" = Some (VStr (if is_dir r then lit "folder" else lit "file")) /\
     dict_get d "extension"
       = (if truthy (extension r) then Some (VStr (extension r)) else None) /\
     dict_get d "date_modified"
       = (if truthy (date_modified r) then Some (VStr (date_modified r)) else None) /\
     dict_get d "date_created"
       = (if truthy (date_created r) then Some (VStr (date_created r)) else None)).
Proof.
  destruct r as [p n dir sz dm dc ext].
  cbn [is_dir size path name date_modified date_created extension].
  assert (Hthr : 0 < float_overflow) by reflexivity.
  split.
  - unfold to_dict. cbn [is_dir size path name date_modified date_created extension].
    destruct dir; cbn [negb andb].
    + split; [intros _; now left | intros _; eauto].
    + destruct (Z.leb_spec 0 sz) as [H0 | Hneg].
      * pose proof (float_of_int_overflow sz H0) as Hf.
        unfold human_size. destruct (Z.ltb_spec sz 0); [lia |].
        destruct (float_of_int sz) as [v |].
        -- split; [| intros _; eauto].
           intros _. right.
           destruct (Z.lt_ge_cases sz float_overflow) as [? | Hge]; [assumption |].
           apply Hf in Hge. discriminate.
        -- split; [intros [d Hd]; discriminate |].
           intros [Hd | Hlt]; [discriminate |].
           assert (float_overflow <= sz) by now apply Hf. lia.
      * split; [intros _; right; lia | intros _; eauto].
  - intros d H. unfold to_dict in H.
    cbn [is_dir size path name date_modified date_created extension] in H.
    destruct dir; cbn [negb andb] in H.
    + destruct ext, dm, dc; injection H as <-; repeat split; reflexivity.
    + destruct (0 <=? sz).
      * destruct (human_size sz) as [h | e]; [| discriminate].
        destruct ext, dm, dc; injection H as <-; repeat split; reflexivity.
      * destruct ext, dm, dc; injection H as <-; repeat split; reflexivity.
Qed.

(** ** Discovery *)

Section DiscoveryProperties.
Context {U : Unicode} {P : Platform} {World : Type} {O : OS World}.

Lemma is_verified_file_true (candidate : PurePath) (w w' : World) :
  is_verified_file candidate w = (Return true, w') ->
  verified_at (path_str os_flavour candidate) w'.
Proof.
  unfold is_verified_file, bind, ret.
  destruct (Path_is_file _ w) as [[[|] | e] w1]; try discriminate.
  intros H. now exists w1.
Qed.

Lemma find_override_verified (env_override p : str) (w w' : World) :
  find_override env_override w = (Return (Some p), w') -> verified_at p w'.
Proof.
  unfold find_override, bind, ret.
  destruct (truthy env_override); [| discriminate].
  destruct (Path_is_file _ w) as [[f | e] w1]; [| discriminate].
  destruct (f && str_eqb _ es_exe).
  - destruct (_is_everything_es _ w1) as [[[|] | e] w2] eqn:Hv; try discriminate.
    intros H. injection H as <- <-. now exists w1.
  - destruct (Path_is_dir _ w1) as [[[|] | e] w2]; try discriminate.
    destruct (is_verified_file _ w2) as [[[|] | e] w3] eqn:Hv; try discriminate.
    intros H. injection H as <- <-. exact (is_verified_file_true _ _ _ Hv).
Qed.

Lemma find_on_path_verified (names : list str) (p : str) :
  forall w w', find_on_path names w = (Return (Some p), w') -> verified_at p w'.
Proof.
  induction names as [| name rest IH]; intros w w'; [discriminate |].
  cbn [find_on_path]. unfold bind, ret.
  destruct (shutil_which name w) as [[[f |] | e] w1]; try discriminate;
    [| apply IH].
  destruct (truthy f); [| apply IH].
  destruct (_is_everything_es f w1) as [[[|] | e] w2] eqn:Hv; try discriminate;
    [| apply IH].
  intros H. injection H as <- <-. now exists w1.
Qed.

Lemma find_in_dirs_verified (dirs : list str) (p : str) :
  forall w w', find_in_dirs dirs w = (Return (Some p), w') -> verified_at p w'.
Proof.
  induction dirs as [| d rest IH]; intros w w'; [discriminate |].
  cbn [find_in_dirs]. unfold bind, ret, try_except, try_.
  destruct (is_verified_file _ w) as [[[|] | e] w1] eqn:Hv.
  - intros H. injection H as <- <-. exact (is_verified_file_true _ _ _ Hv).
  - apply IH.
  - cbn [handler_for]. destruct (caught_by [OSError] e); [apply IH | discriminate].
Qed.

Lemma registry_keys_verified (keys : list (hive * str)) (p : str) :
  forall w w', registry_keys keys w = (Return p, w') -> p <> [] -> verified_at p w'.
Proof.
  induction keys as [| [h subkey] rest IH]; intros w w'.
  - intros H. injection H as <- _. congruence.
  - cbn [registry_keys]. unfold registry_key, try_except, try_, bind, ret.
    cbv zeta.
    destruct (winreg_InstallPath h subkey w) as [[install_path | e] w1].
    + destruct (is_verified_file _ w1) as [[[|] | e] w2] eqn:Hv.
      * intros H _. injection H as <- <-. exact (is_verified_file_true _ _ _ Hv).
      * apply IH.
      * cbn [handler_for].
        destruct (caught_by [FileNotFoundError; OSError] e); [apply IH | discriminate].
    + cbn [handler_for].
      destruct (caught_by [FileNotFoundError; OSError] e); [apply IH | discriminate].
Qed.

Lemma find_via_registry_verified (p : str) (w w' : World) :
  _find_via_registry w = (Return p, w') -> p <> [] -> verified_at p w'.
Proof.
  unfold _find_via_registry.
  destruct (negb (str_eqb sys_platform (lit "win32"))).
  { intros H. injection H as <- _. congruence. }
  unfold bind, ret, try_except, try_.
  destruct (import_winreg w) as [[[] | e] w1].
  - cbn [negb]. apply registry_keys_verified.
  - cbn [handler_for]. destruct (caught_by [ImportError] e); [| discriminate].
    cbn [negb]. intros H. injection H as <- _. congruence.
Qed.

Lemma find_es_exe_verified (env_override p : str) (w w' : World) :
  _find_es_exe env_override w = (Return p, w') -> p <> [] -> verified_at p w'.
Proof.
  unfold _find_es_exe, bind, ret.
  destruct (find_override env_override w) as [[[f |] | e] w1] eqn:H1; try discriminate.
  { intros H _. injection H as <- <-. exact (find_override_verified _ _ _ _ H1). }
  destruct (find_on_path _ w1) as [[[f |] | e] w2] eqn:H2; try discriminate.
  { intros H _. injection H as <- <-. exact (find_on_path_verified _ _ _ _ H2). }
  destruct (find_in_dirs _ w2) as [[[f |] | e] w3] eqn:H3; try discriminate.
  { intros H _. injection H as <- <-. exact (find_in_dirs_verified _ _ _ _ H3). }
  apply find_via_registry_verified.
Qed.

Lemma auto_detect_es_path (w w' : World) (c : EverythingConfig) :
  auto_detect w = (Return c, w') ->
  exists w1, _find_es_exe (env_stripped "EVERYTHING_ES_PATH" w) w
               = (Return (es_path c), w1).
Proof.
  rewrite auto_detect_unfold.
  destruct (_find_es_exe _ w) as [[found | e] w1]; [| discriminate].
  cbv zeta. destruct (negb (truthy found)).
  { intros H. injection H as <- _. now exists w1. }
  destruct (detect_instance_if_unset _ w1) as [[c1 | e] w2] eqn:Hd; [| discriminate].
  destruct (detect_instance_if_unset_keeps _ _ Hd) as [Hp _].
  destruct (_test_connection _ _ w2) as [[[[|] info] | e] w3]; try discriminate;
    intros H; injection H as <- _; exists w1; cbn [es_path set_version_info errors_append];
    rewrite Hp; reflexivity.
Qed.

(** X18: discovery returns no path that was not verified.  Whichever
    route found it (the override, the search path, the fixed directories
    or the registry), a path that [_find_es_exe] returns is empty or is
    one for which [_is_everything_es] answered true, as the last thing
    discovery did; and so the path of every configuration of
    [auto_detect] is empty or verified. *)
Theorem discovered_path_is_verified :
  (forall env_override p w w',
     _find_es_exe env_override w = (Return p, w') -> p = [] \/ verified_at p w') /\
  (forall w c w',
     auto_detect w = (Return c, w') -> es_path c = [] \/ verified (es_path c)).
Proof.
  assert (H : forall env_override p w w',
             _find_es_exe env_override w = (Return p, w') ->
             p = [] \/ verified_at p w').
  { intros ov p w w' Hf. destruct p as [| x p]; [now left | right].
    apply (find_es_exe_verified _ _ _ _ Hf). discriminate. }
  split; [exact H |].
  intros w c w' Ha. destruct (auto_detect_es_path _ _ _ Ha) as [w1 Hf].
  destruct (H _ _ _ _ Hf) as [? | Hv]; [now left | right; now exists w1].
Qed.
End DiscoveryProperties.

(** ** Instance detection and the connectivity test *)

Section ConnectionProperties.
Context {U : Unicode} {P : Platform} {World : Type} {O : OS World}.

Lemma version_probe_unfold (argv : list str) (t : Z) (w : World) :
  version_probe argv t w =
    match subprocess_run argv t _CREATE_NO_WINDOW w with
    | (Return r, w1) => (Return (Some r), w1)
    | (Raise e, w1) =>
        if caught_by spawn_errors e then (Return None, w1) else (Raise e, w1)
    end.
Proof.
  unfold version_probe, try_except, try_, bind, ret.
  destruct (subprocess_run argv t _CREATE_NO_WINDOW w) as [[r | e] w1]; [reflexivity |].
  cbn [handler_for]. destruct (caught_by spawn_errors e); reflexivity.
Qed.

Lemma answered_true (r : option CompletedProcess) :
  answered r = true ->
  exists result, r = Some result /\ returncode result = 0 /\ strip (stdout result) <> [].
Proof.
  destruct r as [result |]; [| discriminate]. cbn [answered].
  intros H. apply andb_true_iff in H as [Hrc Hout].
  exists result. split; [reflexivity |].
  split; [now apply Z.eqb_eq | now apply truthy_true].
Qed.

Lemma detect_instance_cases (es_path i : str) (w w' : World) :
  _detect_instance es_path w = (Return i, w') ->
  i = [] \/
  (i = lit "1.5a" /\
   exists w1 result,
     subprocess_run (alpha_query es_path) 5 _CREATE_NO_WINDOW w1 = (Return result, w') /\
     returncode result = 0 /\ strip (stdout result) <> []).
Proof.
  unfold _detect_instance, bind, ret.
  destruct (version_probe _ 5 w) as [[r | e] w1]; [| discriminate].
  destruct (answered r); [intros H; injection H as <- _; now left |].
  destruct (version_probe _ 5 w1) as [[r2 | e] w2] eqn:Hp; [| discriminate].
  destruct (answered r2) eqn:Ha; [| intros H; injection H as <- _; now left].
  intros H. injection H as <- <-. right. split; [reflexivity |].
  destruct (answered_true _ Ha) as (result & -> & Hrc & Hout).
  exists w1, result. split; [| split; assumption].
  rewrite version_probe_unfold in Hp. unfold alpha_query.
  destruct (subprocess_run _ 5 _CREATE_NO_WINDOW w1) as [[r' | e] w3].
  - now injection Hp as <- <-.
  - destruct (caught_by spawn_errors e); discriminate.
Qed.

(** X19: the instance of a configuration.  [_detect_instance] answers
    with the empty name or with "1.5a", and with "1.5a" only when the
    version query for that instance exited with code 0 and printed
    something.  In the configuration of [auto_detect] the instance is the
    one of EVERYTHING_INSTANCE when that is set, and otherwise the empty
    name or "1.5a".  When EVERYTHING_INSTANCE is set and es.exe was found,
    detection is not run: [auto_detect] is the connectivity test of that
    instance, run in the world that discovery left.  When it is not set,
    [auto_detect] is the detection, run in the world that discovery left,
    followed by the connectivity test of the instance it answered. *)
Theorem instance_rule :
  (forall es_path i w w',
     _detect_instance es_path w = (Return i, w') ->
     i = [] \/
     (i = lit "1.5a" /\
      exists w1 result,
        subprocess_run (alpha_query es_path) 5 _CREATE_NO_WINDOW w1
          = (Return result, w') /\
        returncode result = 0 /\ strip (stdout result) <> [])) /\
  (forall w c w',
     auto_detect w = (Return c, w') ->
     let env_instance := env_stripped "EVERYTHING_INSTANCE" w in
     (env_instance <> [] -> instance c = env_instance) /\
     (env_instance = [] -> instance c = [] \/ instance c = lit "1.5a")) /\
  (forall w found w1,
     _find_es_exe (env_stripped "EVERYTHING_ES_PATH" w) w = (Return found, w1) ->
     found <> [] ->
     let env_instance := env_stripped "EVERYTHING_INSTANCE" w in
     let config := set_es_path EverythingConfig_default found in
     (env_instance <> [] ->
      auto_detect w = record_connection (set_instance config env_instance) w1) /\
     (env_instance = [] ->
      auto_detect w
        = (i <- _detect_instance found ;; record_connection (set_instance config i)) w1)).
Proof.
  split; [exact detect_instance_cases |]. split.
  - intros w c w' Ha. cbv zeta.
    assert (Hinit : instance (initial_config w) = env_stripped "EVERYTHING_INSTANCE" w).
    { unfold initial_config.
      destruct (env_stripped "EVERYTHING_INSTANCE" w); reflexivity. }
    rewrite auto_detect_unfold in Ha.
    destruct (_find_es_exe _ w) as [[found | e] w1]; [| discriminate].
    cbv zeta in Ha. destruct (negb (truthy found)).
    { injection Ha as <- _. cbn [instance errors_append set_es_path]. rewrite Hinit.
      split; [reflexivity | now left]. }
    assert (Hc1 : forall c1 w2,
               detect_instance_if_unset (set_es_path (initial_config w) found) w1
                 = (Return c1, w2) ->
               (env_stripped "EVERYTHING_INSTANCE" w <> [] ->
                instance c1 = env_stripped "EVERYTHING_INSTANCE" w) /\
               (env_stripped "EVERYTHING_INSTANCE" w = [] ->
                instance c1 = [] \/ instance c1 = lit "1.5a")).
    { intros c1 w2. unfold detect_instance_if_unset. cbn [instance set_es_path].
      rewrite Hinit.
      destruct (env_stripped "EVERYTHING_INSTANCE" w) as [| x env] eqn:Henv;
        cbn [truthy negb].
      - unfold bind, ret.
        destruct (_detect_instance _ w1) as [[i | e] w3] eqn:Hd; [| discriminate].
        intros H. injection H as <- _. cbn [instance set_instance].
        split; [congruence |]. intros _.
        destruct (detect_instance_cases _ _ _ _ Hd) as [-> | [-> _]]; auto.
      - intros H. injection H as <- _. cbn [instance set_es_path].
        rewrite Hinit. split; [reflexivity | discriminate]. }
    destruct (detect_instance_if_unset _ w1) as [[c1 | e] w2]; [| discriminate].
    specialize (Hc1 c1 w2 eq_refl).
    destruct (_test_connection _ _ w2) as [[[[|] info] | e] w3]; try discriminate;
      injection Ha as <- _; exact Hc1.
  - intros w found w1 Hfind Hfound. cbv zeta.
    rewrite auto_detect_unfold, Hfind. cbv zeta.
    replace (truthy found) with true by (symmetry; now apply truthy_true).
    cbn [negb]. unfold initial_config, detect_instance_if_unset. cbv zeta.
    split; intros Henv.
    + destruct (env_stripped "EVERYTHING_INSTANCE" w) as [| x env]; [congruence |].
      cbn [truthy negb instance set_es_path set_instance]. unfold record_connection.
      unfold bind, ret.
      cbn [es_path instance set_es_path set_instance EverythingConfig_default].
      destruct (_test_connection _ _ w1) as [[[[|] info] | e] w3]; reflexivity.
    + rewrite Henv.
      cbn [truthy negb instance set_es_path set_instance EverythingConfig_default].
      unfold record_connection, bind, ret.
      cbn [es_path instance set_es_path set_instance EverythingConfig_default].
      destruct (_detect_instance found w1) as [[i | e] w2]; [| reflexivity].
      cbn [es_path instance set_es_path set_instance EverythingConfig_default].
      destruct (_test_connection _ _ w2) as [[[[|] info] | e] w3]; reflexivity.
Qed.

Lemma test_connection_unfold (es_path instance : str) (w : World) :
  _test_connection es_path instance w =
    match version_probe (connection_base es_path instance
                         ++ [lit "-get-everything-version"]) 10 w with
    | (Raise e, w1) => (Raise e, w1)
    | (Return r, w1) =>
        match (if answered r then r else None) with
        | Some result => (Return (true, lit "Everything v" ++ strip (stdout result)), w1)
        | None =>
            match subprocess_run (listing_query es_path instance) 10
                                 _CREATE_NO_WINDOW w1 with
            | (Return result, w2) =>
                if returncode result =? 0
                then (Return (true, lit "Everything connected (version unknown)"), w2)
                else (Return (false,
                              str_or (strip (stderr result))
                                (str_or (strip (stdout result)) (lit "Unknown error"))),
                      w2)
            | (Raise e, w2) =>
                if caught_by [TimeoutExpired] e
                then (Return (false, lit "Connection timed out"), w2)
                else if caught_by [FileNotFoundError] e
                then (Return (false, lit "es.exe not found at " ++ es_path), w2)
                else if caught_by [OSError] e
                then (Return (false, exn_message e), w2)
                else (Raise e, w2)
            end
        end
    end.
Proof.
  unfold _test_connection, listing_query, connection_base. cbv zeta.
  unfold bind at 1.
  destruct (version_probe _ 10 w) as [[r | e] w1]; [| reflexivity].
  destruct (if answered r then r else None) as [result |]; [reflexivity |].
  unfold try_, bind, ret.
  destruct (subprocess_run _ 10 _CREATE_NO_WINDOW w1) as [[result | e] w2].
  - destruct (returncode result =? 0); reflexivity.
  - cbn [handler_for].
    destruct (caught_by [TimeoutExpired] e); [reflexivity |].
    destruct (caught_by [FileNotFoundError] e); [reflexivity |].
    destruct (caught_by [OSError] e); reflexivity.
Qed.


Lemma str_or_nonempty_r (a b : str) : b <> [] -> str_or a b <> [].
Proof. unfold str_or. destruct a; simpl; [trivial | discriminate]. Qed.

(** The cases of the listing query of [_test_connection], which are the
    same whether the version query did not answer or could not be run. *)
Ltac split_listing_ :=
  match goal with
  | |- context [subprocess_run (listing_query ?p ?i) 10 _CREATE_NO_WINDOW ?w1] =>
      let result := fresh "result" in
      let e := fresh "e" in
      let w2 := fresh "w2" in
      let Hl := fresh "Hl" in
      destruct (subprocess_run (listing_query p i) 10 _CREATE_NO_WINDOW w1)
        as [[result | e] w2] eqn:Hl;
      [ destruct (Z.eqb_spec (returncode result) 0) as [Hrc | Hrc];
        [ split; [| split; discriminate];
          let info := fresh "info" in
          let H := fresh "H" in
          intros info H; injection H as <- <-;
          exists w1, result; split; [exact Hrc |]; right; auto
        | split; [discriminate |]; split; [| discriminate];
          let info := fresh "info" in
          let H := fresh "H" in
          intros info H; injection H as <- _; left;
          apply str_or_nonempty_r, str_or_nonempty_r; discriminate ]
      | destruct (caught_by [TimeoutExpired] e) eqn:Ht;
        [ split; [discriminate |]; split; [| discriminate];
          let info := fresh "info" in
          let H := fresh "H" in
          intros info H; injection H as <- _; left; discriminate |];
        destruct (caught_by [FileNotFoundError] e) eqn:Hf;
        [ split; [discriminate |]; split; [| discriminate];
          let info := fresh "info" in
          let H := fresh "H" in
          intros info H; injection H as <- _; left; discriminate |];
        destruct (caught_by [OSError] e) eqn:Ho;
        [ split; [discriminate |]; split; [| discriminate];
          let info := fresh "info" in
          let H := fresh "H" in
          intros info H; injection H as <- <-;
          destruct (exn_message e) eqn:Hm; [right; exists w1, e; auto | left; discriminate]
        | split; [discriminate |]; split; [discriminate |];
          let e' := fresh "e" in
          let H := fresh "H" in
          intros e' H; injection H as <- _;
          destruct e as [[] msg]; try discriminate; reflexivity ] ]
  end.

(** X20: the connectivity test.  It answers true only when the version
    query or the one-result listing exited with code 0.  When it answers
    false it gives a reason that is not empty (the output of the listing,
    or "Unknown error" when that is blank, a timeout or a missing
    executable), unless the reason is the text of an [OSError] that has
    none.  No timeout, missing file or other [OSError] leaves it. *)
Theorem test_connection_answers (es_path instance : str) (w w' : World) :
  (forall info,
     _test_connection es_path instance w = (Return (true, info), w') ->
     exists w0 result,
       returncode result = 0 /\
       ((subprocess_run (connection_base es_path instance
                         ++ [lit "-get-everything-version"]) 10 _CREATE_NO_WINDOW w0
           = (Return result, w') /\
         strip (stdout result) <> [] /\
         info = lit "Everything v" ++ strip (stdout result)) \/
        (subprocess_run (listing_query es_path instance) 10 _CREATE_NO_WINDOW w0
           = (Return result, w') /\
         info = lit "Everything connected (version unknown)"))) /\
  (forall info,
     _test_connection es_path instance w = (Return (false, info), w') ->
     info <> [] \/
     exists w0 e,
       subprocess_run (listing_query es_path instance) 10 _CREATE_NO_WINDOW w0
         = (Raise e, w') /\
       caught_by [OSError] e = true /\ exn_message e = []) /\
  (forall e,
     _test_connection es_path instance w = (Raise e, w') ->
     caught_by spawn_errors e = false).
Proof.
  rewrite test_connection_unfold, version_probe_unfold.
  destruct (subprocess_run _ 10 _CREATE_NO_WINDOW w) as [[r | e0] w1] eqn:Hq.
  - destruct (answered (Some r)) eqn:Ha.
    + destruct (answered_true _ Ha) as (result & Hr & Hrc & Hout).
      injection Hr as <-.
      split; [| split]; [| discriminate | discriminate].
      intros info H. injection H as <- <-.
      exists w, r. split; [exact Hrc |]. left. auto.
    + split_listing_.
  - destruct (caught_by spawn_errors e0) eqn:Hc0.
    + cbn [answered]. split_listing_.
    + split; [discriminate |]. split; [discriminate |].
      intros e H. injection H as <- _. exact Hc0.
Qed.
End ConnectionProperties.

(** The commands that [auto_detect] runs, on a machine that records them.
    With EVERYTHING_INSTANCE set there are two: the verification of the
    path found and the connectivity test of that instance.  Without it
    there are three: the detection comes between them. *)
Example commands_of_auto_detect :
  let U := ascii_unicode in
  let P := demo_platform WindowsFlavour true in
  let es := lit "C:\es.exe" in
  let config := set_es_path EverythingConfig_default es in
  @auto_detect U P _ (recording_OS (lit "custom")) []
    = (Return (set_version_info (set_instance config (lit "custom"))
                 (lit "Everything v1.4.1.1024")),
       [ [es; lit "-get-everything-version"];
         [es; lit "-instance"; lit "custom"; lit "-get-everything-version"] ]) /\
  @auto_detect U P _ (recording_OS []) []
    = (Return (set_version_info config (lit "Everything v1.4.1.1024")),
       [ [es; lit "-get-everything-version"];
         [es; lit "-get-everything-version"];
         [es; lit "-get-everything-version"] ]).
Proof. split; vm_compute; reflexivity. Qed.

(** ** What a valid configuration stands for *)

Section ValidConfiguration.
Context {U : Unicode} {P : Platform} {World : Type} {O : OS World}.

Lemma detect_instance_if_unset_limits (c c1 : EverythingConfig) (w w1 : World) :
  detect_instance_if_unset c w = (Return c1, w1) ->
  timeout c1 = timeout c /\ max_results_cap c1 = max_results_cap c /\
  warnings c1 = warnings c.
Proof.
  unfold detect_instance_if_unset, bind, ret. destruct (negb _).
  - destruct (_detect_instance (es_path c) w) as [[i | e] w']; intros H;
      inversion H; subst; auto.
  - intros H; inversion H; subst; auto.
Qed.

Lemma initial_config_limits (w : World) :
  timeout (initial_config w) = 30 /\ max_results_cap (initial_config w) = 1000 /\
  warnings (initial_config w) = [].
Proof. unfold initial_config. destruct (truthy _); auto. Qed.

(** X21: a valid configuration of [auto_detect] is one whose es.exe
    passed verification and whose connectivity test, run with the very
    path and instance of the configuration, answered true as the last
    step; its version text is the answer of that test.  The timeout is 30
    seconds and the result cap 1000, valid or not. *)
Theorem valid_configuration (w w' : World) (c : EverythingConfig) :
  auto_detect w = (Return c, w') ->
  timeout c = 30 /\ max_results_cap c = 1000 /\ warnings c = [] /\
  (is_valid c = true ->
   verified (es_path c) /\
   exists w2, _test_connection (es_path c) (instance c) w2
                = (Return (true, version_info c), w')).
Proof.
  intros Ha. pose proof Ha as Ha'. rewrite auto_detect_unfold in Ha'.
  destruct (_find_es_exe _ w) as [[found | e] w1] eqn:Hfind; [| discriminate].
  cbv zeta in Ha'.
  destruct (initial_config_limits w) as (Ht & Hcap & Hwarn).
  destruct (truthy found) eqn:Hfound; cbn [negb] in Ha'.
  2: { injection Ha' as <- _. cbn. rewrite Ht, Hcap, Hwarn.
       do 3 (split; [reflexivity |]).
       intros Hv. rewrite errors_append_invalid in Hv. discriminate. }
  destruct (detect_instance_if_unset _ w1) as [[c1 | e] w2] eqn:Hd; [| discriminate].
  destruct (detect_instance_if_unset_limits _ _ _ _ Hd) as (Ht1 & Hcap1 & Hwarn1).
  destruct (detect_instance_if_unset_keeps _ _ Hd) as [Hp1 _].
  cbn [timeout max_results_cap warnings es_path set_es_path] in Ht1, Hcap1, Hwarn1, Hp1.
  destruct (_test_connection _ _ w2) as [[[[|] info] | e] w3] eqn:Htest;
    try discriminate; injection Ha' as <- <-.
  - cbn [timeout max_results_cap warnings es_path instance version_info set_version_info].
    rewrite Ht1, Hcap1, Hwarn1, Ht, Hcap, Hwarn.
    do 3 (split; [reflexivity |]).
    intros _. split.
    + rewrite Hp1. exists w1. apply (find_es_exe_verified _ _ _ _ Hfind).
      now apply truthy_true.
    + exists w2. exact Htest.
  - cbn [timeout max_results_cap warnings errors_append].
    rewrite Ht1, Hcap1, Hwarn1, Ht, Hcap, Hwarn.
    do 3 (split; [reflexivity |]).
    intros Hv. rewrite errors_append_invalid in Hv. discriminate.
Qed.
End ValidConfiguration.

Lemma valid_configuration_witness :
  let U := ascii_unicode in
  let P := demo_platform WindowsFlavour true in
  let O := machine_OS (installed (lit "C:\es.exe") prints_version) in
  exists c,
    @auto_detect U P unit O tt = (Return c, tt) /\
    is_valid c = true /\
    @verified U P unit O (es_path c) /\
    version_info c = lit "Everything v1.4.1.1024".
Proof.
  intros U P O. eexists. split; [vm_compute; reflexivity |].
  split; [vm_compute; reflexivity |].
  split; [| vm_compute; reflexivity].
  refine (proj1 (proj2 (proj2 (proj2 (@valid_configuration U P unit O tt tt _ _))) _));
    vm_compute; reflexivity.
Defined.

(** ** The other search tools *)

Lemma lookup_not_in (table : list (string * string)) (key : str) :
  ~ In key (keys table) -> lookup table key = None.
Proof.
  intros Hk. unfold lookup.
  destruct (find _ table) as [kv |] eqn:Hf; [| reflexivity].
  exfalso. apply Hk. apply find_some in Hf as [Hin Heq].
  apply str_eqb_eq in Heq. rewrite <- Heq.
  unfold keys. apply in_map_iff. exists kv. auto.
Qed.

Section SearchRuns.
Context {U : Unicode} {P : Platform} {World : Type} {O : OS World}.

(** [search], as the run of its command line. *)
Lemma search_unfold (config : EverythingConfig) (query : str) (max_results : Z)
      (sort : str) (mc mw mr mp : bool) (offset : Z) (w : World) :
  search config query max_results sort mc mw mr mp offset w =
    match _run config (search_argv config query max_results sort mc mw mr mp offset) w with
    | (Return (out, err, rc), w1) =>
        if rc =? 0 then _parse_paths_and_stat out w1
        else (Raise (search_failure out err rc), w1)
    | (Raise e, w1) => (Raise e, w1)
    end.
Proof.
  unfold search, search_argv, bind, raise.
  assert (Hcmd : forall c1 c2 : list str, c1 = c2 ->
             _run config c1 w = _run config c2 w) by (intros ? ? ->; reflexivity).
  match goal with
  | |- context [_run config ?c w] =>
      rewrite (Hcmd c (_base_cmd config
                       ++ [lit "-n"; str_of_int (Z.min max_results (max_results_cap config))]
                       ++ (if 0 <? offset then [lit "-o"; str_of_int offset] else [])
                       ++ [lit "-sort"; sort_value sort]
                       ++ (if mc then [lit "-case"] else [])
                       ++ (if mw then [lit "-w"] else [])
                       ++ (if mr then [lit "-r"] else [])
                       ++ (if mp then [lit "-p"] else [])
                       ++ [query]))
  end.
  2: { destruct (0 <? offset), mc, mw, mr, mp; cbn [app];
         rewrite <- ?app_assoc; reflexivity. }
  destruct (_run config _ w) as [[[[out err] rc] | e] w1]; [| reflexivity].
  destruct (rc =? 0); reflexivity.
Qed.

(** X22: no exception derived from [Exception] leaves the search by
    file type: it always answers with a text.  With an unknown
    category the answer is the error that lists the known ones and no
    process is started; otherwise the answer is the one of the search for
    the category's query, sorted as asked, with no offset. *)
Theorem search_by_type_answers (_backend : option EverythingBackend)
        (_config : option EverythingConfig) (params : SearchByTypeInput.t)
        (w : World) :
  exists text w',
    everything_search_by_type _backend _config params w = (Return text, w') /\
    (forall e, _get_backend _backend _config = Raise e ->
               text = lit "Error: " ++ exn_message e /\ w' = w) /\
    (forall backend,
       _get_backend _backend _config = Return backend ->
       (~ In (strip (lower (SearchByTypeInput.file_type params))) (keys FILE_TYPES) ->
        text = lit "Error: Unknown file type '" ++ SearchByTypeInput.file_type params
               ++ lit "'. Available: 3d, archive, audio, code, data, document, executable, font, image, video"
        /\ w' = w) /\
       (forall q,
          build_type_query (SearchByTypeInput.file_type params)
                           (SearchByTypeInput.query params)
                           (SearchByTypeInput.path params) = Return q ->
          match search backend q (SearchByTypeInput.max_results params)
                       (SearchByTypeInput.sort params) false false false false 0 w with
          | (Raise e, w1) => text = lit "Error: " ++ exn_message e /\ w' = w1
          | (Return results, w1) =>
              w' = w1 /\
              exists label,
                startswith (lit "type:" ++ SearchByTypeInput.file_type params) label = true /\
                match _format_search_results results label
                        (SearchByTypeInput.max_results params) 0 with
                | Return listing => text = listing
                | Raise e => text = lit "Error: " ++ exn_message e
                end
          end)).
Proof.
  unfold everything_search_by_type, try_except, try_, bind, lift.
  destruct (_get_backend _backend _config) as [backend | e0].
  2: { cbn [handler_for]. rewrite except_Exception_catches_all.
       eexists _, w. split; [reflexivity |].
       split; [| discriminate].
       intros e He. injection He as <-. split; reflexivity. }
  destruct (build_type_query _ _ _) as [q | e] eqn:Hq.
  2: { cbn [handler_for]. rewrite except_Exception_catches_all.
       eexists _, w. split; [reflexivity |].
       split; [discriminate |].
       intros b Hb. injection Hb as <-. split; [| discriminate].
       intros Hk. split; [| reflexivity].
       unfold build_type_query in Hq. rewrite (lookup_not_in _ _ Hk) in Hq.
       injection Hq as <-. reflexivity. }
  assert (Hknown : ~ ~ In (strip (lower (SearchByTypeInput.file_type params)))
                         (keys FILE_TYPES)).
  { intros Hk. unfold build_type_query in Hq.
    rewrite (lookup_not_in _ _ Hk) in Hq. discriminate. }
  destruct (search backend q _ _ _ _ _ _ _ w) as [[results | e] w1] eqn:Hs.
  - destruct (_format_search_results results _ _ _) as [listing | e] eqn:Hf.
    + eexists _, w1. split; [reflexivity |].
      split; [discriminate |].
      intros b Hb. injection Hb as <-. split; [intros Hk; now destruct Hknown |].
      intros q' Hq'. injection Hq' as <-. rewrite Hs. split; [reflexivity |].
      eexists. split; [apply startswith_app |]. rewrite <- app_assoc.
      rewrite Hf. reflexivity.
    + cbn [handler_for]. rewrite except_Exception_catches_all.
      eexists _, w1. split; [reflexivity |].
      split; [discriminate |].
      intros b Hb. injection Hb as <-. split; [intros Hk; now destruct Hknown |].
      intros q' Hq'. injection Hq' as <-. rewrite Hs. split; [reflexivity |].
      eexists. split; [apply startswith_app |]. rewrite <- app_assoc.
      rewrite Hf. reflexivity.
  - cbn [handler_for]. rewrite except_Exception_catches_all.
    eexists _, w1. split; [reflexivity |].
    split; [discriminate |].
    intros b Hb. injection Hb as <-. split; [intros Hk; now destruct Hknown |].
    intros q' Hq'. injection Hq' as <-. rewrite Hs. split; reflexivity.
Qed.
End SearchRuns.

Lemma build_recent_query_starts (period path_filter extensions : str) :
  exists rest, build_recent_query period path_filter extensions = lit "dm:" ++ rest.
Proof.
  unfold build_recent_query.
  destruct (truthy path_filter), (truthy extensions);
    try destruct (truthy (normalize_extensions extensions));
    cbn [app join]; rewrite <- ?app_assoc; eexists; reflexivity.
Qed.

Section RecentRuns.
Context {U : Unicode} {P : Platform} {World : Type} {O : OS World}.

(** Rewrite the run of the goal with what is known of it. *)
Ltac rewrite_run H :=
  match goal with
  | |- context [_run ?c ?cmd ?w] =>
      let E := fresh "E" in
      assert (E : _run c cmd w = _) by exact H; rewrite E; clear E
  end.

(** X23: no exception derived from [Exception] leaves the search for
    recent files: it always answers with a text.  It always asks es.exe
    for the newest first: the command ends with [-sort
    date-modified-descending] and the query, and the query starts with
    the [dm:] clause of the period.  A failure of the run comes back as
    "Error: " and its message. *)
Theorem find_recent_runs_newest_first (_backend : option EverythingBackend)
        (_config : option EverythingConfig) (params : FindRecentInput.t)
        (w : World) :
  exists text w',
    everything_find_recent _backend _config params w = (Return text, w') /\
    (forall e, _get_backend _backend _config = Raise e ->
               text = lit "Error: " ++ exn_message e /\ w' = w) /\
    (forall backend,
       _get_backend _backend _config = Return backend ->
       exists before query,
         hd_error before = Some (es_path backend) /\
         startswith (lit "dm:") query = true /\
         ends_with query (FindRecentInput.query params) /\
         match _run backend
                 (before ++ [lit "-sort"; lit "date-modified-descending"; query]) w with
         | (Raise e, w1) => text = lit "Error: " ++ exn_message e /\ w' = w1
         | (Return (out, err, 0), w1) => w' = snd (_parse_paths_and_stat out w1)
         | (Return (out, err, rc), w1) =>
             text = lit "Error: " ++ exn_message (search_failure out err rc) /\ w' = w1
         end).
Proof.
  unfold everything_find_recent, try_except, try_, bind, lift.
  destruct (_get_backend _backend _config) as [backend | e0].
  2: { cbn [handler_for]. rewrite except_Exception_catches_all.
       eexists _, w. split; [reflexivity |].
       split; [| discriminate].
       intros e He. injection He as <-. split; reflexivity. }
  cbv zeta.
  set (query := if truthy (FindRecentInput.query params)
                then build_recent_query (FindRecentInput.period params)
                       (FindRecentInput.path params) (FindRecentInput.extensions params)
                     ++ lit " " ++ FindRecentInput.query params
                else build_recent_query (FindRecentInput.period params)
                       (FindRecentInput.path params) (FindRecentInput.extensions params)).
  assert (Hstart : startswith (lit "dm:") query = true).
  { destruct (build_recent_query_starts (FindRecentInput.period params)
                (FindRecentInput.path params) (FindRecentInput.extensions params))
      as [rest Hrest].
    unfold query. rewrite Hrest.
    destruct (truthy (FindRecentInput.query params));
      rewrite <- ?app_assoc; apply startswith_app. }
  assert (Hend : ends_with query (FindRecentInput.query params)).
  { unfold query. destruct (FindRecentInput.query params) as [| c q] eqn:Hq.
    - eexists. symmetry. apply app_nil_r.
    - cbn [truthy]. apply ends_with_app, ends_with_app, ends_with_refl. }
  set (before := _base_cmd backend
                   ++ [lit "-n";
                       str_of_int (Z.min (FindRecentInput.max_results params)
                                         (max_results_cap backend))]).
  assert (Hargv : search_argv backend query (FindRecentInput.max_results params)
                    (lit "date-modified-desc") false false false false 0
                  = before ++ [lit "-sort"; lit "date-modified-descending"; query]).
  { unfold search_argv, before. cbn [Z.ltb Z.compare app].
    rewrite <- !app_assoc. reflexivity. }
  assert (Hhd : hd_error before = Some (es_path backend)) by reflexivity.
  rewrite search_unfold, Hargv.
  destruct (_run backend _ w) as [[[[out err] rc] | e] w1] eqn:Hrun.
  - destruct (Z.eqb_spec rc 0) as [-> | Hrc].
    + destruct (_parse_paths_and_stat out w1) as [[results | e] w2] eqn:Hp.
      * destruct (_format_search_results results _ _ _) as [listing | e].
        -- eexists _, w2. split; [reflexivity |]. split; [discriminate |].
           intros b Hb. injection Hb as <-. exists before, query.
           do 3 (split; [assumption |]). rewrite_run Hrun. rewrite Hp. reflexivity.
        -- cbn [handler_for]. rewrite except_Exception_catches_all.
           eexists _, w2. split; [reflexivity |]. split; [discriminate |].
           intros b Hb. injection Hb as <-. exists before, query.
           do 3 (split; [assumption |]). rewrite_run Hrun. rewrite Hp. reflexivity.
      * cbn [handler_for]. rewrite except_Exception_catches_all.
        eexists _, w2. split; [reflexivity |]. split; [discriminate |].
        intros b Hb. injection Hb as <-. exists before, query.
        do 3 (split; [assumption |]). rewrite_run Hrun. rewrite Hp. reflexivity.
    + cbn [handler_for]. rewrite except_Exception_catches_all.
      eexists _, w1. split; [reflexivity |]. split; [discriminate |].
      intros b Hb. injection Hb as <-. exists before, query.
      do 3 (split; [assumption |]). rewrite_run Hrun.
      destruct rc; [congruence | split; reflexivity | split; reflexivity].
  - cbn [handler_for]. rewrite except_Exception_catches_all.
    eexists _, w1. split; [reflexivity |]. split; [discriminate |].
    intros b Hb. injection Hb as <-. exists before, query.
    do 3 (split; [assumption |]). rewrite_run Hrun. split; reflexivity.
Qed.
End RecentRuns.

(** ** Count and size statistics *)

Lemma str_eqb_refl (a : str) : str_eqb a a = true.
Proof. now apply str_eqb_eq. Qed.

Lemma str_eqb_neq (a b : str) : str_eqb a b = false <-> a <> b.
Proof.
  split.
  - intros H E. apply str_eqb_eq in E. congruence.
  - intros H. destruct (str_eqb a b) eqn:E; [| reflexivity].
    apply str_eqb_eq in E. contradiction.
Qed.

(** Reading a dictionary after an assignment. *)
Lemma obj_get_set (d : obj) (k k' : str) (v : json) :
  obj_get (obj_set d k v) k' = if str_eqb k k' then Some v else obj_get d k'.
Proof.
  unfold obj_get, obj_set.
  destruct (existsb (fun kv => str_eqb (fst kv) k) d) eqn:Hex.
  - destruct (str_eqb k k') eqn:Hk.
    + apply str_eqb_eq in Hk. subst k'.
      induction d as [| [a x] d IH]; [discriminate |].
      cbn [existsb fst] in Hex. cbn [map fst].
      destruct (str_eqb a k) eqn:Ha.
      * cbn [find fst]. rewrite str_eqb_refl. reflexivity.
      * cbn [find fst]. rewrite Ha. apply IH. exact Hex.
    + clear Hex. induction d as [| [a x] d IH]; [reflexivity |].
      cbn [map fst]. destruct (str_eqb a k) eqn:Ha.
      * apply str_eqb_eq in Ha. subst a.
        cbn [find fst]. rewrite Hk. exact IH.
      * cbn [find fst]. destruct (str_eqb a k'); [reflexivity | exact IH].
  - induction d as [| [a x] d IH].
    + cbn [app find fst]. destruct (str_eqb k k'); reflexivity.
    + cbn [existsb fst] in Hex. apply orb_false_iff in Hex as [Ha Hex].
      cbn [app find fst]. destruct (str_eqb a k') eqn:Ha'.
      * apply str_eqb_eq in Ha'. subst a. rewrite (proj2 (str_eqb_neq k k')).
        -- reflexivity.
        -- apply str_eqb_neq in Ha. congruence.
      * apply IH. exact Hex.
Qed.

(** Decide the comparisons of literal keys, after [obj_get_set]. *)
Ltac literal_keys :=
  repeat match goal with
         | |- context [str_eqb (lit ?a) (lit ?b)] =>
             let r := eval vm_compute in (str_eqb (lit a) (lit b)) in
             change (str_eqb (lit a) (lit b)) with r
         end;
  cbv iota.

(** Two literal keys differ. *)
Ltac key_neq :=
  let E := fresh "E" in intros E; vm_compute in E; discriminate E.

Section StatsProperties.
Context {U : Unicode} {P : Platform} {World : Type} {O : OS World}.

Lemma count_block_unfold (backend : EverythingBackend) (query : str) (output : obj)
      (w : World) :
  count_block backend query output w =
    match count backend query w with
    | (Return n, w1) => (Return (obj_set output (lit "total_count") (JInt n)), w1)
    | (Raise _, w1) =>
        (Return (obj_set output (lit "count_note")
                   (JStr (lit "Count not available (es.exe may not support -get-result-count)"))),
         w1)
    end.
Proof.
  unfold count_block, try_except, try_, bind, ret.
  destruct (count backend query w) as [[n | e] w1]; [reflexivity |].
  cbn [handler_for]. now rewrite except_Exception_catches_all.
Qed.

Lemma size_block_unfold (backend : EverythingBackend) (query : str) (output : obj)
      (w : World) :
  size_block backend query output w =
    match get_total_size backend query w with
    | (Return total, w1) =>
        (Return
           (if 0 <=? total then
              match human_size total with
              | Return h =>
                  obj_set (obj_set output (lit "total_size") (JInt total))
                          (lit "total_size_human") (JStr h)
              | Raise _ =>
                  obj_set (obj_set output (lit "total_size") (JInt total))
                          (lit "size_note") (JStr (lit "Total size not available"))
              end
            else output), w1)
    | (Raise _, w1) =>
        (Return (obj_set output (lit "size_note")
                   (JStr (lit "Total size not available"))), w1)
    end.
Proof.
  unfold size_block, try_except, try_, bind, ret. cbv zeta.
  destruct (get_total_size backend query w) as [[total | e] w1].
  - destruct (0 <=? total); [| reflexivity].
    destruct (human_size total); reflexivity.
  - cbn [handler_for]. now rewrite except_Exception_catches_all.
Qed.

(** The breakdown touches three keys and no other. *)
Lemma breakdown_block_keeps (backend : EverythingBackend) (query : str) (output : obj)
      (w : World) :
  exists output' w',
    breakdown_block backend query output w = (Return output', w') /\
    forall k,
      k <> lit "extension_breakdown" -> k <> lit "breakdown_note" ->
      k <> lit "breakdown_error" ->
      obj_get output' k = obj_get output k.
Proof.
  unfold breakdown_block, try_except, try_, bind, ret, lift.
  assert (Hne : forall a b : str, b <> a -> str_eqb a b = false).
  { intros a b H. apply str_eqb_neq. congruence. }
  destruct (search backend query _ _ _ _ _ _ _ w) as [[results | e] w1].
  - destruct (sample_results results [] 0) as [stats sampled_files].
    destruct (breakdown_of _ []) as [breakdown | e].
    + eexists _, w1. split; [reflexivity |].
      intros k H1 H2 H3. rewrite !obj_get_set, (Hne _ _ H1), (Hne _ _ H2). reflexivity.
    + cbn [handler_for]. rewrite except_Exception_catches_all.
      eexists _, w1. split; [reflexivity |].
      intros k H1 H2 H3. rewrite obj_get_set, (Hne _ _ H3). reflexivity.
  - cbn [handler_for]. rewrite except_Exception_catches_all.
    eexists _, w1. split; [reflexivity |].
    intros k H1 H2 H3. rewrite obj_get_set, (Hne _ _ H3). reflexivity.
Qed.

(** The three blocks, for a backend that is available. *)
Lemma stats_blocks (backend : EverythingBackend) (params : CountStatsInput.t)
      (w : World) :
  exists output w',
    (output <- count_block backend (CountStatsInput.query params)
                 [(lit "query", JStr (CountStatsInput.query params))] ;;
     output <- (if CountStatsInput.include_size params
                then size_block backend (CountStatsInput.query params) output
                else ret output) ;;
     output <- (if CountStatsInput.breakdown_by_extension params
                then breakdown_block backend (CountStatsInput.query params) output
                else ret output) ;;
     ret (Stats output)) w = (Return (Stats output), w') /\
    obj_get output (lit "query") = Some (JStr (CountStatsInput.query params)) /\
    match count backend (CountStatsInput.query params) w with
    | (Return n, _) =>
        obj_get output (lit "total_count") = Some (JInt n) /\
        obj_get output (lit "count_note") = None
    | (Raise _, _) =>
        obj_get output (lit "total_count") = None /\
        obj_get output (lit "count_note")
          = Some (JStr (lit "Count not available (es.exe may not support -get-result-count)"))
    end /\
    if CountStatsInput.include_size params then
      match get_total_size backend (CountStatsInput.query params)
              (snd (count backend (CountStatsInput.query params) w)) with
      | (Return total, _) =>
          if 0 <=? total
          then obj_get output (lit "total_size") = Some (JInt total)
          else obj_get output (lit "total_size") = None /\
               obj_get output (lit "size_note") = None
      | (Raise _, _) =>
          obj_get output (lit "total_size") = None /\
          obj_get output (lit "size_note")
            = Some (JStr (lit "Total size not available"))
      end
    else obj_get output (lit "total_size") = None /\
         obj_get output (lit "size_note") = None.
Proof.
  unfold bind. rewrite count_block_unfold.
  destruct (CountStatsInput.include_size params).
  - destruct (count backend (CountStatsInput.query params) w) as [[n | ec] w1];
      cbv beta iota; cbn [snd]; rewrite size_block_unfold;
      destruct (get_total_size backend (CountStatsInput.query params) w1)
        as [[total | es] w2];
      try destruct (0 <=? total); try destruct (human_size total) as [h | eh];
      cbv beta iota;
      (destruct (CountStatsInput.breakdown_by_extension params);
       [ match goal with
         | |- context [breakdown_block backend ?q ?out ?w0] =>
             destruct (breakdown_block_keeps backend q out w0)
               as (output' & w3 & Hb & Hkeep);
             rewrite Hb
         end;
         eexists _, _; (split; [reflexivity |]);
         rewrite !Hkeep by key_neq
       | eexists _, _; (split; [reflexivity |]) ]);
      rewrite !obj_get_set; literal_keys; repeat split; reflexivity.
  - destruct (count backend (CountStatsInput.query params) w) as [[n | ec] w1];
      unfold ret at 1; cbv beta iota;
      (destruct (CountStatsInput.breakdown_by_extension params);
       [ match goal with
         | |- context [breakdown_block backend ?q ?out ?w0] =>
             destruct (breakdown_block_keeps backend q out w0)
               as (output' & w3 & Hb & Hkeep);
             rewrite Hb
         end;
         eexists _, _; (split; [reflexivity |]);
         rewrite !Hkeep by key_neq
       | eexists _, _; (split; [reflexivity |]) ]);
      rewrite !obj_get_set; literal_keys; repeat split; reflexivity.
Qed.

(** X24: no exception derived from [Exception] leaves the statistics
    tool, and once the backend is available it always answers with the
    dictionary, whose first key is
    the query.  A count is reported as it came, the sentinel -1 too; a
    failed count leaves only a fixed note, without the message of the
    failure.  A total size is reported only when it is not negative: the
    sentinel -1 is dropped without a note; a failed size query leaves the
    note "Total size not available". *)
Theorem count_stats_answers (_backend : option EverythingBackend)
        (_config : option EverythingConfig) (params : CountStatsInput.t)
        (w : World) :
  exists answer w',
    everything_count_stats _backend _config params w = (Return answer, w') /\
    (forall e, _get_backend _backend _config = Raise e ->
               answer = ErrorText (lit "Error: " ++ exn_message e) /\ w' = w) /\
    (forall backend,
       _get_backend _backend _config = Return backend ->
       exists output,
         answer = Stats output /\
         obj_get output (lit "query") = Some (JStr (CountStatsInput.query params)) /\
         match count backend (CountStatsInput.query params) w with
         | (Return n, _) =>
             obj_get output (lit "total_count") = Some (JInt n) /\
             obj_get output (lit "count_note") = None
         | (Raise _, _) =>
             obj_get output (lit "total_count") = None /\
             obj_get output (lit "count_note")
               = Some (JStr (lit "Count not available (es.exe may not support -get-result-count)"))
         end /\
         if CountStatsInput.include_size params then
           match get_total_size backend (CountStatsInput.query params)
                   (snd (count backend (CountStatsInput.query params) w)) with
           | (Return total, _) =>
               if 0 <=? total
               then obj_get output (lit "total_size") = Some (JInt total)
               else obj_get output (lit "total_size") = None /\
                    obj_get output (lit "size_note") = None
           | (Raise _, _) =>
               obj_get output (lit "total_size") = None /\
               obj_get output (lit "size_note")
                 = Some (JStr (lit "Total size not available"))
           end
         else obj_get output (lit "total_size") = None /\
              obj_get output (lit "size_note") = None).
Proof.
  unfold everything_count_stats, try_except, try_, lift.
  unfold bind at 1.
  destruct (_get_backend _backend _config) as [backend | e0].
  2: { cbn [handler_for]. rewrite except_Exception_catches_all.
       eexists _, w. split; [reflexivity |].
       split; [| discriminate].
       intros e He. injection He as <-. split; reflexivity. }
  cbv zeta.
  destruct (stats_blocks backend params w) as (output & w' & Hrun & Hprops).
  rewrite Hrun.
  exists (Stats output), w'. split; [reflexivity |]. split; [discriminate |].
  intros b Hb. injection Hb as <-. exists output. split; [reflexivity | exact Hprops].
Qed.
End StatsProperties.

Example count_stats_examples :
  let P := demo_platform WindowsFlavour true in
  let params := CountStatsInput.mk (lit "ext:py") true false in
  @everything_count_stats ascii_unicode P unit
     (machine_OS (exits_with [110; 47; 97]%N [] 0))
     (Some demo_config) (Some demo_config) params tt
    = (Return (Stats [ (lit "query", JStr (lit "ext:py"));
                       (lit "total_count", JInt (-1)) ]), tt) /\
  @everything_count_stats ascii_unicode P unit
     (machine_OS (exits_with [] (lit "Error 8") 1))
     (Some demo_config) (Some demo_config) params tt
    = (Return (Stats [ (lit "query", JStr (lit "ext:py"));
                       (lit "count_note",
                        JStr (lit "Count not available (es.exe may not support -get-result-count)"));
                       (lit "size_note", JStr (lit "Total size not available")) ]), tt) /\
  @everything_count_stats ascii_unicode P unit
     (machine_OS (exits_with [52; 50; 10]%N [] 0))
     (Some demo_config) (Some demo_config) params tt
    = (Return (Stats [ (lit "query", JStr (lit "ext:py"));
                       (lit "total_count", JInt 42);
                       (lit "total_size", JInt 42);
                       (lit "total_size_human", JStr (lit "42 B")) ]), tt) /\
  @everything_count_stats ascii_unicode P unit (machine_OS bare_machine)
     (Some demo_config) None params tt
    = (Return (ErrorText (lit "Error: Everything is not available. Not initialised")), tt).
Proof. repeat split; vm_compute; reflexivity. Qed.

(** ** The extension breakdown *)

Lemma ext_stats_add_sum (stats : ext_stats) (ext : str) (size : Z) :
  sum_counts (ext_stats_add stats ext size) = sum_counts stats + 1.
Proof.
  unfold sum_counts.
  induction stats as [| [k [count total]] rest IH]; cbn [ext_stats_add].
  - reflexivity.
  - destruct (str_eqb k ext); cbn [fold_right fst snd] in *; lia.
Qed.

Lemma ext_stats_add_keys (stats : ext_stats) (ext : str) (size : Z) (k : str) :
  In k (map fst (ext_stats_add stats ext size)) -> k = ext \/ In k (map fst stats).
Proof.
  induction stats as [| [a [count total]] rest IH]; cbn [ext_stats_add].
  - intros [<- | []]. now left.
  - destruct (str_eqb a ext); cbn [map fst In].
    + tauto.
    + intros [<- | H]; [right; now left |]. destruct (IH H); tauto.
Qed.

Lemma sample_results_spec (results : list SearchResult) :
  forall stats sampled stats' sampled',
    sample_results results stats sampled = (stats', sampled') ->
    sampled' = sampled + Z.of_nat (List.length (files_of results)) /\
    sum_counts stats' = sum_counts stats + Z.of_nat (List.length (files_of results)) /\
    forall k, In k (map fst stats') ->
              In k (map fst stats) \/
              exists r, In r (files_of results) /\ k = counted_as r.
Proof.
  induction results as [| r rest IH]; intros stats sampled stats' sampled' H.
  - injection H as <- <-. cbn. repeat split; try lia. auto.
  - cbn [sample_results] in H. unfold files_of. cbn [filter].
    destruct (is_dir r) eqn:Hd; cbn [negb].
    + destruct (IH _ _ _ _ H) as (H1 & H2 & H3). repeat split; try assumption.
    + destruct (IH _ _ _ _ H) as (H1 & H2 & H3).
      rewrite ext_stats_add_sum in H2. cbn [List.length].
      split; [fold (files_of rest); lia |]. split; [fold (files_of rest); lia |].
      intros k Hk. destruct (H3 k Hk) as [Hin | (r' & Hr' & ->)].
      * apply ext_stats_add_keys in Hin as [-> | Hin]; [| now left].
        right. exists r. split; [now left | reflexivity].
      * right. exists r'. split; [now right | reflexivity].
Qed.

Lemma insert_by_count_In (x y : str * (Z * Z)) (l : ext_stats) :
  In y (insert_by_count x l) <-> y = x \/ In y l.
Proof.
  induction l as [| z l IH]; cbn [insert_by_count]; [cbn; intuition congruence |].
  destruct (fst (snd z) <=? fst (snd x)); cbn [In]; [intuition congruence |].
  rewrite IH. intuition congruence.
Qed.

Lemma sorted_by_count_In (y : str * (Z * Z)) (l : ext_stats) :
  In y (sorted_by_count l) <-> In y l.
Proof.
  induction l as [| x l IH]; cbn [sorted_by_count fold_right]; [tauto |].
  fold (sorted_by_count l). rewrite insert_by_count_In, IH. cbn. intuition congruence.
Qed.

Lemma In_firstn {A : Type} (n : nat) (l : list A) (x : A) :
  In x (firstn n l) -> In x l.
Proof.
  revert l. induction n as [| n IH]; intros [| y l]; cbn; try tauto.
  intros [-> | H]; [now left | right; now apply IH].
Qed.

Lemma obj_set_length (d : obj) (k : str) (v : json) :
  (List.length (obj_set d k v) <= S (List.length d))%nat.
Proof.
  unfold obj_set. destruct (existsb _ d).
  - rewrite length_map. lia.
  - rewrite length_app. cbn. lia.
Qed.

Lemma obj_set_keys (d : obj) (k : str) (v : json) (k' : str) :
  In k' (map fst (obj_set d k v)) -> k' = k \/ In k' (map fst d).
Proof.
  unfold obj_set. destruct (existsb _ d).
  - rewrite map_map. intros H. apply in_map_iff in H as ([a x] & Ha & Hin).
    cbn [fst] in Ha. destruct (str_eqb a k); cbn [fst] in Ha; subst.
    + now left.
    + right. apply in_map_iff. exists (k', x). auto.
  - rewrite map_app. intros H. apply in_app_or in H as [H | [<- | []]]; auto.
Qed.

Lemma breakdown_of_spec (items : ext_stats) :
  forall acc b,
    breakdown_of items acc = Return b ->
    (List.length b <= List.length acc + List.length items)%nat /\
    forall k, In k (map fst b) -> In k (map fst acc) \/ In k (map fst items).
Proof.
  induction items as [| [ext [count total]] rest IH]; intros acc b H.
  - injection H as <-. split; [lia | auto].
  - cbn [breakdown_of] in H. destruct (human_size total) as [h | e]; [| discriminate].
    destruct (IH _ _ H) as [Hlen Hkeys]. split.
    + pose proof (obj_set_length acc ext
                    (JObj [ (lit "count", JInt count); (lit "total_size", JInt total);
                            (lit "total_size_human", JStr h) ])).
      cbn [List.length]. lia.
    + intros k Hk. destruct (Hkeys k Hk) as [Hin | Hin].
      * apply obj_set_keys in Hin as [-> | Hin]; [right; now left | now left].
      * right. now right.
Qed.

(** X25: the extension breakdown of the statistics.  Directories are
    left out; every file of the sample is counted once, so the counts add
    up to the number of sampled files; at most 30 extensions are listed,
    and each of them is the extension of a sampled file (or "(no
    extension)" for a file without one). *)
Theorem breakdown_counts_files (results : list SearchResult) (stats : ext_stats)
        (sampled_files : Z) (breakdown : obj) :
  sample_results results [] 0 = (stats, sampled_files) ->
  breakdown_of (firstn 30 (sorted_by_count stats)) [] = Return breakdown ->
  sampled_files = Z.of_nat (List.length (files_of results)) /\
  sum_counts stats = sampled_files /\
  (List.length breakdown <= 30)%nat /\
  forall ext, In ext (map fst breakdown) ->
              exists r, In r results /\ is_dir r = false /\ ext = counted_as r.
Proof.
  intros Hs Hb.
  destruct (sample_results_spec _ _ _ _ _ Hs) as (H1 & H2 & H3).
  destruct (breakdown_of_spec _ _ _ Hb) as [Hlen Hkeys].
  cbn [sum_counts fold_right] in H2.
  split; [lia |]. split; [lia |]. split.
  - pose proof (firstn_le_length 30 (sorted_by_count stats)). cbn [List.length] in Hlen. lia.
  - intros ext Hext. destruct (Hkeys ext Hext) as [[] | Hin].
    apply in_map_iff in Hin as (kv & <- & Hin).
    apply In_firstn in Hin. apply (proj1 (sorted_by_count_In _ _)) in Hin.
    assert (Hk : In (fst kv) (map fst stats)) by (apply in_map_iff; exists kv; split; [reflexivity | exact Hin]).
    destruct (H3 (fst kv) Hk) as [[] | (r & Hr & Heq)].
    apply filter_In in Hr as [Hr Hd]. exists r.
    split; [exact Hr |]. split; [| exact Heq].
    destruct (is_dir r); [discriminate | reflexivity].
Qed.

Lemma breakdown_counts_files_witness :
  let results :=
    [ mkSearchResult (lit "C:\a.py") (lit "a.py") false 10 [] [] (lit "py");
      mkSearchResult (lit "C:\src") (lit "src") true (-1) [] [] [];
      mkSearchResult (lit "C:\b.py") (lit "b.py") false 20 [] [] (lit "py");
      mkSearchResult (lit "C:\LICENSE") (lit "LICENSE") false (-1) [] [] [] ] in
  sum_counts [(lit "py", (2, 30)); (lit "(no extension)", (1, 0))] = 3.
Proof.
  intros results.
  refine (proj1 (proj2 (breakdown_counts_files results
                          [(lit "py", (2, 30)); (lit "(no extension)", (1, 0))] 3
                          _ _ _))).
  - vm_compute. reflexivity.
  - vm_compute. reflexivity.
Defined.

(** ** The preview *)

Lemma rstrip_by_length (f : char -> bool) (s : str) :
  (List.length (rstrip_by f s) <= List.length s)%nat.
Proof.
  induction s as [| c s IH]; [reflexivity |]. cbn [rstrip_by].
  destruct (rstrip_by f s) as [| y t].
  - destruct (f c); cbn; lia.
  - cbn [List.length] in *. lia.
Qed.

Lemma total_len_app (a b : list str) : total_len (a ++ b) = total_len a + total_len b.
Proof.
  unfold total_len. induction a as [| x a IH]; cbn [app fold_right]; lia.
Qed.

Lemma total_len_nonneg (l : list str) : 0 <= total_len l.
Proof.
  unfold total_len, len. induction l as [| x l IH]; cbn [fold_right]; lia.
Qed.

Lemma len_join (sp : str) (l : list str) :
  len (join sp l) <= total_len l + len sp * Z.of_nat (List.length l).
Proof.
  assert (Hsp : 0 <= len sp) by (unfold len; lia).
  induction l as [| a l IH]; [cbn; lia |].
  destruct l as [| b l].
  - unfold total_len, len. cbn. unfold len in Hsp. nia.
  - change (join sp (a :: b :: l)) with (a ++ sp ++ join sp (b :: l)).
    unfold len in *. rewrite !length_app.
    change (total_len (a :: b :: l)) with (len a + total_len (b :: l)).
    unfold len. cbn [List.length] in *. nia.
Qed.

Section PreviewProperties.
Context {World : Type}.
Variable readline : Z -> M World str.

Lemma read_lines_bounds (rounds : nat) :
  forall lines total_chars truncated lines' truncated' w w',
    read_lines readline rounds lines total_chars truncated w
      = (Return (lines', truncated'), w') ->
    total_len lines <= total_chars <= _MAX_PREVIEW_CHARS ->
    total_len lines' <= _MAX_PREVIEW_CHARS /\
    (List.length lines' <= List.length lines + rounds)%nat.
Proof.
  unfold _MAX_PREVIEW_CHARS.
  induction rounds as [| rounds IH];
    intros lines total_chars truncated lines' truncated' w w' H Hinv.
  - injection H as <- _ _. split; lia.
  - cbn [read_lines] in H. unfold _MAX_PREVIEW_CHARS, bind, ret in H.
    destruct (Z.leb_spec (50000 - total_chars) 0).
    { injection H as <- _ _. split; lia. }
    destruct (readline (50000 - total_chars + 1) w) as [[line | e] w1]; [| discriminate].
    destruct (truthy line); cbn [negb] in H.
    2: { injection H as <- _ _. split; lia. }
    set (cut := if 50000 - total_chars <? len line
                then (firstn (Z.to_nat (50000 - total_chars)) line, true)
                else (line, truncated)) in H.
    assert (Hcut : len (fst cut) <= 50000 - total_chars).
    { unfold cut. destruct (Z.ltb_spec (50000 - total_chars) (len line)); cbn [fst].
      - unfold len. rewrite length_firstn. lia.
      - assumption. }
    destruct cut as [line1 truncated1]. cbn [fst] in Hcut.
    assert (Hstrip : len (rstrip_chars [10; 13]%N line1) <= len line1).
    { unfold len, rstrip_chars. pose proof (rstrip_by_length (char_in [10; 13]%N) line1). lia. }
    assert (Hlen0 : 0 <= len (rstrip_chars [10; 13]%N line1)) by (unfold len; lia).
    assert (Hnew : total_len (lines ++ [rstrip_chars [10; 13]%N line1])
                   <= total_chars + len line1).
    { rewrite total_len_app. unfold total_len at 2. cbn [fold_right]. lia. }
    assert (Hcount : List.length (lines ++ [rstrip_chars [10; 13]%N line1])
                     = S (List.length lines)).
    { rewrite length_app. cbn. lia. }
    destruct (Z.leb_spec 50000 (total_chars + len line1)).
    + injection H as <- _ _. split; lia.
    + destruct (IH _ _ _ _ _ _ _ H) as [Hb1 Hb2]; [lia |]. split; lia.
Qed.

(** X26: a preview is bounded.  The text is the lines that the loop
    kept, joined by line breaks, with the truncation marker as a last line
    when the loop truncated; at most [max_lines] lines are kept; their
    text totals at most 50000 characters, whatever a read returns; and so
    the preview is never longer than 50000 characters, one line break per
    line and the truncation marker. *)
Theorem preview_is_bounded (max_lines : Z) (text : str) (w w' : World) :
  read_preview_text readline max_lines w = (Return text, w') ->
  exists lines truncated,
    read_lines readline (Z.to_nat max_lines) [] 0 false w
      = (Return (lines, truncated), w') /\
    text = join newline (if truncated : bool
                         then lines ++ [lit "... [preview truncated]"] else lines) /\
    Z.of_nat (List.length lines) <= Z.max 0 max_lines /\
    total_len lines <= 50000 /\
    len text <= 50000 + Z.max 0 max_lines + 24.
Proof.
  unfold read_preview_text, bind, ret.
  destruct (read_lines readline (Z.to_nat max_lines) [] 0 false w)
    as [[[lines truncated] | e] w1] eqn:Hr; [| discriminate].
  intros H. injection H as <- <-.
  destruct (read_lines_bounds _ _ _ _ _ _ _ _ Hr) as [Hlen Hcount].
  { unfold _MAX_PREVIEW_CHARS, total_len. cbn. lia. }
  unfold _MAX_PREVIEW_CHARS in Hlen. cbn [List.length] in Hcount.
  assert (Hrounds : Z.of_nat (Z.to_nat max_lines) = Z.max 0 max_lines) by lia.
  exists lines, truncated.
  split; [reflexivity |]. split; [reflexivity |].
  split; [lia |]. split; [exact Hlen |].
  destruct truncated.
  - pose proof (len_join newline (lines ++ [lit "... [preview truncated]"])) as Hj.
    rewrite total_len_app, length_app in Hj.
    change (total_len [lit "... [preview truncated]"]) with 23 in Hj.
    change (len newline) with 1 in Hj. cbn [List.length] in Hj. lia.
  - pose proof (len_join newline lines) as Hj.
    change (len newline) with 1 in Hj. lia.
Qed.
End PreviewProperties.

Lemma preview_is_bounded_witness :
  let file := [lit "alpha" ++ newline; lit "beta" ++ newline; lit "gamma" ++ newline;
               []; lit "never read"] in
  let text := lit "alpha" ++ newline ++ lit "beta" ++ newline ++ lit "gamma" in
  exists lines truncated,
    read_lines file_readline (Z.to_nat 5) [] 0 false file
      = (Return (lines, truncated), [lit "never read"]) /\
    text = join newline (if truncated : bool
                         then lines ++ [lit "... [preview truncated]"] else lines) /\
    Z.of_nat (List.length lines) <= Z.max 0 5 /\
    total_len lines <= 50000 /\
    len text <= 50000 + Z.max 0 5 + 24.
Proof.
  intros file text.
  apply (@preview_is_bounded (list str) file_readline 5 text file [lit "never read"]).
  vm_compute. reflexivity.
Defined.

(** The repository's test of the cap: one line of 70000 characters, one
    line asked for. *)
Example test_preview_is_char_capped :
  match read_preview_text file_readline 1
          [repeat 120%N (Z.to_nat 70000) ++ newline] with
  | (Return text, _) =>
      str_eqb text (repeat 120%N (Z.to_nat 50000) ++ newline
                    ++ lit "... [preview truncated]")
  | (Raise _, _) => false
  end = true.
Proof. vm_compute. reflexivity. Qed.

(** ** The repository's tests of the builders and the tools, on the model *)

Example test_format_search_results :
  _format_search_results [] (lit "*.py") 50 0 = Return (lit "No results found for: *.py") /\
  _format_search_results sample_results_fixture (lit "*.py") 50 0
    = Return (lit "Found 3 results for: *.py" ++ newline ++ newline
              ++ lit "  [FILE] C:\Projects\app\main.py  (2.0 KB, 2026-01-15 10:30:00)" ++ newline
              ++ lit "  [FILE] C:\Projects\app\utils.py  (512 B, 2026-01-14 14:20:00)" ++ newline
              ++ lit "  [DIR] C:\Projects\app\src  (2026-01-15 10:30:00)") /\
  _format_search_results sample_results_fixture (lit "*.py") 3 100
    = Return (lit "Found 3 results for: *.py (offset: 100)" ++ newline ++ newline
              ++ lit "  [FILE] C:\Projects\app\main.py  (2.0 KB, 2026-01-15 10:30:00)" ++ newline
              ++ lit "  [FILE] C:\Projects\app\utils.py  (512 B, 2026-01-14 14:20:00)" ++ newline
              ++ lit "  [DIR] C:\Projects\app\src  (2026-01-15 10:30:00)" ++ newline ++ newline
              ++ lit "Showing first 3 results.  Use 'offset' to paginate or refine the query.").
Proof. repeat split; vm_compute; reflexivity. Qed.

Example test_build_type_query :
  let U := ascii_unicode in
  (exists q, build_type_query (lit "code") [] [] = Return q /\
             startswith (lit "ext:") q = true /\ str_contains (lit "py") q = true) /\
  (exists q, build_type_query (lit "image") [] (lit "C:\Photos") = Return q /\
             str_contains (lit "path:" ++ [quote] ++ lit "C:\Photos" ++ [quote]) q = true /\
             str_contains (lit "jpg") q = true) /\
  (exists q, build_type_query (lit "audio") (lit "jazz") (lit "D:\Music") = Return q /\
             str_contains (lit "mp3") q = true /\ str_contains (lit "jazz") q = true /\
             str_contains (lit "path:" ++ [quote] ++ lit "D:\Music" ++ [quote]) q = true) /\
  (exists q, build_type_query (lit "CODE") [] [] = Return q /\
             str_contains (lit "py") q = true) /\
  Forall (fun ftype => exists q, build_type_query ftype [] [] = Return q /\
                                 startswith (lit "ext:") q = true)
         (keys FILE_TYPES).
Proof.
  intros U.
  do 4 (split; [eexists; repeat split; vm_compute; reflexivity |]).
  repeat constructor; eexists; split; vm_compute; reflexivity.
Qed.

Example test_build_recent_query :
  build_recent_query (lit "1hour") [] [] = lit "dm:last1hour" /\
  build_recent_query (lit "today") [] [] = lit "dm:today" /\
  build_recent_query (lit "1week") (lit "C:\Projects") []
    = lit "dm:last1week path:" ++ [quote] ++ lit "C:\Projects" ++ [quote] /\
  build_recent_query (lit "1hour") [] (lit "py,js,ts") = lit "dm:last1hour ext:py;js;ts" /\
  build_recent_query (lit "1hour") [] (lit "py;js;ts") = lit "dm:last1hour ext:py;js;ts" /\
  build_recent_query (lit "1hour") [] (lit ".py,.js") = lit "dm:last1hour ext:py;js" /\
  build_recent_query (lit "last42days") [] [] = lit "dm:last42days" /\
  Forall (fun kv => build_recent_query (lit (fst kv)) [] [] = lit "dm:" ++ lit (snd kv))
         TIME_PERIODS.
Proof.
  do 7 (split; [vm_compute; reflexivity |]).
  repeat constructor.
Qed.

Example test_sort_validation :
  validate_sort (lit "date-modified-desc") = Return (lit "date-modified-desc") /\
  (exists e, validate_sort (lit "invalid-sort") = Raise e /\
             exn_type e = ValueError /\
             startswith (lit "Invalid sort option") (exn_message e) = true) /\
  Forall (fun k => validate_sort k = Return k) (keys SORT_MAP).
Proof.
  split; [vm_compute; reflexivity |]. split.
  - eexists. repeat split; vm_compute; reflexivity.
  - repeat constructor.
Qed.

Example test_search_builds_correct_command :
  let P := demo_platform WindowsFlavour true in
  @search_argv demo_config (lit "*.py") 10 (lit "name") false false false false 0
    = [ es_path demo_config; lit "-n"; lit "10"; lit "-sort"; lit "name"; lit "*.py" ] /\
  @search_argv
     (mkConfig (lit "C:\Program Files\Everything 1.5a\es.exe") (lit "1.5a") 30 1000 [] []
        (lit "Everything v1.5.0.1355a"))
     (lit "*.py") 100 (lit "name") false false false false 0
    = [ lit "C:\Program Files\Everything 1.5a\es.exe"; lit "-instance"; lit "1.5a";
        lit "-n"; lit "100"; lit "-sort"; lit "name"; lit "*.py" ] /\
  @search_argv demo_config (lit "test") 100 (lit "name") true true true true 50
    = [ es_path demo_config; lit "-n"; lit "100"; lit "-o"; lit "50";
        lit "-sort"; lit "name"; lit "-case"; lit "-w"; lit "-r"; lit "-p"; lit "test" ] /\
  @search_argv demo_config (lit "*") 5000 (lit "size-asc") false false false false 0
    = [ es_path demo_config; lit "-n"; lit "1000"; lit "-sort"; lit "size"; lit "*" ].
Proof. intros P. repeat split; vm_compute; reflexivity. Qed.

Example test_health_check :
  let P := demo_platform WindowsFlavour true in
  @health_check P unit (machine_OS (exits_with (lit "1.4.1.1024" ++ [10]%N) [] 0))
     demo_config tt
    = (Return [ ("status", SStr (lit "ok"));
                ("everything_version", SStr (lit "1.4.1.1024"));
                ("es_path", SStr (es_path demo_config));
                ("instance", SStr (lit "default")) ]%string, tt) /\
  @health_check P unit (machine_OS bare_machine)
     (mkConfig [] [] 30 1000 [lit "es.exe not found"] [] []) tt
    = (Return [ ("status", SStr (lit "error"));
                ("errors", SList [lit "es.exe not found"]);
                ("es_path", SStr (lit "not found")) ]%string, tt) /\
  @health_check P unit (machine_OS hanging) demo_config tt
    = (Return [ ("status", SStr (lit "error"));
                ("message",
                 SStr (lit "Search timed out after 30s. Try a more specific query or increase timeout.")) ]%string,
       tt).
Proof. intros P. repeat split; vm_compute; reflexivity. Qed.

Example test_tool_error_handling :
  let P := demo_platform WindowsFlavour true in
  let O := machine_OS bare_machine in
  @everything_search ascii_unicode P unit O None None
     (mkSearchInput (lit "*.py") 50 (lit "date-modified-desc") false false false false 0) tt
    = (Return (lit "Error: Everything MCP not initialised"), tt) /\
  @everything_count_stats ascii_unicode P unit O None None
     (CountStatsInput.mk (lit "*.py") true false) tt
    = (Return (ErrorText (lit "Error: Everything MCP not initialised")), tt) /\
  @everything_search_by_type ascii_unicode P unit O (Some demo_config) (Some demo_config)
     (SearchByTypeInput.mk (lit "films") [] [] 50 (lit "date-modified-desc")) tt
    = (Return (lit "Error: Unknown file type 'films'. Available: 3d, archive, audio, code, data, document, executable, font, image, video"),
       tt) /\
  @everything_find_recent ascii_unicode P unit O (Some demo_config) (Some demo_config)
     (FindRecentInput.mk (lit "1hour") [] (lit "py") [] 50) tt
    = (Return (lit "Error: es.exe not found at: C:\Program Files\Everything\es.exe. Verify Everything is installed."),
       tt).
Proof. intros P O. repeat split; vm_compute; reflexivity. Qed.

Example test_count_stats_breakdown_excludes_directories :
  @everything_count_stats ascii_unicode (demo_platform WindowsFlavour true) unit
     (machine_OS repo_machine) (Some demo_config) (Some demo_config)
     (CountStatsInput.mk (lit "path:C:\repo") true true) tt
    = (Return
         (Stats
            [ (lit "query", JStr (lit "path:C:\repo"));
              (lit "total_count", JInt 3);
              (lit "total_size", JInt 1300);
              (lit "total_size_human", JStr (lit "1.3 KB"));
              (lit "extension_breakdown",
               JObj [ (lit "py",
                       JObj [ (lit "count", JInt 1); (lit "total_size", JInt 1200);
                              (lit "total_size_human", JStr (lit "1.2 KB")) ]);
                      (lit "(no extension)",
                       JObj [ (lit "count", JInt 1); (lit "total_size", JInt 100);
                              (lit "total_size_human", JStr (lit "100 B")) ]) ]);
              (lit "breakdown_note",
               JStr (lit "Based on 2 sampled files from first 3 results (max sample 500); directories excluded.")) ]),
       tt).
Proof. vm_compute. reflexivity. Qed.
